(** * Matugen Theme Bridge: a shallow embedding of the core and its properties

    The development follows the TypeScript sources:

    - [src/types.ts]                 ColorMap, PaletteReadResult, MANAGED_KEY, ManagedMeta
    - [src/engine/colorApplier.ts]   applyColors, clearColors, getManagedStatus
    - [src/engine/paletteReader.ts]  isHex, isColorToken, resolvePalettePath, readPalette
    - [src/utils/debounce.ts]        debounce
    - [src/watcher/paletteWatcher.ts] PaletteWatcher

    Modelling conventions.

    - A JavaScript string is a [string]; a character stands for one UTF-16
      code unit in the range U+0000..U+00FF.
    - JSON data read from the settings store or the palette file is a
      [JValue]; numbers are integers: [JNum n] is the number that the
      integer literal [n] denotes (the nearest double), and it is printed
      as [Number::toString] prints it. The fields of a [JObj] are the own
      properties of the object, each name once.
    - [workbench.colorCustomizations] is used by the code purely as a map
      from the names of its own properties to their values: it is a
      [gmap string JValue].
    - A [ColorMap] is the list that [Object.entries] returns for it, since
      the order of its keys is recorded in the metadata.
    - Exceptions are explicit: an effectful function returns an [Outcome]
      together with the world it leaves behind.
    - Whether the host takes a write of the settings is part of the world:
      [config.update] writes, or it rejects and leaves the store as it is.
      The calls of the engine do not change which of the two it does.
    - Timers live in an explicit queue with a logical clock in
      milliseconds; a callback runs when the program is back in the event
      loop and its time has come, which is one millisecond after it was
      set at the earliest. *)

From Stdlib Require Import ZArith Lia Ascii.
From stdpp Require Import base strings list gmap fin_maps pretty.

Local Open Scope string_scope.

(** ** JavaScript values *)

#[warnings="-register-all"]
Inductive JValue : Type :=
  | JNull
  | JBool (b : bool)
  | JNum (n : Z)
  | JStr (s : string)
  | JArr (items : list JValue)
  | JObj (fields : list (string * JValue)).

(** Run-time values the code can hold in a variable: [undefined], the one
    built-in function it can reach ([Array.prototype.keys], reached by
    reading [.keys] on an array), or JSON data. *)
Inductive Value : Type :=
  | VUndefined
  | VNative (arity : nat)
  | VJson (j : JValue).

(** What can be thrown: a [TypeError] of the engine, or the [Error] with
    which the host rejects a write of the settings. *)
Inductive JsError : Type :=
  | TypeError (msg : string)
  | HostError (msg : string).

(** [(e as Error).message] *)
Definition error_message (e : JsError) : string :=
  match e with
  | TypeError msg | HostError msg => msg
  end.

Inductive Outcome (A : Type) : Type :=
  | Returned (a : A)
  | Threw (e : JsError).
Arguments Returned {A} a.
Arguments Threw {A} e.

(** The three members the code reads: [.keys], [.appliedAt], [.length]. *)
Inductive Member : Type := Mkeys | MappliedAt | Mlength.

Definition member_name (m : Member) : string :=
  match m with
  | Mkeys => "keys"
  | MappliedAt => "appliedAt"
  | Mlength => "length"
  end.

Fixpoint own_prop (name : string) (fields : list (string * JValue)) : option JValue :=
  match fields with
  | [] => None
  | (k, v) :: rest => if decide (k = name) then Some v else own_prop name rest
  end.

Definition nullish (v : Value) : bool :=
  match v with
  | VUndefined | VJson JNull => true
  | _ => false
  end.

(** [!v] is true exactly on the falsy values. *)
Definition falsy (v : Value) : bool :=
  match v with
  | VUndefined | VJson JNull | VJson (JBool false) | VJson (JNum 0) | VJson (JStr "") => true
  | _ => false
  end.

Definition js_length (s : string) : Z := Z.of_nat (String.length s).

(** [v.m]: member access. Reading a member of [undefined] or [null] throws;
    primitives are boxed and have none of the three members except the
    [length] of a string; arrays have [length] and inherit the built-in
    [keys] (a function of arity 0); plain objects have their own fields. *)
Definition get_member (v : Value) (m : Member) : Outcome Value :=
  match v with
  | VUndefined =>
      Threw (TypeError ("Cannot read properties of undefined (reading '" +:+ member_name m +:+ "')"))
  | VJson JNull =>
      Threw (TypeError ("Cannot read properties of null (reading '" +:+ member_name m +:+ "')"))
  | VJson (JObj fields) =>
      Returned (from_option VJson VUndefined (own_prop (member_name m) fields))
  | VJson (JArr items) =>
      match m with
      | Mlength => Returned (VJson (JNum (Z.of_nat (length items))))
      | Mkeys => Returned (VNative 0)
      | MappliedAt => Returned VUndefined
      end
  | VJson (JStr s) =>
      match m with
      | Mlength => Returned (VJson (JNum (js_length s)))
      | _ => Returned VUndefined
      end
  | VNative n =>
      match m with
      | Mlength => Returned (VJson (JNum (Z.of_nat n)))
      | _ => Returned VUndefined
      end
  | VJson (JBool _) | VJson (JNum _) => Returned VUndefined
  end.

(** [a ?? b] *)
Definition nullish_or (a b : Value) : Value := if nullish a then b else a.

(** *** Number::toString

    The double nearest to a positive integer (ties to even); [None] when
    it is out of range and reads as [Infinity]. *)
Definition to_double (z : Z) : option Z :=
  let bits := (Z.log2 z + 1)%Z in
  if (bits <=? 53)%Z then Some z
  else
    let sh := (bits - 53)%Z in
    let q := Z.shiftr z sh in
    let r := (z - Z.shiftl q sh)%Z in
    let half := Z.shiftl 1 (sh - 1) in
    let q' := if ((half <? r) || ((r =? half) && Z.odd q))%Z then (q + 1)%Z else q in
    let x := Z.shiftl q' sh in
    if (Z.log2 x <? 1024)%Z then Some x else None.

(** Whether the decimal [v] reads back as the double [x] (with
    [2^53 <= x]): it lies between the midpoints to the neighbours of [x],
    which belong to [x] when its mantissa is even. Compared four-fold, to
    stay in the integers. *)
Definition reads_as (x v : Z) : bool :=
  let sh := (Z.log2 x - 52)%Z in
  let m := Z.shiftr x sh in
  let up := Z.shiftl 1 (sh + 1) in
  let down := if (m =? Z.shiftl 1 52)%Z then Z.shiftl 1 sh else up in
  let lo := (4 * x - down)%Z in
  let hi := (4 * x + up)%Z in
  if Z.even m then ((lo <=? 4 * v) && (4 * v <=? hi))%Z
  else ((lo <? 4 * v) && (4 * v <? hi))%Z.

Definition digit_count (z : Z) : Z := Z.of_nat (String.length (pretty z)).

(** The decimal with the fewest significant digits that reads back as [x],
    the nearest to [x] when two have as few: tried with [k = 1, 2, ...]
    significant digits. *)
Fixpoint shortest_decimal (fuel : nat) (k : Z) (x : Z) : Z :=
  match fuel with
  | O => x
  | S fuel' =>
      let p := (10 ^ (digit_count x - k))%Z in
      let below := (x / p * p)%Z in
      let above := (below + p)%Z in
      match reads_as x below, reads_as x above with
      | true, true => if (x - below <=? above - x)%Z then below else above
      | true, false => below
      | false, true => above
      | false, false => shortest_decimal fuel' (k + 1)%Z x
      end
  end.

Fixpoint strip_zeros (l : list ascii) : list ascii :=
  match l with
  | "0"%char :: rest => strip_zeros rest
  | _ => l
  end.

(** On a positive integer-valued double: all its digits up to [2^53];
    above, the shortest decimal that reads back as it, padded with zeros
    up to 21 digits and in exponent notation beyond. *)
Definition double_to_string (x : Z) : string :=
  if (x <=? 2 ^ 53)%Z then pretty x
  else
    let v := shortest_decimal 17 1 x in
    let n := digit_count v in
    if (n <=? 21)%Z then pretty v
    else
      match rev (strip_zeros (rev (String.list_ascii_of_string (pretty v)))) with
      | [] => pretty v
      | [d] => String d "e+" +:+ pretty (n - 1)%Z
      | d :: more =>
          String d ("." +:+ String.string_of_list_ascii more) +:+ "e+" +:+ pretty (n - 1)%Z
      end.

Definition number_to_string (n : Z) : string :=
  match n with
  | Z0 => "0"
  | Zpos _ => from_option double_to_string "Infinity" (to_double n)
  | Zneg p => "-" +:+ from_option double_to_string "Infinity" (to_double (Zpos p))
  end.

(** *** String(j)

    The conversion used when a value becomes a property key or is
    interpolated in a template literal. It throws on an object with an own
    [toString] property (data read from JSON is never callable, and the
    inherited [valueOf] returns the object), and on an array that holds
    such an object, since [Array.prototype.toString] joins the converted
    elements. [stringifiable] tells when it does not throw, and
    [js_to_string] is its result then. *)
Fixpoint stringifiable (j : JValue) : bool :=
  match j with
  | JArr items => forallb stringifiable items
  | JObj fields => negb (bool_decide (is_Some (own_prop "toString" fields)))
  | _ => true
  end.

Fixpoint js_to_string (j : JValue) : string :=
  match j with
  | JNull => "null"
  | JBool b => if b then "true" else "false"
  | JNum n => number_to_string n
  | JStr s => s
  | JArr items =>
      String.concat ","
        (List.map (fun x => match x with JNull => "" | _ => js_to_string x end) items)
  | JObj _ => "[object Object]"
  end.

Definition value_to_string (v : Value) : string :=
  match v with
  | VUndefined => "undefined"
  | VNative _ => "function keys() { [native code] }"
  | VJson j => js_to_string j
  end.

(** The conversions of a list of values, in order: the first that throws
    ends them. *)
Definition to_property_keys (ks : list JValue) : Outcome (list string) :=
  if forallb stringifiable ks then Returned (js_to_string <$> ks)
  else Threw (TypeError "Cannot convert object to primitive value").

Definition code_points (s : string) : list string :=
  (fun c => String c EmptyString) <$> String.list_ascii_of_string s.

(** [for (const key of v)], where [expr] is the text of the iterated
    expression, which the engine quotes in its error message: arrays yield
    their elements, strings their characters; nothing else the code can
    hold is iterable. *)
Definition for_of (expr : string) (v : Value) : Outcome (list JValue) :=
  match v with
  | VJson (JArr items) => Returned items
  | VJson (JStr s) => Returned (JStr <$> code_points s)
  | _ => Threw (TypeError (expr +:+ " is not iterable"))
  end.

(** ** src/types.ts *)

Abbreviation ColorMap := (list (string * string)).

Definition MANAGED_KEY : string := "__matugenBridge".

Inductive PaletteReadResult : Type :=
  | ReadOk (colors : ColorMap)
  | ReadFailed (error : string).

(** [Object.keys(colors)] and [colors[key] = value] on a ColorMap. *)
Definition Object_keys (colors : ColorMap) : list string := colors.*1.

Fixpoint cm_set (key value : string) (colors : ColorMap) : ColorMap :=
  match colors with
  | [] => [(key, value)]
  | (k, v) :: rest =>
      if decide (k = key) then (k, value) :: rest else (k, v) :: cm_set key value rest
  end.

(** ** The host: settings store and logger *)

Inductive LogLevel : Type := Info | Debug | Error.

(** [settings] is the value stored under [workbench.colorCustomizations]
    in the user settings ([None] when the setting is absent); [journal]
    holds the calls made to the logger, in order; [store_fault] is
    [Some msg] while the host refuses to write the settings, in which case
    [config.update] rejects with an [Error] whose message is [msg]. *)
Record World : Type := mkWorld {
  settings : option (gmap string JValue);
  journal : list (LogLevel * string);
  store_fault : option string
}.

Definition Eff (A : Type) : Type := World -> Outcome A * World.

Definition eff_ret {A} (a : A) : Eff A := fun w => (Returned a, w).

Definition eff_bind {A B} (m : Eff A) (k : A -> Eff B) : Eff B :=
  fun w => match m w with
           | (Returned a, w') => k a w'
           | (Threw e, w') => (Threw e, w')
           end.

#[global] Instance Eff_ret : MRet Eff := @eff_ret.
#[global] Instance Eff_bind : MBind Eff := fun A B k m => eff_bind m k.

Definition lift {A} (o : Outcome A) : Eff A := fun w => (o, w).

(** [config.get<Record<string, unknown>>(COLOR_CUSTOMIZATIONS, {})] *)
Definition config_get : Eff (gmap string JValue) :=
  fun w => (Returned (default ∅ (settings w)), w).

(** [await config.update(COLOR_CUSTOMIZATIONS, next, TARGET)]: the write
    happens, or the promise is rejected and nothing is written. *)
Definition config_update (next : gmap string JValue) : Eff unit :=
  fun w => match store_fault w with
           | Some msg => (Threw (HostError msg), w)
           | None =>
               (Returned tt,
                {| settings := Some next; journal := journal w; store_fault := None |})
           end.

Definition logger (lvl : LogLevel) (msg : string) : Eff unit :=
  fun w => (Returned tt,
            {| settings := settings w; journal := journal w ++ [(lvl, msg)];
               store_fault := store_fault w |}).

(** [current[MANAGED_KEY]] *)
Definition read_meta (current : gmap string JValue) : Value :=
  from_option VJson VUndefined (current !! MANAGED_KEY).

(** ** src/engine/colorApplier.ts *)

(** [for (const key of ks) delete next[key]], for keys that convert to
    property names. The loop works on a copy that is discarded when a
    conversion throws, so the callers check [to_property_keys ks] first. *)
Definition delete_all (ks : list JValue) (next : gmap string JValue) : gmap string JValue :=
  foldl (fun nx key => delete (js_to_string key) nx) next ks.

(** [next[token] = hex] for a string [hex]: the own property is written or
    created, except under the name [__proto__] when [next] has no own
    property of that name: the assignment then reaches the setter that
    [Object.prototype] provides, which ignores a string. *)
Definition assign (token hex : string) (next : gmap string JValue) : gmap string JValue :=
  if bool_decide (token = "__proto__") && negb (bool_decide (is_Some (next !! token)))
  then next
  else <[token := JStr hex]> next.

(** [for (const [token, hex] of Object.entries(newColors)) next[token] = hex] *)
Definition merge_colors (newColors : ColorMap) (next : gmap string JValue) : gmap string JValue :=
  foldl (fun nx '(token, hex) => assign token hex nx) next newColors.

Definition new_meta (newColors : ColorMap) (now : string) : JValue :=
  JObj [("keys", JArr (JStr <$> Object_keys newColors)); ("appliedAt", JStr now)].

(** [now] is the value of [new Date().toISOString()] at the call. *)
Definition applyColors (newColors : ColorMap) (now : string) : Eff unit :=
  current ← config_get;
  let meta := read_meta current in
  (* meta?.keys ?? [] *)
  keysv ← lift (if nullish meta then Returned VUndefined else get_member meta Mkeys);
  let previouslyManaged := nullish_or keysv (VJson (JArr [])) in
  ks ← lift (for_of "previouslyManaged" previouslyManaged);
  lift (to_property_keys ks);;
  let next := delete_all ks current in
  let next := delete MANAGED_KEY next in
  let next := merge_colors newColors next in
  let next := <[MANAGED_KEY := new_meta newColors now]> next in
  config_update next;;
  logger Info ("Applied " +:+ pretty (length (Object_keys newColors)) +:+ " color overrides.").

Definition clearColors : Eff unit :=
  current ← config_get;
  let meta := read_meta current in
  if falsy meta then logger Info "No managed colors found — nothing to clear."
  else
    keysv ← lift (get_member meta Mkeys);
    len ← lift (get_member keysv Mlength);
    match len with
    | VJson (JNum 0) => logger Info "No managed colors found — nothing to clear."
    | _ =>
        ks ← lift (for_of "meta.keys" keysv);
        lift (to_property_keys ks);;
        let next := delete_all ks current in
        let next := delete MANAGED_KEY next in
        config_update next;;
        logger Info ("Cleared " +:+ value_to_string len +:+ " managed color override(s).")
    end.

Record ManagedStatus : Type := mkStatus {
  count : JValue;
  appliedAt : JValue
}.

(** A value that went through [?? 0] or [?? null] is never [undefined];
    the built-in function cannot occur there either, since neither
    [.length] nor [.appliedAt] ever yields it. *)
Definition as_json (v : Value) : JValue :=
  match v with
  | VJson j => j
  | _ => JNull
  end.

Definition getManagedStatus : Eff ManagedStatus :=
  current ← config_get;
  let meta := read_meta current in
  (* meta?.keys.length ?? 0 *)
  len ← lift (if nullish meta then Returned VUndefined
              else match get_member meta Mkeys with
                   | Returned k => get_member k Mlength
                   | Threw e => Threw e
                   end);
  (* meta?.appliedAt ?? null *)
  at_ ← lift (if nullish meta then Returned VUndefined else get_member meta MappliedAt);
  mret {| count := as_json (nullish_or len (VJson (JNum 0)));
          appliedAt := as_json (nullish_or at_ (VJson JNull)) |}.

(** The callers ([applyPalette], the command handlers) run these
    operations one after the other; a call that throws leaves the session
    running, with whatever world it left behind. *)
Inductive Call : Type :=
  | CallApply (newColors : ColorMap) (now : string)
  | CallClear.

Definition run_call (c : Call) : Eff unit :=
  match c with
  | CallApply newColors now => applyColors newColors now
  | CallClear => clearColors
  end.

Definition exec {A} (m : Eff A) (w : World) : World := snd (m w).

Fixpoint run_calls (cs : list Call) (w : World) : World :=
  match cs with
  | [] => w
  | c :: rest => run_calls rest (exec (run_call c) w)
  end.

(** The shared configuration object as the code sees it. *)
Definition cfg (w : World) : gmap string JValue := default ∅ (settings w).

(** The property names that iterating [meta.keys] yields, when there is a
    metadata entry with an iterable [keys]: the elements of an array, each
    converted to a string, or the characters of a string. *)
Definition owned_keys (current : gmap string JValue) : list string :=
  match current !! MANAGED_KEY with
  | Some meta =>
      match get_member (VJson meta) Mkeys with
      | Returned keysv =>
          match for_of "meta.keys" keysv with
          | Returned ks => js_to_string <$> ks
          | Threw _ => []
          end
      | Threw _ => []
      end
  | None => []
  end.

(** The previously-owned list as the type [ManagedMeta] declares it: the
    strings of the array [keys] of the metadata record. *)
Definition ManagedMeta_keys (current : gmap string JValue) : list string :=
  match current !! MANAGED_KEY with
  | Some (JObj fields) =>
      match own_prop "keys" fields with
      | Some (JArr items) =>
          omap (fun j => match j with JStr s => Some s | _ => None end) items
      | _ => []
      end
  | _ => []
  end.

(** What [applyColors] iterates over and deletes, [meta?.keys ?? []], when
    the loop over it runs to its end. *)
Definition previouslyManaged (current : gmap string JValue) : Outcome (list JValue) :=
  let meta := read_meta current in
  match (if nullish meta then Returned VUndefined else get_member meta Mkeys) with
  | Returned keysv =>
      match for_of "previouslyManaged" (nullish_or keysv (VJson (JArr []))) with
      | Returned ks =>
          match to_property_keys ks with
          | Returned _ => Returned ks
          | Threw e => Threw e
          end
      | Threw e => Threw e
      end
  | Threw e => Threw e
  end.

(** The object [applyColors] persists once the old keys [ks] are known. *)
Definition applied (ks : list JValue) (newColors : ColorMap) (now : string)
    (current : gmap string JValue) : gmap string JValue :=
  <[MANAGED_KEY := new_meta newColors now]>
    (merge_colors newColors (delete MANAGED_KEY (delete_all ks current))).

(** Forget the timestamp of the metadata record. *)
Definition strip_appliedAt (o : gmap string JValue) : gmap string JValue :=
  alter (fun meta =>
           match meta with
           | JObj fields => JObj (filter (fun kv => kv.1 ≠ "appliedAt") fields)
           | other => other
           end) MANAGED_KEY o.

(** Metadata entries for which [meta?.keys ?? []] is the empty list:
    no entry, [null], a primitive, or an object without a [keys] field
    (or whose [keys] is [null]). *)
Definition meta_without_keys (meta : Value) : bool :=
  match meta with
  | VUndefined => true
  | VJson JNull | VJson (JBool _) | VJson (JNum _) | VJson (JStr _) => true
  | VJson (JObj fields) =>
      match own_prop "keys" fields with
      | None | Some JNull => true
      | Some _ => false
      end
  | VJson (JArr _) | VNative _ => false
  end.

(** ** src/engine/paletteReader.ts *)

Definition is_hex_digit (c : ascii) : bool :=
  let n := Ascii.nat_of_ascii c in
  (((48 <=? n) && (n <=? 57)) || ((65 <=? n) && (n <=? 70))
   || ((97 <=? n) && (n <=? 102)))%nat.

(** [HEX_RE.test(v)] for
    [/^#([0-9a-fA-F]{3}|[0-9a-fA-F]{4}|[0-9a-fA-F]{6}|[0-9a-fA-F]{8})$/]. *)
Definition isHex (v : string) : bool :=
  match v with
  | String "#" digits =>
      forallb is_hex_digit (String.list_ascii_of_string digits)
      && bool_decide (String.length digits ∈ [3; 4; 6; 8])
  | _ => false
  end.

(** [s.startsWith(p)] and [s.includes(p)] *)
Definition startsWith (p s : string) : bool := String.prefix p s.

Fixpoint includes (p s : string) : bool :=
  String.prefix p s ||
  match s with
  | EmptyString => false
  | String _ rest => includes p rest
  end.

Definition isColorToken (key : string) : bool :=
  negb (startsWith "_" key) && includes "." key.

(** White space and line terminators removed by [trim], among the code
    units below U+0100: TAB, LF, VT, FF, CR, SPACE, NBSP. *)
Definition is_js_space (c : ascii) : bool :=
  bool_decide (Ascii.nat_of_ascii c ∈ [9; 10; 11; 12; 13; 32; 160]).

Fixpoint trim_start (l : list ascii) : list ascii :=
  match l with
  | [] => []
  | c :: rest => if is_js_space c then trim_start rest else l
  end.

Definition trim (s : string) : string :=
  String.string_of_list_ascii
    (rev (trim_start (rev (trim_start (String.list_ascii_of_string s))))).

(** [s.slice(1)] *)
Definition slice1 (s : string) : string :=
  match s with
  | EmptyString => EmptyString
  | String _ rest => rest
  end.

Section PaletteReader.

(** The platform: [os.homedir()], [process.env["XDG_CONFIG_HOME"]] and
    Node's variadic [path.join]. *)
Variable homedir : string.
Variable XDG_CONFIG_HOME : option string.
Variable path_join : list string -> string.

Definition default_palette_path : string :=
  let configDir := default (path_join [homedir; ".config"]) XDG_CONFIG_HOME in
  path_join [configDir; "VSCodium"; "User"; "Theme"; "vscode-palette.json"].

(** [customPath : string | undefined]; [undefined] is [None]. *)
Definition resolvePalettePath (customPath : option string) : string :=
  match customPath with
  | Some p =>
      if negb (bool_decide (p = "")) && negb (bool_decide (trim p = "")) then
        if startsWith "~" p then path_join [homedir; slice1 p] else p
      else default_palette_path
  | None => default_palette_path
  end.

End PaletteReader.

(** What the file system answers for a path: [existsSync] is false, or
    [readFileSync] throws with a message, or it returns the text. *)
Inductive FileProbe : Type :=
  | NoSuchFile
  | ReadFault (msg : string)
  | FileText (raw : string).

Definition dquote : string := String (Ascii.ascii_of_nat 34) EmptyString.

(** The body of the [for (const [key, value] of Object.entries(parsed))]
    loop, with the two mutable locals [colors] and [skipped]. *)
Fixpoint extract_tokens (entries : list (string * JValue)) (colors : ColorMap) (skipped : nat)
    : Eff (ColorMap * nat) :=
  match entries with
  | [] => mret (colors, skipped)
  | (key, value) :: rest =>
      if negb (isColorToken key) then extract_tokens rest colors skipped
      else
        match value with
        | JStr v =>
            if negb (isHex v) then
              logger Debug ("Skipping non-hex value for token " +:+ dquote +:+ key +:+ dquote
                            +:+ ": " +:+ v);;
              extract_tokens rest colors (S skipped)
            else extract_tokens rest (cm_set key v colors) skipped
        | _ => extract_tokens rest colors (S skipped)
        end
  end.

Section ReadPalette.

(** The file system and [JSON.parse]; [inl msg] is a thrown [SyntaxError]. *)
Variable fs : string -> FileProbe.
Variable JSON_parse : string -> string + JValue.

Definition readPalette (filePath : string) : Eff PaletteReadResult :=
  match fs filePath with
  | NoSuchFile => mret (ReadFailed ("Palette file not found: " +:+ filePath))
  | ReadFault msg => mret (ReadFailed ("Cannot read palette file: " +:+ msg))
  | FileText raw =>
      match JSON_parse raw with
      | inl msg => mret (ReadFailed ("Palette JSON is malformed: " +:+ msg))
      | inr (JObj entries) =>
          '(colors, skipped) ← extract_tokens entries [] 0;
          let count := length (Object_keys colors) in
          if bool_decide (count = 0) then
            mret (ReadFailed "Palette file contained no valid VS Code color tokens.")
          else
            logger Debug ("Palette loaded: " +:+ pretty count +:+ " token(s) applied, "
                          +:+ pretty skipped +:+ " skipped.");;
            mret (ReadOk colors)
      | inr _ => mret (ReadFailed "Palette JSON must be a plain object at root level.")
      end
  end.

End ReadPalette.

(** The entries the specification asks for: token-shaped key, string value
    of hex-color shape; and those that count as skipped. *)
Definition usable (kv : string * JValue) : option (string * string) :=
  match kv.2 with
  | JStr v => if isColorToken kv.1 && isHex v then Some (kv.1, v) else None
  | _ => None
  end.

Definition counts_as_skipped (kv : string * JValue) : bool :=
  isColorToken kv.1 &&
  match kv.2 with
  | JStr v => negb (isHex v)
  | _ => true
  end.

(** Node's [path.join] on POSIX, to run the model on concrete paths:
    the non-empty arguments are joined with a slash and normalised. *)
Fixpoint split_slash (cur : string) (s : string) : list string :=
  match s with
  | EmptyString => [String.rev cur]
  | String c rest =>
      if Ascii.eqb c "/" then String.rev cur :: split_slash "" rest
      else split_slash (String c cur) rest
  end.

Fixpoint norm_segments (allowAboveRoot : bool) (segs acc : list string) : list string :=
  match segs with
  | [] => rev acc
  | s :: rest =>
      if bool_decide (s = "" ∨ s = ".") then norm_segments allowAboveRoot rest acc
      else if bool_decide (s = "..") then
        match acc with
        | top :: acc' =>
            if bool_decide (top = "..") then norm_segments allowAboveRoot rest (s :: acc)
            else norm_segments allowAboveRoot rest acc'
        | [] =>
            if allowAboveRoot then norm_segments allowAboveRoot rest [s]
            else norm_segments allowAboveRoot rest []
        end
      else norm_segments allowAboveRoot rest (s :: acc)
  end.

Definition posix_normalize (p : string) : string :=
  if bool_decide (p = "") then "."
  else
    let isAbsolute := startsWith "/" p in
    let trailing := startsWith "/" (String.rev p) in
    let body := String.concat "/" (norm_segments (negb isAbsolute) (split_slash "" p) []) in
    if bool_decide (body = "") then
      if isAbsolute then "/" else if trailing then "./" else "."
    else (if isAbsolute then "/" else "") +:+ body +:+ (if trailing then "/" else "").

Definition posix_join (parts : list string) : string :=
  let joined := String.concat "/" (filter (fun s => s ≠ "") parts) in
  if bool_decide (joined = "") then "." else posix_normalize joined.

(** ** src/utils/debounce.ts, over an explicit timer queue

    Time is a logical clock in milliseconds. [setTimeout] puts a callback
    in the queue, [clearTimeout] removes it, and the callbacks that are due
    run when the program returns to the event loop ([elapse]), earliest
    first. A callback of [debounce] is the data of its closure: the
    debounced instance it belongs to and the arguments it captured.
    Running the wrapped [fn] is recorded in [executed]. *)

Section EventLoop.

Context {A : Type}.
Local Open Scope nat_scope.

Record Timeout : Type := mkTimeout {
  timeoutId : nat;
  dueAt : nat;
  owner : nat;
  args : A
}.

(** The state captured by one closure returned by [debounce]. *)
Record Debounced : Type := mkDebounced {
  delayMs : nat;
  timer : option nat
}.

Record Loop : Type := mkLoop {
  clock : nat;
  nextTimeout : nat;
  timeouts : list Timeout;
  closures : list Debounced;
  executed : list (nat * nat * A)
}.

Definition idle_loop (t0 : nat) : Loop :=
  {| clock := t0; nextTimeout := 0; timeouts := []; closures := []; executed := [] |}.

(** Node's timers: a delay larger than 2147483647 or less than 1 is set
    to 1. *)
Definition timer_delay (delay : nat) : nat :=
  if ((N.of_nat delay <? 1) || (2147483647 <? N.of_nat delay))%N then 1 else delay.

Definition setTimeout (own : nat) (a : A) (delay : nat) (L : Loop) : nat * Loop :=
  (nextTimeout L,
   {| clock := clock L;
      nextTimeout := S (nextTimeout L);
      timeouts := timeouts L ++ [mkTimeout (nextTimeout L) (clock L + timer_delay delay) own a];
      closures := closures L;
      executed := executed L |}).

Definition clearTimeout (id : nat) (L : Loop) : Loop :=
  {| clock := clock L;
     nextTimeout := nextTimeout L;
     timeouts := filter (fun t => timeoutId t ≠ id) (timeouts L);
     closures := closures L;
     executed := executed L |}.

Definition set_timer (d : nat) (v : option nat) (L : Loop) : Loop :=
  {| clock := clock L;
     nextTimeout := nextTimeout L;
     timeouts := timeouts L;
     closures := alter (fun c => mkDebounced (delayMs c) v) d (closures L);
     executed := executed L |}.

(** [debounce(fn, delayMs)]: a new closure with [timer = undefined]. *)
Definition debounce (delay : nat) (L : Loop) : nat * Loop :=
  (length (closures L),
   {| clock := clock L;
      nextTimeout := nextTimeout L;
      timeouts := timeouts L;
      closures := closures L ++ [mkDebounced delay None];
      executed := executed L |}).

(** Calling the closure [d] with arguments [a]. *)
Definition invoke (d : nat) (a : A) (L : Loop) : Loop :=
  match closures L !! d with
  | None => L
  | Some c =>
      let L1 := match timer c with
                | Some id => clearTimeout id L
                | None => L
                end in
      let '(id, L2) := setTimeout d a (delayMs c) L1 in
      set_timer d (Some id) L2
  end.

(** The callback given to [setTimeout]: [timer = undefined; fn(...args)]. *)
Definition fire (t : Timeout) (L : Loop) : Loop :=
  let L1 := set_timer (owner t) None L in
  {| clock := clock L1;
     nextTimeout := nextTimeout L1;
     timeouts := timeouts L1;
     closures := closures L1;
     executed := executed L1 ++ [(clock L1, owner t, args t)] |}.

Definition earlier (t u : Timeout) : Timeout :=
  if (dueAt u <? dueAt t)%nat then u else t.

Definition next_due (target : nat) (ts : list Timeout) : option Timeout :=
  match filter (fun t => dueAt t ≤ target) ts with
  | [] => None
  | t :: rest => Some (foldl earlier t rest)
  end.

Definition take_timeout (t : Timeout) (L : Loop) : Loop :=
  {| clock := Nat.max (clock L) (dueAt t);
     nextTimeout := nextTimeout L;
     timeouts := filter (fun u => timeoutId u ≠ timeoutId t) (timeouts L);
     closures := closures L;
     executed := executed L |}.

Fixpoint run_due (fuel target : nat) (L : Loop) : Loop :=
  match fuel with
  | O => L
  | S fuel' =>
      match next_due target (timeouts L) with
      | None => L
      | Some t => run_due fuel' target (fire t (take_timeout t L))
      end
  end.

(** [dt] milliseconds pass with the program idle. The callbacks never
    schedule a timer, so one round per queued timer is enough. *)
Definition elapse (dt : nat) (L : Loop) : Loop :=
  let target := clock L + dt in
  let L' := run_due (length (timeouts L)) target L in
  {| clock := target;
     nextTimeout := nextTimeout L';
     timeouts := timeouts L';
     closures := closures L';
     executed := executed L' |}.

(** A burst: each call comes [gap] milliseconds after the previous one,
    as an event of its own: the timers that are due by then have run. A
    timer is due one millisecond after it was set at the earliest, so none
    set at the current time runs before a call that comes with no gap. *)
Fixpoint burst (d : nat) (calls : list (nat * A)) (L : Loop) : Loop :=
  match calls with
  | [] => L
  | (gap, a) :: rest => burst d rest (invoke d a (elapse gap L))
  end.

End EventLoop.

Arguments Timeout : clear implicits.
Arguments Loop : clear implicits.

(** ** src/watcher/paletteWatcher.ts *)

Inductive FsEvent : Type := Created | Changed | Deleted.

#[global] Instance FsEvent_eq_dec : EqDecision FsEvent.
Proof. solve_decision. Defined.

(** What [dispose()] can be called on: a listener registration returned by
    [onDidCreate]/[onDidChange]/[onDidDelete], or the file watcher itself. *)
Inductive Disposable : Type :=
  | DListener (handle : nat) (ev : FsEvent)
  | DWatcher (handle : nat).

(** The host side: the event loop, the configured [matugenBridge.debounceMs],
    the live file-system watchers with the path each one matches, the
    registered listeners, and the output channel. *)
Record Env : Type := mkEnv {
  loop : Loop unit;
  debounceMs : nat;
  fsWatchers : list (nat * string);
  listeners : list (nat * FsEvent);
  nextHandle : nat;
  channel : list (LogLevel * string)
}.

(** The fields of a [PaletteWatcher]; [debouncedCallback] names the closure
    it currently holds, and [onChange] runs when that closure's timer fires. *)
Record PaletteWatcher : Type := mkWatcher {
  fsWatcher : option nat;
  disposables : list Disposable;
  debouncedCallback : nat;
  currentPath : string
}.

Definition with_loop (L : Loop unit) (E : Env) : Env :=
  {| loop := L; debounceMs := debounceMs E; fsWatchers := fsWatchers E;
     listeners := listeners E; nextHandle := nextHandle E; channel := channel E |}.

Definition log_line (lvl : LogLevel) (msg : string) (E : Env) : Env :=
  {| loop := loop E; debounceMs := debounceMs E; fsWatchers := fsWatchers E;
     listeners := listeners E; nextHandle := nextHandle E;
     channel := channel E ++ [(lvl, msg)] |}.

Definition buildDebounced (E : Env) : nat * Env :=
  let '(d, L) := debounce (debounceMs E) (loop E) in (d, with_loop L E).

(** [new PaletteWatcher(onChange)] *)
Definition new_PaletteWatcher (E : Env) : PaletteWatcher * Env :=
  let '(_, L0) := debounce 0 (loop E) in
  let '(d, E1) := buildDebounced (with_loop L0 E) in
  ({| fsWatcher := None; disposables := []; debouncedCallback := d; currentPath := "" |}, E1).

Definition dispose (d : Disposable) (E : Env) : Env :=
  match d with
  | DListener h ev =>
      {| loop := loop E; debounceMs := debounceMs E; fsWatchers := fsWatchers E;
         listeners := filter (fun l => l ≠ (h, ev)) (listeners E);
         nextHandle := nextHandle E; channel := channel E |}
  | DWatcher h =>
      {| loop := loop E; debounceMs := debounceMs E;
         fsWatchers := filter (fun w => w.1 ≠ h) (fsWatchers E);
         listeners := filter (fun l => l.1 ≠ h) (listeners E);
         nextHandle := nextHandle E; channel := channel E |}
  end.

Definition stop (W : PaletteWatcher) (E : Env) : PaletteWatcher * Env :=
  ({| fsWatcher := None; disposables := [];
      debouncedCallback := debouncedCallback W; currentPath := currentPath W |},
   foldl (fun E' d => dispose d E') E (disposables W)).

(** [vscode.workspace.createFileSystemWatcher(pattern, false, false, false)];
    the pattern built from [dirname] and [basename] matches the one path. *)
Definition createFileSystemWatcher (path : string) (E : Env) : nat * Env :=
  (nextHandle E,
   {| loop := loop E; debounceMs := debounceMs E;
      fsWatchers := fsWatchers E ++ [(nextHandle E, path)];
      listeners := listeners E; nextHandle := S (nextHandle E); channel := channel E |}).

Definition subscribe (h : nat) (ev : FsEvent) (E : Env) : Disposable * Env :=
  (DListener h ev,
   {| loop := loop E; debounceMs := debounceMs E; fsWatchers := fsWatchers E;
      listeners := listeners E ++ [(h, ev)];
      nextHandle := nextHandle E; channel := channel E |}).

Definition start (palettePath : string) (W : PaletteWatcher) (E : Env) : PaletteWatcher * Env :=
  let '(W1, E1) := stop W E in
  let '(d, E2) := buildDebounced E1 in
  let '(h, E3) := createFileSystemWatcher palettePath E2 in
  let '(l1, E4) := subscribe h Created E3 in
  let '(l2, E5) := subscribe h Changed E4 in
  let '(l3, E6) := subscribe h Deleted E5 in
  ({| fsWatcher := Some h;
      disposables := disposables W1 ++ [l1; l2; l3; DWatcher h];
      debouncedCallback := d;
      currentPath := palettePath |},
   log_line Info ("Watching palette file: " +:+ palettePath) E6).

Definition handleEvent (W : PaletteWatcher) (E : Env) : Env :=
  let E1 := log_line Debug "FileSystemWatcher: change/create event" E in
  with_loop (invoke (debouncedCallback W) tt (loop E1)) E1.

Definition handleDelete (W : PaletteWatcher) (E : Env) : Env :=
  log_line Info "Palette file deleted — colors will remain until a new file appears." E.

(** The host delivers a file event to every listener registered for it on
    a live watcher of that path. *)
Definition notify (path : string) (ev : FsEvent) (W : PaletteWatcher) (E : Env) : Env :=
  foldl (fun E' w =>
           if bool_decide (w.2 = path ∧ (w.1, ev) ∈ listeners E) then
             match ev with
             | Deleted => handleDelete W E'
             | _ => handleEvent W E'
             end
           else E')
        E (fsWatchers E).

(** [dt] milliseconds pass; the timers that come due run. *)
Definition wait (dt : nat) (E : Env) : Env := with_loop (elapse dt (loop E)) E.

(** The moments at which [onChange] ran. *)
Definition onChange_runs (E : Env) : list nat := (fun x => x.1.1) <$> executed (loop E).

Definition fresh_env (delay : nat) : Env :=
  {| loop := idle_loop 0; debounceMs := delay; fsWatchers := []; listeners := [];
     nextHandle := 0; channel := [] |}.

(** ** Concrete data for running the model *)

(** The scenario of the shared configuration
    [{"a.b":"#000","__matugenBridge":{"keys":["a.b"],"appliedAt":"T0"}}],
    with one more key set by the user. *)
Definition scenario_world : World :=
  {| settings := Some (list_to_map
       [("a.b", JStr "#000");
        ("user.key", JStr "#123");
        (MANAGED_KEY, JObj [("keys", JArr [JStr "a.b"]); ("appliedAt", JStr "T0")])]);
     journal := []; store_fault := None |}.


(** Closing a decidable goal on concrete data by evaluation. *)
Ltac by_computation := apply (bool_decide_unpack _); vm_compute; exact I.

(** ** The shapes named by the specification *)

Definition hex_digits : list ascii :=
  String.list_ascii_of_string "0123456789abcdefABCDEF".

(** [#RGB], [#RGBA], [#RRGGBB] or [#RRGGBBAA], in either case. *)
Definition hex_color (v : string) : Prop :=
  ∃ ds, v = String "#" ds ∧
        Forall (fun c => c ∈ hex_digits) (String.list_ascii_of_string ds) ∧
        String.length ds ∈ [3; 4; 6; 8]%nat.

(** The key does not start with an underscore and contains a dot. *)
Definition token_shape (key : string) : Prop :=
  (∀ rest, key ≠ String "_" rest) ∧ ∃ a b, key = a +:+ "." +:+ b.

(** Empty, or white space only. *)
Definition blank (s : string) : Prop :=
  Forall (fun c => is_js_space c = true) (String.list_ascii_of_string s).

(** The palette
    [{"_meta":{"variant":"x"},"editor.background":"#112233","bad.token":"notacolor"}]
    behind a file system with that one file. *)
Definition scenario_palette : list (string * JValue) :=
  [("_meta", JObj [("variant", JStr "x")]);
   ("editor.background", JStr "#112233");
   ("bad.token", JStr "notacolor")].

Definition one_file (path : string) (p : string) : FileProbe :=
  if bool_decide (p = path) then FileText "palette" else NoSuchFile.

Definition parse_as (entries : list (string * JValue)) (raw : string) : string + JValue :=
  inr (JObj entries).

Definition quiet_world : World := {| settings := None; journal := []; store_fault := None |}.



(** A watcher on [/a.json] with a 300 ms delay that saw a change at time 0
    and is restarted on [/b.json] 100 ms later. *)
Definition watching_with_pending : PaletteWatcher * Env :=
  let '(W0, E0) := new_PaletteWatcher (fresh_env 300) in
  let '(W1, E1) := start "/a.json" W0 E0 in
  (W1, wait 100 (notify "/a.json" Changed W1 E1)).

Definition restarted : PaletteWatcher * Env :=
  let '(W, E) := watching_with_pending in start "/b.json" W E.



(** ** Further concrete data *)

(** A user configuration the extension never wrote to. *)
Definition untouched_world : World :=
  {| settings := Some (list_to_map [("user.key", JStr "#123"); ("plain", JNum 7)]);
     journal := []; store_fault := None |}.

(** The invariant of a ColorMap handed downstream: distinct keys, each a
    token-shaped key with a hex color. *)
Definition clean (colors : ColorMap) : Prop :=
  NoDup (Object_keys colors) ∧ ∀ k v, (k, v) ∈ colors → token_shape k ∧ hex_color v.

(** ** What debouncing amounts to

    The runs of the wrapped function that a sequence of calls must produce
    on closure [d] when its timers take [delay] milliseconds: a call runs,
    [delay] after it was made, exactly when the next call comes [delay] or
    more after it, or when it is the last call and at least [delay] of
    silence follows. [waiting] holds the arguments of a call made at time
    [t] that has not run yet. *)
Fixpoint expected_runs {A} (delay d t : nat) (waiting : option A)
    (calls : list (nat * A)) (quiet : nat) : list (nat * nat * A) :=
  match calls with
  | [] =>
      match waiting with
      | Some a => if (delay <=? quiet)%nat then [(t + delay, d, a)%nat] else []
      | None => []
      end
  | (gap, a') :: rest =>
      (match waiting with
       | Some a => if (delay <=? gap)%nat then [(t + delay, d, a)%nat] else []
       | None => []
       end ++ expected_runs delay d (t + gap) (Some a') rest quiet)%list
  end.

(** The state of closure [d] in a loop with no other timer: nothing is
    scheduled, or the call with arguments [a] made at the current time is. *)
Definition closure_state {A} (delay d : nat) (waiting : option A) (L : Loop A) : Prop :=
  match waiting with
  | None => timeouts L = [] ∧ ∃ tm, closures L !! d = Some (mkDebounced delay tm)
  | Some a =>
      ∃ id, timeouts L = [mkTimeout id (clock L + timer_delay delay) d a] ∧
            closures L !! d = Some (mkDebounced delay (Some id))
  end.

(** ** Driving a PaletteWatcher *)

(** The user edits [matugenBridge.debounceMs]. *)
Definition configure (ms : nat) (E : Env) : Env :=
  {| loop := loop E; debounceMs := ms; fsWatchers := fsWatchers E;
     listeners := listeners E; nextHandle := nextHandle E; channel := channel E |}.

Inductive WatcherOp : Type :=
  | OpStart (palettePath : string)
  | OpStop
  | OpNotify (path : string) (ev : FsEvent)
  | OpWait (dt : nat)
  | OpConfigure (ms : nat).

Definition run_op (op : WatcherOp) (WE : PaletteWatcher * Env) : PaletteWatcher * Env :=
  let '(W, E) := WE in
  match op with
  | OpStart palettePath => start palettePath W E
  | OpStop => stop W E
  | OpNotify path ev => (W, notify path ev W E)
  | OpWait dt => (W, wait dt E)
  | OpConfigure ms => (W, configure ms E)
  end.

Definition run_ops (ops : list WatcherOp) (WE : PaletteWatcher * Env) : PaletteWatcher * Env :=
  foldl (fun we op => run_op op we) WE ops.

(** No subscription is leaked: the host holds exactly what the watcher can
    still dispose of, which is one file watcher on the watched path with
    its three listeners while watching, and nothing when stopped. *)
Definition tidy (W : PaletteWatcher) (E : Env) : Prop :=
  match fsWatcher W with
  | Some h =>
      fsWatchers E = [(h, currentPath W)] ∧
      listeners E = [(h, Created); (h, Changed); (h, Deleted)] ∧
      disposables W = [DListener h Created; DListener h Changed; DListener h Deleted;
                       DWatcher h]
  | None => fsWatchers E = [] ∧ listeners E = [] ∧ disposables W = []
  end.

(** ** src/utils/logger.ts

    The output channel is the list of its lines. The level is the string
    found under [matugenBridge.logLevel] at the time of the call; [now] is
    [new Date().toISOString()] at that time. *)

Module Logger.

(** [LEVEL_RANK[l]]: [None] is [undefined], for a string that is not a level. *)
Definition LEVEL_RANK (l : string) : option nat :=
  if bool_decide (l = "silent") then Some 0%nat
  else if bool_decide (l = "info") then Some 1%nat
  else if bool_decide (l = "debug") then Some 2%nat
  else None.

(** [LEVEL_RANK[this.level] >= LEVEL_RANK[target]]; a comparison with
    [undefined] is false. *)
Definition shouldLog (level target : string) : bool :=
  match LEVEL_RANK level, LEVEL_RANK target with
  | Some have, Some need => (need <=? have)%nat
  | _, _ => false
  end.

Definition info (level now msg : string) (lines : list string) : list string :=
  if shouldLog level "info" then lines ++ ["[INFO]  " +:+ now +:+ " " +:+ msg] else lines.

Definition debug (level now msg : string) (lines : list string) : list string :=
  if shouldLog level "debug" then lines ++ ["[DEBUG] " +:+ now +:+ " " +:+ msg] else lines.

Definition error (level now msg : string) (lines : list string) : list string :=
  lines ++ ["[ERROR] " +:+ now +:+ " " +:+ msg].

(** One call of the logger, by the method called. *)
Definition call (level : string) (c : string * (LogLevel * string)) (lines : list string)
    : list string :=
  match c with
  | (now, (Info, msg)) => info level now msg lines
  | (now, (Debug, msg)) => debug level now msg lines
  | (now, (Error, msg)) => error level now msg lines
  end.

(** A sequence of calls made while the level stays the same. *)
Definition replay (level : string) (calls : list (string * (LogLevel * string)))
    (lines : list string) : list string :=
  foldl (fun ls c => call level c ls) lines calls.

End Logger.

(** ** src/extension.ts *)

Inductive Notification : Type :=
  | WarningMessage (msg : string)
  | ErrorMessage (msg : string)
  | InformationMessage (msg : string)
  | StatusBarMessage (msg : string) (hideAfterMs : nat)
  | OutputChannelShown.

(** What the entry point works on: the settings store and log, the two
    settings [matugenBridge.enabled] and [matugenBridge.palettePath] as
    [isEnabled()] and [getCustomPath()] read them, and what was shown to
    the user. *)
Record Session : Type := mkSession {
  world : World;
  enabled : bool;
  customPath : option string;
  shown : list Notification
}.

Definition isEnabled (s : Session) : bool := enabled s.

Definition getCustomPath (s : Session) : option string := customPath s.

Definition with_world (w : World) (s : Session) : Session :=
  {| world := w; enabled := enabled s; customPath := customPath s; shown := shown s |}.

(** Running an effect of the engine inside the session. *)
Definition in_world {A} (m : Eff A) (s : Session) : Outcome A * Session :=
  (fst (m (world s)), with_world (snd (m (world s))) s).

(** A logger call; it never throws. *)
Definition say (lvl : LogLevel) (msg : string) (s : Session) : Session :=
  with_world (exec (logger lvl msg) (world s)) s.

Definition show (n : Notification) (s : Session) : Session :=
  {| world := world s; enabled := enabled s; customPath := customPath s;
     shown := shown s ++ [n] |}.

Definition newline : string := String (Ascii.ascii_of_nat 10) EmptyString.

Section Extension.

Variable fs : string -> FileProbe.
Variable JSON_parse : string -> string + JValue.
Variable homedir : string.
Variable XDG_CONFIG_HOME : option string.
Variable path_join : list string -> string.

(** [async function applyPalette(palettePath, silent = false)];
    [now] is the time at which [applyColors] stamps the metadata. *)
Definition applyPalette (palettePath : string) (silent : bool) (now : string) (s : Session)
    : Outcome unit * Session :=
  if negb (isEnabled s) then
    (Returned tt, say Debug "Extension is disabled — skipping apply." s)
  else
    let s := say Debug ("Reading palette from: " +:+ palettePath) s in
    match in_world (readPalette fs JSON_parse palettePath) s with
    | (Threw e, s) => (Threw e, s)
    | (Returned (ReadFailed error), s) =>
        let s := say Error error s in
        (Returned tt,
         if silent then s else show (WarningMessage ("Matugen Bridge: " +:+ error)) s)
    | (Returned (ReadOk colors), s) =>
        (* try { await applyColors(result.colors); ... } catch (e) { ... } *)
        match in_world (applyColors colors now) s with
        | (Returned _, s) =>
            (Returned tt,
             if silent then s
             else show (StatusBarMessage
                          ("$(paintcan) Matugen: " +:+ pretty (length (Object_keys colors))
                           +:+ " colors applied") 4000) s)
        | (Threw e, s) =>
            let msg := "Failed to write color customizations: " +:+ error_message e in
            let s := say Error msg s in
            (Returned tt, show (ErrorMessage ("Matugen Bridge: " +:+ msg)) s)
        end
    end.

(** The command [matugenBridge.applyNow]. *)
Definition applyNow (now : string) (s : Session) : Outcome unit * Session :=
  let p := resolvePalettePath homedir XDG_CONFIG_HOME path_join (getCustomPath s) in
  applyPalette p false now s.

(** The command [matugenBridge.clearOverrides]. *)
Definition clearOverrides (s : Session) : Outcome unit * Session :=
  match in_world clearColors s with
  | (Returned _, s) =>
      (Returned tt, show (InformationMessage "Matugen Bridge: Color overrides cleared.") s)
  | (Threw e, s) => (Threw e, s)
  end.

(** The command [matugenBridge.showStatus]. The second message
    interpolates [status.count] and [status.appliedAt ?? "unknown"], which
    throws when one of them cannot be converted to a string. *)
Definition showStatus (s : Session) : Outcome unit * Session :=
  match in_world getManagedStatus s with
  | (Threw e, s) => (Threw e, s)
  | (Returned status, s) =>
      let p := resolvePalettePath homedir XDG_CONFIG_HOME path_join (getCustomPath s) in
      let shown_with msg :=
        (Returned tt, show OutputChannelShown (show (InformationMessage msg) s)) in
      match count status with
      | JNum 0 =>
          shown_with ("Matugen Bridge: No active overrides." +:+ newline
                      +:+ "Watching: " +:+ p)
      | n =>
          if stringifiable n && stringifiable (appliedAt status) then
            shown_with
              ("Matugen Bridge: " +:+ js_to_string n +:+ " color(s) active" +:+ newline
               +:+ "Last applied: "
               +:+ match appliedAt status with
                   | JNull => "unknown"
                   | t => js_to_string t
                   end
               +:+ newline +:+ "Watching: " +:+ p)
          else (Threw (TypeError "Cannot convert object to primitive value"), s)
      end
  end.

End Extension.

(** One run of [applyPalette], with the file system as it is at that time. *)
Record PaletteRun : Type := mkRun {
  run_fs : string -> FileProbe;
  run_parse : string -> string + JValue;
  run_path : string;
  run_silent : bool;
  run_now : string
}.

Definition run_palette (r : PaletteRun) (s : Session) : Session :=
  snd (applyPalette (run_fs r) (run_parse r) (run_path r) (run_silent r) (run_now r) s).

Definition run_palettes (rs : list PaletteRun) (s : Session) : Session :=
  foldl (fun s' r => run_palette r s') s rs.

Definition fresh_session : Session :=
  {| world := untouched_world; enabled := true; customPath := None; shown := [] |}.

(** * Properties *)

(** ** Running the effects *)

Lemma applyColors_run (newColors : ColorMap) (now : string) (w : World) :
  applyColors newColors now w =
  match previouslyManaged (cfg w) with
  | Returned ks =>
      match store_fault w with
      | Some msg => (Threw (HostError msg), w)
      | None =>
          (Returned tt,
           {| settings := Some (applied ks newColors now (cfg w));
              journal := journal w ++
                [(Info, "Applied " +:+ pretty (length (Object_keys newColors))
                        +:+ " color overrides.")];
              store_fault := None |})
      end
  | Threw e => (Threw e, w)
  end.
Proof.
  unfold applyColors, previouslyManaged, applied, cfg, mbind, Eff_bind, eff_bind,
    config_get, config_update, lift; simpl.
  destruct (if nullish _ then _ else _) as [keysv | e]; [| reflexivity].
  destruct (for_of _ _) as [ks | e]; [| reflexivity].
  destruct (to_property_keys ks) as [names | e]; [| reflexivity].
  destruct (store_fault w); reflexivity.
Qed.

(** [clearColors] either leaves the settings as they are (nothing to clear,
    or it throws before the update) or persists the object without the
    owned keys and the metadata key. *)
Lemma clearColors_run (w : World) :
  settings (exec clearColors w) = settings w ∨
  ∃ keysv ks,
    get_member (read_meta (cfg w)) Mkeys = Returned keysv ∧
    for_of "meta.keys" keysv = Returned ks ∧
    forallb stringifiable ks = true ∧
    store_fault w = None ∧
    settings (exec clearColors w) = Some (delete MANAGED_KEY (delete_all ks (cfg w))).
Proof.
  unfold clearColors, exec, cfg, mbind, Eff_bind, eff_bind, config_get, config_update,
    to_property_keys, lift; simpl.
  destruct (falsy _); [by left |].
  destruct (get_member _ Mkeys) as [keysv | e] eqn:Hk; [| by left].
  destruct (get_member keysv Mlength) as [len | e]; [| by left].
  destruct (for_of "meta.keys" keysv) as [ks | e] eqn:Hks;
    destruct len as [| n | [| | [| p | p] | s | items | fields]];
    simpl; rewrite ?Hks; simpl; try (by left);
    destruct (forallb stringifiable ks) eqn:Hconv; simpl; try (by left);
    destruct (store_fault w) eqn:Hfault; simpl; try (by left);
    right; exists keysv, ks; by repeat split.
Qed.

Lemma cfg_mk (o : gmap string JValue) (j : list (LogLevel * string)) (f : option string) :
  cfg {| settings := Some o; journal := j; store_fault := f |} = o.
Proof. reflexivity. Qed.

(** ** Converting to a property name *)

Example number_to_string_samples :
  number_to_string <$> [0; 7; -12; 2 ^ 53; 2 ^ 53 + 1; 2 ^ 64; 10 ^ 20; 10 ^ 21 - 1; 10 ^ 21;
                        -(10 ^ 21); 2 ^ 70; 10 ^ 23; 2 ^ 1024]%Z
  = ["0"; "7"; "-12"; "9007199254740992"; "9007199254740992"; "18446744073709552000";
     "100000000000000000000";
     "1e+21"; "1e+21"; "-1e+21"; "1.1805916207174113e+21"; "1e+23";
     "Infinity"].
Proof. vm_compute. reflexivity. Qed.

Example js_to_string_samples :
  js_to_string <$> [JNull; JBool true; JStr "a.b"; JArr [JNum 1; JNull; JArr [JStr "x"]];
                    JObj [("keys", JNull)]]
  = ["null"; "true"; "a.b"; "1,,x"; "[object Object]"] ∧
  stringifiable <$> [JObj [("keys", JNull)]; JObj [("toString", JNull)];
                     JArr [JNum 1; JObj [("toString", JStr "f")]]]
  = [true; false; false].
Proof. vm_compute. split; reflexivity. Qed.

(** ** Assigning a color *)

Lemma assign_other (token hex : string) (m : gmap string JValue) (k : string) :
  token ≠ k → assign token hex m !! k = m !! k.
Proof.
  intros Hne. unfold assign. destruct (_ && _); [reflexivity |].
  by apply lookup_insert_ne.
Qed.

Lemma assign_plain (token hex : string) (m : gmap string JValue) :
  token ≠ "__proto__" → assign token hex m = <[token := JStr hex]> m.
Proof. intros Hne. unfold assign. by rewrite (bool_decide_eq_false_2 _ Hne). Qed.


Lemma stringifiable_JStr (l : list string) : forallb stringifiable (JStr <$> l) = true.
Proof. by induction l. Qed.

(** ** The merge step on one key *)

Lemma delete_all_other (ks : list JValue) (m : gmap string JValue) (k : string) :
  k ∉ js_to_string <$> ks → delete_all ks m !! k = m !! k.
Proof.
  revert m. induction ks as [| j ks IH]; intros m Hk; [reflexivity |].
  simpl. rewrite fmap_cons in Hk. rewrite IH.
  - apply lookup_delete_ne. intros E. apply Hk. rewrite E. left.
  - intros Hin. apply Hk. right. exact Hin.
Qed.

Lemma delete_all_gone (ks : list JValue) (m : gmap string JValue) (k : string) :
  k ∈ js_to_string <$> ks → delete_all ks m !! k = None.
Proof.
  revert m. induction ks as [| j ks IH]; intros m Hk; [inversion Hk |].
  simpl. rewrite fmap_cons in Hk.
  destruct (decide (k ∈ js_to_string <$> ks)) as [Hin | Hout].
  - apply IH, Hin.
  - rewrite delete_all_other by exact Hout.
    apply elem_of_cons in Hk as [-> | Hin]; [apply lookup_delete_eq | contradiction].
Qed.

Lemma merge_colors_other (newColors : ColorMap) (m : gmap string JValue) (k : string) :
  k ∉ Object_keys newColors → merge_colors newColors m !! k = m !! k.
Proof.
  revert m. induction newColors as [| [token hex] rest IH]; intros m Hk; [reflexivity |].
  simpl. unfold Object_keys in Hk. rewrite fmap_cons in Hk. simpl in Hk. rewrite IH.
  - apply assign_other. intros E. apply Hk. rewrite E. left.
  - intros Hin. apply Hk. right. exact Hin.
Qed.


Lemma merge_colors_is_color (newColors : ColorMap) (m : gmap string JValue) (k : string) :
  k ≠ "__proto__" →
  k ∈ Object_keys newColors →
  ∃ hex, (k, hex) ∈ newColors ∧ merge_colors newColors m !! k = Some (JStr hex).
Proof.
  intros Hp.
  revert m. induction newColors as [| [token hex] rest IH]; intros m Hk; [inversion Hk |].
  simpl. destruct (decide (k ∈ Object_keys rest)) as [Hin | Hout].
  - destruct (IH (assign token hex m) Hin) as (h & Hh & Hl).
    exists h. split; [right; exact Hh | exact Hl].
  - apply elem_of_cons in Hk as [-> | Hin]; [| contradiction].
    exists hex. split; [left |].
    rewrite merge_colors_other by exact Hout. cbn [fst] in Hp.
    rewrite assign_plain by exact Hp. apply lookup_insert_eq.
Qed.

Lemma js_to_string_JStr (l : list string) : js_to_string <$> (JStr <$> l) = l.
Proof.
  induction l as [| s l IH]; [reflexivity |].
  rewrite !fmap_cons. f_equal. exact IH.
Qed.

Lemma applied_other ks newColors now current k :
  k ≠ MANAGED_KEY → k ∉ js_to_string <$> ks → k ∉ Object_keys newColors →
  applied ks newColors now current !! k = current !! k.
Proof.
  intros Hm Hks Hx. unfold applied.
  rewrite lookup_insert_ne by congruence.
  rewrite merge_colors_other by exact Hx.
  rewrite lookup_delete_ne by congruence.
  by apply delete_all_other.
Qed.

Lemma owned_keys_applied ks newColors now current :
  owned_keys (applied ks newColors now current) = Object_keys newColors.
Proof.
  unfold owned_keys, applied. rewrite lookup_insert_eq. simpl.
  apply js_to_string_JStr.
Qed.

Lemma for_of_returned (expr expr' : string) (v : Value) (ks : list JValue) :
  for_of expr v = Returned ks → for_of expr' v = Returned ks.
Proof. destruct v as [| n | []]; try discriminate; exact id. Qed.

Lemma previouslyManaged_iterated current ks :
  previouslyManaged current = Returned ks →
  forallb stringifiable ks = true ∧
  ∃ keysv,
    (if nullish (read_meta current) then Returned VUndefined
     else get_member (read_meta current) Mkeys) = Returned keysv ∧
    for_of "previouslyManaged" (nullish_or keysv (VJson (JArr []))) = Returned ks.
Proof.
  unfold previouslyManaged, to_property_keys.
  destruct (if nullish _ then _ else _) as [keysv | e]; [| discriminate].
  destruct (for_of _ _) as [ks' | e] eqn:Hf; [| discriminate].
  destruct (forallb stringifiable ks') eqn:Hconv; [| discriminate].
  intros [= <-]. split; [exact Hconv |]. by exists keysv.
Qed.

Lemma previouslyManaged_owned current ks :
  previouslyManaged current = Returned ks →
  ks = [] ∨ owned_keys current = js_to_string <$> ks.
Proof.
  intros Hp. apply previouslyManaged_iterated in Hp as (_ & keysv & Hk & Hf).
  revert Hk Hf. unfold owned_keys, read_meta.
  destruct (current !! MANAGED_KEY) as [meta |]; cbn [from_option].
  - destruct (nullish (VJson meta)) eqn:Hn.
    + intros [= <-] [= <-]. by left.
    + intros ->. unfold nullish_or. destruct (nullish keysv) eqn:Hk.
      * intros [= <-]. by left.
      * intros Hf. rewrite (for_of_returned _ "meta.keys" _ _ Hf). by right.
  - intros [= <-] [= <-]. by left.
Qed.

Lemma owned_keys_cleared ks current :
  owned_keys (delete MANAGED_KEY (delete_all ks current)) = [].
Proof. unfold owned_keys. by rewrite lookup_delete_eq. Qed.

Lemma read_meta_owned current keysv ks :
  get_member (read_meta current) Mkeys = Returned keysv →
  for_of "meta.keys" keysv = Returned ks →
  owned_keys current = js_to_string <$> ks.
Proof.
  unfold owned_keys, read_meta.
  destruct (current !! MANAGED_KEY) as [meta |]; cbn [from_option]; [| discriminate].
  intros -> ->. reflexivity.
Qed.

(** One call leaves alone every key that is not the metadata key, not owned
    and not in the palette being applied; and such a key stays unowned. *)
Lemma run_call_keeps (c : Call) (w : World) (k : string) :
  k ≠ MANAGED_KEY →
  k ∉ owned_keys (cfg w) →
  (∀ newColors now, c = CallApply newColors now → k ∉ Object_keys newColors) →
  cfg (exec (run_call c) w) !! k = cfg w !! k ∧ k ∉ owned_keys (cfg (exec (run_call c) w)).
Proof.
  intros Hm Hown Hpal. destruct c as [newColors now |]; unfold exec; cbn [run_call].
  - specialize (Hpal newColors now eq_refl).
    rewrite applyColors_run. destruct (previouslyManaged (cfg w)) as [ks | e] eqn:Hp;
      cbn [snd]; [| by split].
    destruct (store_fault w); cbn [snd]; [by split |].
    rewrite cfg_mk, owned_keys_applied. split; [| exact Hpal].
    apply applied_other; try assumption.
    destruct (previouslyManaged_owned _ _ Hp) as [-> | <-]; [set_solver | exact Hown].
  - destruct (clearColors_run w) as [Hs | (keysv & ks & Hk & Hf & _ & _ & Hs)];
      unfold exec in *.
    + unfold cfg. rewrite Hs. by split.
    + assert (Hc : cfg (snd (clearColors w)) = delete MANAGED_KEY (delete_all ks (cfg w)))
        by (unfold cfg at 1; rewrite Hs; reflexivity).
      rewrite Hc, owned_keys_cleared. split; [| set_solver].
      rewrite lookup_delete_ne by congruence.
      apply delete_all_other. by rewrite <- (read_meta_owned _ _ _ Hk Hf).
Qed.

Lemma run_calls_keep (w : World) (calls : list Call) (k : string) :
  k ≠ MANAGED_KEY →
  k ∉ owned_keys (cfg w) →
  (∀ newColors now, CallApply newColors now ∈ calls → k ∉ Object_keys newColors) →
  cfg (run_calls calls w) !! k = cfg w !! k.
Proof.
  intros Hm. revert w. induction calls as [| c rest IH]; intros w Hown Hpal; [reflexivity |].
  simpl.
  destruct (run_call_keeps c w k Hm Hown) as [Hsame Hown'].
  { intros newColors now ->. apply (Hpal newColors now). left. }
  rewrite IH; [exact Hsame | exact Hown' |].
  intros newColors now Hin. apply (Hpal newColors now). right. exact Hin.
Qed.

(** With a metadata record of the declared shape the names that the
    iteration yields are the strings the record lists. *)
Lemma owned_keys_declared (current : gmap string JValue) (fields : list (string * JValue))
    (listed : list string) :
  current !! MANAGED_KEY = Some (JObj fields) →
  own_prop "keys" fields = Some (JArr (JStr <$> listed)) →
  owned_keys current = listed ∧ ManagedMeta_keys current = listed.
Proof.
  intros Hm Hk. unfold owned_keys, ManagedMeta_keys. rewrite Hm.
  cbn [get_member member_name]. rewrite Hk. cbn [from_option for_of]. split.
  - apply js_to_string_JStr.
  - clear. induction listed as [| s l IH]; [reflexivity |].
    rewrite fmap_cons. cbn [omap list_omap]. by rewrite IH.
Qed.

(** C1 (amended). Any sequence of [applyColors] / [clearColors] calls
    leaves a key that is not the reserved metadata key and not a key of any
    applied palette with exactly the value it had (or absent, if it was
    absent), when there is no metadata entry to begin with; when the
    metadata record lists its keys as an array of strings and the key is
    not among them; and, whatever is stored as metadata, when the key is
    not among the property names that iterating the stored [keys] yields
    (the elements of an array, each converted to a string; the characters
    of a string). *)
Theorem user_keys_never_touched (w : World) (calls : list Call) (k : string) :
  k ≠ MANAGED_KEY →
  (∀ newColors now, CallApply newColors now ∈ calls → k ∉ Object_keys newColors) →
  (cfg w !! MANAGED_KEY = None → cfg (run_calls calls w) !! k = cfg w !! k) ∧
  (∀ fields listed,
     cfg w !! MANAGED_KEY = Some (JObj fields) →
     own_prop "keys" fields = Some (JArr (JStr <$> listed)) →
     k ∉ listed →
     cfg (run_calls calls w) !! k = cfg w !! k) ∧
  (k ∉ owned_keys (cfg w) → cfg (run_calls calls w) !! k = cfg w !! k).
Proof.
  intros Hm Hpal. split; [| split].
  - intros Hnone. apply run_calls_keep; [exact Hm | | exact Hpal].
    unfold owned_keys. rewrite Hnone. apply not_elem_of_nil.
  - intros fields listed Hmeta Hkeys Hout.
    apply run_calls_keep; [exact Hm | | exact Hpal].
    by rewrite (proj1 (owned_keys_declared _ _ _ Hmeta Hkeys)).
  - intros Hown. by apply run_calls_keep.
Qed.

(** ** Applying after an apply, clearing after an apply *)

Lemma previouslyManaged_applied ks newColors now current :
  previouslyManaged (applied ks newColors now current)
  = Returned (JStr <$> Object_keys newColors).
Proof.
  unfold previouslyManaged, read_meta, applied. rewrite lookup_insert_eq.
  change (match to_property_keys (JStr <$> Object_keys newColors) with
          | Returned _ => Returned (JStr <$> Object_keys newColors)
          | Threw e => Threw e
          end = Returned (JStr <$> Object_keys newColors)).
  unfold to_property_keys. by rewrite stringifiable_JStr.
Qed.







Example scenario_apply_twice :
  strip_appliedAt <$>
    settings (exec (applyColors [("c.d", "#fff")] "T2")
                   (exec (applyColors [("c.d", "#fff")] "T1") scenario_world))
  = Some (list_to_map
       [("c.d", JStr "#fff");
        ("user.key", JStr "#123");
        (MANAGED_KEY, JObj [("keys", JArr [JStr "c.d"])])]).
Proof. vm_compute. reflexivity. Qed.

Lemma clearColors_owned (w : World) (fields : list (string * JValue)) (items : list JValue) :
  cfg w !! MANAGED_KEY = Some (JObj fields) →
  own_prop "keys" fields = Some (JArr items) →
  items ≠ [] →
  forallb stringifiable items = true →
  store_fault w = None →
  fst (clearColors w) = Returned tt ∧
  settings (exec clearColors w) = Some (delete MANAGED_KEY (delete_all items (cfg w))).
Proof.
  intros Hm Hk Hne Hconv Hfault.
  unfold clearColors, exec, mbind, Eff_bind, eff_bind, config_get, config_update,
    to_property_keys, lift, read_meta.
  fold (cfg w). rewrite Hm. cbn [from_option falsy get_member member_name]. rewrite Hk.
  cbn [from_option get_member].
  destruct items as [| j items]; [done |].
  cbn [length for_of]. rewrite Hconv.
  change (Z.of_nat (S (length items))) with (Z.pos (Pos.of_succ_nat (length items))).
  cbn beta iota. rewrite Hfault. by split.
Qed.

Lemma applyColors_returns (w : World) (newColors : ColorMap) (now : string) :
  fst (applyColors newColors now w) = Returned tt →
  ∃ ks, previouslyManaged (cfg w) = Returned ks ∧
        settings (exec (applyColors newColors now) w)
        = Some (applied ks newColors now (cfg w)).
Proof.
  unfold exec. rewrite applyColors_run.
  destruct (previouslyManaged (cfg w)) as [ks | e]; [| discriminate].
  destruct (store_fault w); [discriminate |].
  intros _. by exists ks.
Qed.

(** A call that returned found a store that takes writes, and leaves it so. *)
Lemma applyColors_returns_store (w : World) (newColors : ColorMap) (now : string) :
  fst (applyColors newColors now w) = Returned tt →
  store_fault w = None ∧ store_fault (exec (applyColors newColors now) w) = None.
Proof.
  unfold exec. rewrite applyColors_run.
  destruct (previouslyManaged (cfg w)) as [ks | e]; [| discriminate].
  destruct (store_fault w); [discriminate |]. by split.
Qed.

(** What [clearColors] does after an apply of a palette that is not
    empty, on a store that takes writes. *)
Lemma clearColors_after_apply (w1 : World) (ks : list JValue) (newColors : ColorMap)
    (now : string) (current : gmap string JValue) :
  newColors ≠ [] →
  cfg w1 = applied ks newColors now current →
  store_fault w1 = None →
  fst (clearColors w1) = Returned tt ∧
  cfg (exec clearColors w1)
  = delete MANAGED_KEY (delete_all (JStr <$> Object_keys newColors) (cfg w1)).
Proof.
  intros Hne Hc1 Hfault.
  destruct (clearColors_owned w1 [("keys", JArr (JStr <$> Object_keys newColors));
                                  ("appliedAt", JStr now)]
              (JStr <$> Object_keys newColors)) as [Hret Hs].
  - rewrite Hc1. unfold applied. apply lookup_insert_eq.
  - reflexivity.
  - destruct newColors; [done | discriminate].
  - apply stringifiable_JStr.
  - exact Hfault.
  - split; [exact Hret |]. unfold cfg at 1. by rewrite Hs.
Qed.

(** C3 (amended). When [applyColors(X)] returns normally, [X] is not
    empty and the following [clearColors()] returns normally, every key of
    [X] is absent and the reserved metadata key is absent, and every other
    key that iterating the metadata stored before [applyColors(X)] did not
    yield has the value it had before [applyColors(X)]. *)
Theorem apply_then_clear (w : World) (newColors : ColorMap) (now : string) :
  newColors ≠ [] →
  fst (applyColors newColors now w) = Returned tt →
  fst (clearColors (exec (applyColors newColors now) w)) = Returned tt →
  let after := cfg (exec clearColors (exec (applyColors newColors now) w)) in
  (∀ k, k ∈ Object_keys newColors → after !! k = None) ∧
  after !! MANAGED_KEY = None ∧
  (∀ k, k ≠ MANAGED_KEY → k ∉ Object_keys newColors → k ∉ owned_keys (cfg w) →
        after !! k = cfg w !! k).
Proof.
  intros Hne Hret _. destruct (applyColors_returns _ _ _ Hret) as (ks & Hp & Hs).
  destruct (applyColors_returns_store _ _ _ Hret) as [_ Hfault].
  set (w1 := exec (applyColors newColors now) w) in *.
  assert (Hc1 : cfg w1 = applied ks newColors now (cfg w)) by (unfold cfg at 1; by rewrite Hs).
  destruct (clearColors_after_apply w1 ks newColors now (cfg w) Hne Hc1 Hfault)
    as [_ Hclear].
  cbn zeta. rewrite Hclear, Hc1. repeat split.
  - intros k Hk. destruct (decide (k = MANAGED_KEY)) as [-> | Hm]; [apply lookup_delete_eq |].
    rewrite lookup_delete_ne by congruence.
    apply delete_all_gone. by rewrite js_to_string_JStr.
  - apply lookup_delete_eq.
  - intros k Hm Hx Hown.
    rewrite lookup_delete_ne by congruence.
    rewrite delete_all_other by (by rewrite js_to_string_JStr).
    apply applied_other; try assumption.
    destruct (previouslyManaged_owned _ _ Hp) as [-> | <-]; [set_solver | exact Hown].
Qed.

(** C5 (amended). When the metadata entry is absent, [null], a primitive,
    or an object without a [keys] field (or whose [keys] is [null]),
    [applyColors] treats the previously-owned list as empty and throws
    nothing of its own. If the host takes the write, the call returns
    normally and has persisted the current object minus the metadata key,
    plus the new colors and the fresh metadata record: no other key is
    deleted. If the host rejects the write, the call throws the host's
    error and nothing has changed. *)
Theorem applyColors_without_owned_keys (w : World) (newColors : ColorMap) (now : string) :
  meta_without_keys (read_meta (cfg w)) = true →
  previouslyManaged (cfg w) = Returned [] ∧
  match store_fault w with
  | None =>
      fst (applyColors newColors now w) = Returned tt ∧
      settings (exec (applyColors newColors now) w)
      = Some (<[MANAGED_KEY := new_meta newColors now]>
                (merge_colors newColors (delete MANAGED_KEY (cfg w))))
  | Some msg => applyColors newColors now w = (Threw (HostError msg), w)
  end.
Proof.
  intros Hmeta. unfold exec. rewrite applyColors_run.
  assert (Hp : previouslyManaged (cfg w) = Returned []).
  { unfold previouslyManaged. destruct (read_meta (cfg w)) as [| n | j]; try done.
    destruct j as [| b | n | s | items | fields]; try done.
    cbn in Hmeta |- *. destruct (own_prop "keys" fields) as [[] |]; done. }
  rewrite Hp. split; [reflexivity |]. destruct (store_fault w); [reflexivity |].
  split; reflexivity.
Qed.

(** ** getManagedStatus *)

Lemma getManagedStatus_run (w : World) :
  getManagedStatus w =
  (let meta := read_meta (cfg w) in
   match (if nullish meta then Returned VUndefined
          else match get_member meta Mkeys with
               | Returned k => get_member k Mlength
               | Threw e => Threw e
               end) with
   | Returned len =>
       match (if nullish meta then Returned VUndefined else get_member meta MappliedAt) with
       | Returned at_ =>
           Returned {| count := as_json (nullish_or len (VJson (JNum 0)));
                       appliedAt := as_json (nullish_or at_ (VJson JNull)) |}
       | Threw e => Threw e
       end
   | Threw e => Threw e
   end, w).
Proof.
  unfold getManagedStatus, mbind, Eff_bind, eff_bind, config_get, lift, cfg. cbn zeta.
  destruct (if nullish _ then _ else _) as [len | e]; [| reflexivity].
  destruct (if nullish _ then _ else _) as [at_ | e]; reflexivity.
Qed.

(** C8 (amended). [getManagedStatus] never changes the world. It throws
    exactly when a metadata entry is present (not [null]) whose [keys]
    member is missing or [null]. With no metadata entry it returns
    [count = 0] and [appliedAt = null]; with a metadata object whose [keys]
    is an array it returns the length of that array and the recorded
    [appliedAt] ([null] only when none is recorded). *)
Theorem getManagedStatus_reads (w : World) :
  exec getManagedStatus w = w ∧
  ((∃ e, fst (getManagedStatus w) = Threw e) ↔
   nullish (read_meta (cfg w)) = false ∧
   ∃ k, get_member (read_meta (cfg w)) Mkeys = Returned k ∧ nullish k = true) ∧
  (cfg w !! MANAGED_KEY = None →
   fst (getManagedStatus w) = Returned {| count := JNum 0; appliedAt := JNull |}) ∧
  (∀ fields items,
     cfg w !! MANAGED_KEY = Some (JObj fields) →
     own_prop "keys" fields = Some (JArr items) →
     fst (getManagedStatus w)
     = Returned {| count := JNum (Z.of_nat (length items));
                   appliedAt := default JNull (own_prop "appliedAt" fields) |}).
Proof.
  unfold exec. rewrite getManagedStatus_run. cbn [fst snd].
  split; [reflexivity |]. split; [split |]; [| | split].
  - intros [e He]. unfold read_meta in *.
    destruct (cfg w !! MANAGED_KEY) as [meta |]; cbn in He |- *; [| discriminate].
    destruct meta as [| b | n | s | items | fields]; cbn in He |- *; try discriminate;
      try (split; [reflexivity |]; eexists; split; reflexivity).
    destruct (own_prop "keys" fields) as [[| | | | |] |]; cbn in He |- *; try discriminate;
      (split; [reflexivity |]; eexists; split; reflexivity).
  - intros [Hn (k & Hk & Hnk)]. cbn zeta. rewrite Hn, Hk.
    destruct k as [| n | []]; try discriminate; cbn; eauto.
  - intros Hm. unfold read_meta. rewrite Hm. reflexivity.
  - intros fields items Hm Hk. unfold read_meta. rewrite Hm.
    cbn [from_option nullish get_member member_name]. rewrite Hk.
    cbn [from_option get_member nullish_or nullish as_json].
    destruct (own_prop "appliedAt" fields) as [[| | | | |] |]; reflexivity.
Qed.

(** ** Concrete runs of the merge engine *)

Example scenario_apply :
  settings (exec (applyColors [("c.d", "#fff")] "T1") scenario_world)
  = Some (list_to_map
       [("c.d", JStr "#fff");
        ("user.key", JStr "#123");
        (MANAGED_KEY, JObj [("keys", JArr [JStr "c.d"]); ("appliedAt", JStr "T1")])]).
Proof. vm_compute. reflexivity. Qed.


Lemma user_keys_never_touched_witness :
  let calls := [CallApply [("c.d", "#fff")] "T1"; CallClear; CallApply [("e.f", "#abc")] "T2"] in
  ("user.key" ≠ MANAGED_KEY) ∧
  (∀ newColors now, CallApply newColors now ∈ calls → "user.key" ∉ Object_keys newColors) ∧
  cfg scenario_world !! MANAGED_KEY
  = Some (JObj [("keys", JArr (JStr <$> ["a.b"])); ("appliedAt", JStr "T0")]) ∧
  ("user.key" ∉ ["a.b"]) ∧
  ("user.key" ∉ owned_keys (cfg scenario_world)) ∧
  cfg (run_calls calls scenario_world) !! "user.key" = cfg scenario_world !! "user.key".
Proof.
  cbn zeta.
  assert (Hm : "user.key" ≠ MANAGED_KEY) by discriminate.
  assert (Hpal : ∀ newColors now,
             CallApply newColors now
               ∈ [CallApply [("c.d", "#fff")] "T1"; CallClear; CallApply [("e.f", "#abc")] "T2"] →
             "user.key" ∉ Object_keys newColors).
  { intros newColors now Hin.
    apply elem_of_cons in Hin as [E | Hin]; [injection E as -> _; by_computation |].
    apply elem_of_cons in Hin as [E | Hin]; [discriminate |].
    apply elem_of_cons in Hin as [E | Hin]; [injection E as -> _; by_computation |].
    inversion Hin. }
  assert (Hmeta : cfg scenario_world !! MANAGED_KEY
                  = Some (JObj [("keys", JArr (JStr <$> ["a.b"])); ("appliedAt", JStr "T0")]))
    by (vm_compute; reflexivity).
  assert (Hout : "user.key" ∉ ["a.b"]) by by_computation.
  assert (Hown : "user.key" ∉ owned_keys (cfg scenario_world)) by by_computation.
  split; [exact Hm |]. split; [exact Hpal |]. split; [exact Hmeta |].
  split; [exact Hout |]. split; [exact Hown |].
  exact (proj1 (proj2 (user_keys_never_touched scenario_world _ "user.key" Hm Hpal))
           _ ["a.b"] Hmeta eq_refl Hout).
Defined.

(** C1 as stated fails when the stored [keys] is not an array of strings.
    When it is a string, the previously-owned list holds no key, yet
    [applyColors] iterates the string and deletes the user's key named by
    its one character. When it is an array with a number, the string ["7"]
    is not in the list, yet the number names the property ["7"], which is
    deleted. *)
Lemma user_keys_never_touched_counterexample :
  let w := {| settings := Some (list_to_map
                [("a", JStr "#000"); (MANAGED_KEY, JObj [("keys", JStr "a")])]);
              journal := []; store_fault := None |} in
  let w' := {| settings := Some (list_to_map
                 [("7", JStr "#000"); (MANAGED_KEY, JObj [("keys", JArr [JNum 7])])]);
               journal := []; store_fault := None |} in
  (∀ k newColors now, CallApply newColors now ∈ [CallApply [] "T1"] →
                      k ∉ Object_keys newColors) ∧
  ("a" ≠ MANAGED_KEY ∧
   ("a" ∉ ManagedMeta_keys (cfg w)) ∧
   cfg w !! "a" = Some (JStr "#000") ∧
   cfg (run_calls [CallApply [] "T1"] w) !! "a" = None) ∧
  ("7" ≠ MANAGED_KEY ∧
   ("7" ∉ ManagedMeta_keys (cfg w')) ∧
   cfg w' !! "7" = Some (JStr "#000") ∧
   cfg (run_calls [CallApply [] "T1"] w') !! "7" = None).
Proof.
  cbn zeta. split.
  - intros k newColors now Hin. apply list_elem_of_singleton in Hin. injection Hin as -> _.
    apply not_elem_of_nil.
  - split; (split; [discriminate |]); (split; [by_computation |]);
      split; vm_compute; reflexivity.
Qed.

Lemma apply_then_clear_witness :
  let X := [("c.d", "#fff")] in
  let after := cfg (exec clearColors (exec (applyColors X "T1") scenario_world)) in
  (X ≠ []) ∧
  fst (applyColors X "T1" scenario_world) = Returned tt ∧
  fst (clearColors (exec (applyColors X "T1") scenario_world)) = Returned tt ∧
  after !! "c.d" = None ∧
  after !! MANAGED_KEY = None ∧
  after !! "user.key" = Some (JStr "#123").
Proof.
  cbn zeta.
  assert (Hne : [("c.d", "#fff")] ≠ @nil (string * string)) by discriminate.
  assert (Hret : fst (applyColors [("c.d", "#fff")] "T1" scenario_world) = Returned tt)
    by (vm_compute; reflexivity).
  assert (Hclr : fst (clearColors (exec (applyColors [("c.d", "#fff")] "T1") scenario_world))
                 = Returned tt)
    by (vm_compute; reflexivity).
  destruct (apply_then_clear scenario_world [("c.d", "#fff")] "T1" Hne Hret Hclr)
    as (Hx & Hm & Hu).
  split; [exact Hne |]. split; [exact Hret |]. split; [exact Hclr |]. split; [| split].
  - apply Hx. by_computation.
  - exact Hm.
  - rewrite Hu; [vm_compute; reflexivity | discriminate | by_computation | by_computation].
Defined.

(** C3 as stated fails in three ways. With an empty palette the metadata
    record written by [applyColors] has [keys.length === 0], so
    [clearColors] finds nothing to clear and the reserved key stays. With a
    metadata entry whose [keys] is not iterable both calls throw and the
    keys of the palette that were present stay. With a metadata entry
    whose [keys] holds a number, the key that the number names is deleted,
    though it is not in the palette and the string is not in the list. *)
Lemma apply_then_clear_counterexample :
  cfg (exec clearColors (exec (applyColors [] "T1")
                              {| settings := None; journal := []; store_fault := None |}))
    !! MANAGED_KEY
  = Some (JObj [("keys", JArr []); ("appliedAt", JStr "T1")])
  ∧
  (let w := {| settings := Some (list_to_map
                 [("a.b", JStr "#000"); (MANAGED_KEY, JObj [("keys", JNum 5)])]);
               journal := []; store_fault := None |} in
   fst (applyColors [("a.b", "#fff")] "T1" w)
   = Threw (TypeError "previouslyManaged is not iterable") ∧
   cfg (exec clearColors (exec (applyColors [("a.b", "#fff")] "T1") w)) !! "a.b"
   = Some (JStr "#000"))
  ∧
  (let w := {| settings := Some (list_to_map
                 [("7", JStr "#000"); (MANAGED_KEY, JObj [("keys", JArr [JNum 7])])]);
               journal := []; store_fault := None |} in
   ManagedMeta_keys (cfg w) = [] ∧
   cfg w !! "7" = Some (JStr "#000") ∧
   fst (applyColors [("a.b", "#fff")] "T1" w) = Returned tt ∧
   cfg (exec clearColors (exec (applyColors [("a.b", "#fff")] "T1") w)) !! "7" = None).
Proof. vm_compute. repeat split. Qed.

Lemma applyColors_without_owned_keys_witness :
  let w := {| settings := Some (list_to_map
                [("user.key", JStr "#123"); (MANAGED_KEY, JStr "not an object")]);
              journal := []; store_fault := None |} in
  let w' := {| settings := settings w; journal := []; store_fault := Some "EROFS" |} in
  meta_without_keys (read_meta (cfg w)) = true ∧
  (fst (applyColors [("c.d", "#fff")] "T1" w) = Returned tt ∧
   settings (exec (applyColors [("c.d", "#fff")] "T1") w)
   = Some (<[MANAGED_KEY := new_meta [("c.d", "#fff")] "T1"]>
             (merge_colors [("c.d", "#fff")] (delete MANAGED_KEY (cfg w))))) ∧
  meta_without_keys (read_meta (cfg w')) = true ∧
  applyColors [("c.d", "#fff")] "T1" w' = (Threw (HostError "EROFS"), w').
Proof.
  intros w w'.
  assert (Hm : meta_without_keys (read_meta (cfg w)) = true) by (vm_compute; reflexivity).
  assert (Hm' : meta_without_keys (read_meta (cfg w')) = true) by (vm_compute; reflexivity).
  split; [exact Hm |].
  split; [exact (proj2 (applyColors_without_owned_keys w [("c.d", "#fff")] "T1" Hm)) |].
  split; [exact Hm' |].
  exact (proj2 (applyColors_without_owned_keys w' [("c.d", "#fff")] "T1" Hm')).
Defined.

(** C5 as stated fails when [keys] is present but is not an array of
    strings: a string is iterated character by character and the keys so
    named are deleted; a number is not iterable and the call throws. And
    with no metadata entry at all the call still throws when the host
    rejects the write. *)
Lemma applyColors_malformed_keys_counterexample :
  let w := {| settings := Some (list_to_map
                [("a", JStr "#000"); (MANAGED_KEY, JObj [("keys", JStr "a")])]);
              journal := []; store_fault := None |} in
  let w' := {| settings := Some (list_to_map [(MANAGED_KEY, JObj [("keys", JNum 5)])]);
               journal := []; store_fault := None |} in
  let w'' := {| settings := None; journal := []; store_fault := Some "EROFS" |} in
  cfg w !! "a" = Some (JStr "#000") ∧
  fst (applyColors [] "T1" w) = Returned tt ∧
  cfg (exec (applyColors [] "T1") w) !! "a" = None ∧
  fst (applyColors [] "T1" w') = Threw (TypeError "previouslyManaged is not iterable") ∧
  cfg w'' !! MANAGED_KEY = None ∧
  fst (applyColors [] "T1" w'') = Threw (HostError "EROFS").
Proof. vm_compute. repeat split. Qed.

Lemma getManagedStatus_reads_witness :
  let w := {| settings := None; journal := []; store_fault := None |} in
  cfg w !! MANAGED_KEY = None ∧
  fst (getManagedStatus w) = Returned {| count := JNum 0; appliedAt := JNull |} ∧
  cfg scenario_world !! MANAGED_KEY
  = Some (JObj [("keys", JArr [JStr "a.b"]); ("appliedAt", JStr "T0")]) ∧
  fst (getManagedStatus scenario_world) = Returned {| count := JNum 1; appliedAt := JStr "T0" |}.
Proof.
  cbn zeta. split; [reflexivity |]. split; [| split; [vm_compute; reflexivity |]].
  - apply (proj1 (proj2 (proj2 (getManagedStatus_reads {| settings := None; journal := []; store_fault := None |})))).
    reflexivity.
  - apply (proj2 (proj2 (proj2 (getManagedStatus_reads scenario_world)))
             [("keys", JArr [JStr "a.b"]); ("appliedAt", JStr "T0")] [JStr "a.b"]).
    + vm_compute. reflexivity.
    + reflexivity.
Defined.

(** C8 as stated fails in two ways. A metadata entry without a [keys]
    member makes [meta?.keys.length] read [length] of [undefined], which
    throws. After an apply of the empty palette nothing is owned, and the
    status carries the recorded timestamp, not [null]. *)
Lemma getManagedStatus_counterexample :
  fst (getManagedStatus {| settings := Some (list_to_map [(MANAGED_KEY, JObj [])]);
                           journal := []; store_fault := None |})
  = Threw (TypeError "Cannot read properties of undefined (reading 'length')")
  ∧
  let w := exec (applyColors [] "T1") {| settings := None; journal := []; store_fault := None |} in
  owned_keys (cfg w) = [] ∧
  fst (getManagedStatus w) = Returned {| count := JNum 0; appliedAt := JStr "T1" |}.
Proof. vm_compute. repeat split. Qed.

(** ** resolvePalettePath *)

Lemma trim_start_Forall (l : list ascii) :
  Forall (fun c => is_js_space c = true) (trim_start l)
  ↔ Forall (fun c => is_js_space c = true) l.
Proof.
  induction l as [| c rest IH]; [reflexivity |].
  simpl. destruct (is_js_space c) eqn:Hc; [| reflexivity].
  rewrite IH. split; [intros H; by constructor | intros H; by inversion H].
Qed.

Lemma trim_start_nil (l : list ascii) :
  trim_start l = [] ↔ Forall (fun c => is_js_space c = true) l.
Proof.
  induction l as [| c rest IH]; [by split |].
  simpl. destruct (is_js_space c) eqn:Hc.
  - rewrite IH. split; [intros H; by constructor | intros H; by inversion H].
  - split; [discriminate |]. intros H. inversion H. congruence.
Qed.

Lemma string_of_list_ascii_nil (l : list ascii) :
  String.string_of_list_ascii l = "" ↔ l = [].
Proof. destruct l; split; intros H; try reflexivity; discriminate. Qed.

Lemma trim_blank (s : string) : trim s = "" ↔ blank s.
Proof.
  unfold trim, blank. rewrite string_of_list_ascii_nil.
  set (l := String.list_ascii_of_string s).
  rewrite <- trim_start_Forall. split.
  - intros H. apply (f_equal (@rev ascii)) in H. rewrite rev_involutive in H. simpl in H.
    apply trim_start_nil in H. apply Forall_rev in H. by rewrite rev_involutive in H.
  - intros H. apply Forall_rev in H. apply trim_start_nil in H. by rewrite H.
Qed.

Lemma startsWith_char (c d : ascii) (rest : string) :
  startsWith (String c "") (String d rest) = bool_decide (c = d).
Proof.
  unfold startsWith. simpl. destruct (ascii_dec c d) as [-> | Hne].
  - rewrite bool_decide_eq_true_2 by reflexivity. by destruct rest.
  - by rewrite bool_decide_eq_false_2.
Qed.

Lemma blank_empty : blank "".
Proof. constructor. Qed.

(** C10 (amended). [resolvePalettePath] returns the platform default for
    an [undefined], empty or white-space-only [customPath]: the file
    [VSCodium/User/Theme/vscode-palette.json] under [XDG_CONFIG_HOME] when
    that is set and under [.config] in the home directory otherwise, put
    together by [path.join]. Any other [customPath] that does not start
    with a tilde is returned as it is; one that starts with a tilde becomes
    [path.join] of the home directory and the text after that one
    character, whatever that text starts with. *)
Theorem resolvePalettePath_cases (homedir : string) (XDG_CONFIG_HOME : option string)
    (path_join : list string -> string) :
  let resolve := resolvePalettePath homedir XDG_CONFIG_HOME path_join in
  let configDir := match XDG_CONFIG_HOME with
                   | Some dir => dir
                   | None => path_join [homedir; ".config"]
                   end in
  let fallback := path_join [configDir; "VSCodium"; "User"; "Theme"; "vscode-palette.json"] in
  resolve None = fallback ∧
  (∀ p, blank p → resolve (Some p) = fallback) ∧
  (∀ p, ¬ blank p → startsWith "~" p = false → resolve (Some p) = p) ∧
  (∀ rest, resolve (Some (String "~" rest)) = path_join [homedir; rest]).
Proof.
  cbn zeta. unfold resolvePalettePath, default_palette_path.
  split; [by destruct XDG_CONFIG_HOME |]. split; [| split].
  - intros p Hb. apply trim_blank in Hb. rewrite Hb.
    rewrite (bool_decide_eq_true_2 ("" = "")) by reflexivity.
    rewrite andb_false_r. by destruct XDG_CONFIG_HOME.
  - intros p Hb Ht. rewrite Ht.
    rewrite (bool_decide_eq_false_2 (p = "")).
    + rewrite (bool_decide_eq_false_2 (trim p = "")); [reflexivity |].
      intros E. by apply Hb, trim_blank.
    + intros ->. apply Hb, blank_empty.
  - intros rest.
    rewrite (bool_decide_eq_false_2 (String "~" rest = "")) by discriminate.
    rewrite (bool_decide_eq_false_2 (trim (String "~" rest) = "")).
    { rewrite startsWith_char. reflexivity. }
    intros E. apply trim_blank in E. inversion E as [| ? ? Hc]. discriminate Hc.
Qed.

Lemma resolvePalettePath_cases_witness :
  let resolve := resolvePalettePath "/home/u" None posix_join in
  blank "  " ∧
  resolve (Some "  ") = "/home/u/.config/VSCodium/User/Theme/vscode-palette.json" ∧
  ¬ blank " /tmp/p.json" ∧
  startsWith "~" " /tmp/p.json" = false ∧
  resolve (Some " /tmp/p.json") = " /tmp/p.json" ∧
  resolve (Some "~/.cache/p.json") = "/home/u/.cache/p.json" ∧
  resolve (Some "~cache") = "/home/u/cache" ∧
  resolvePalettePath "/home/u" (Some "/xdg") posix_join None
  = "/xdg/VSCodium/User/Theme/vscode-palette.json".
Proof.
  cbn zeta.
  destruct (resolvePalettePath_cases "/home/u" (Some "/xdg") posix_join) as (Hx & _).
  destruct (resolvePalettePath_cases "/home/u" None posix_join) as (_ & Hb & Hv & Ht).
  assert (Hblank : blank "  ") by (repeat constructor).
  assert (Hnb : ¬ blank " /tmp/p.json").
  { intros H. inversion H as [| ? ? _ H1]. inversion H1 as [| ? ? Hc _]. discriminate Hc. }
  split; [exact Hblank |]. split; [rewrite (Hb _ Hblank); vm_compute; reflexivity |].
  split; [exact Hnb |]. split; [reflexivity |].
  split; [apply Hv; [exact Hnb | reflexivity] |].
  split; [rewrite Ht; vm_compute; reflexivity |].
  split; [rewrite Ht; vm_compute; reflexivity | rewrite Hx; vm_compute; reflexivity].
Defined.

(** C10 as stated fails on the tilde: the character is not replaced by the
    home directory. The text after it is joined to the home directory by
    [path.join], which puts a separator between the two and normalises the
    result. *)
Lemma resolvePalettePath_tilde_counterexample :
  let resolve := resolvePalettePath "/home/u" None posix_join in
  resolve (Some "~cache") = "/home/u/cache" ∧
  resolve (Some "~cache") ≠ "/home/u" +:+ slice1 "~cache" ∧
  resolve (Some "~/../v/") = "/home/v/" ∧
  resolve (Some "~/../v/") ≠ "/home/u" +:+ slice1 "~/../v/".
Proof. vm_compute. repeat split; discriminate. Qed.

(** ** readPalette *)

Lemma is_hex_digit_spec (c : ascii) : is_hex_digit c = bool_decide (c ∈ hex_digits).
Proof. destruct c as [[] [] [] [] [] [] [] []]; vm_compute; reflexivity. Qed.

Lemma forallb_hex (l : list ascii) :
  forallb is_hex_digit l = true ↔ Forall (fun c => c ∈ hex_digits) l.
Proof.
  induction l as [| c l IH]; [by split |].
  simpl. rewrite andb_true_iff, IH, is_hex_digit_spec, bool_decide_eq_true.
  split; [intros [? ?]; by constructor | intros H; by inversion H].
Qed.

Lemma isHex_spec (v : string) : isHex v = true ↔ hex_color v.
Proof.
  unfold isHex, hex_color. split.
  - destruct v as [| c ds]; [discriminate |].
    destruct (decide (c = "#"%char)) as [-> | Hne].
    + rewrite andb_true_iff, forallb_hex, bool_decide_eq_true. intros [Hd Hl].
      by exists ds.
    + destruct c as [[] [] [] [] [] [] [] []]; try discriminate. by destruct Hne.
  - intros (ds & -> & Hd & Hl).
    rewrite andb_true_iff, forallb_hex, bool_decide_eq_true. by split.
Qed.

Lemma includes_dot (s : string) : includes "." s = true ↔ ∃ a b, s = a +:+ "." +:+ b.
Proof.
  induction s as [| c rest IH].
  - split; [discriminate |]. intros (a & b & E). destruct a; discriminate.
  - cbn [includes]. fold (startsWith "." (String c rest)).
    rewrite startsWith_char, orb_true_iff, bool_decide_eq_true, IH. split.
    + intros [<- | (a & b & ->)]; [by exists "", rest | by exists (String c a), b].
    + intros (a & b & E). destruct a as [| d a].
      * left. change (String c rest = String "." b) in E. congruence.
      * right. exists a, b.
        change (String c rest = String d (a +:+ "." +:+ b)) in E. congruence.
Qed.

Lemma isColorToken_spec (key : string) : isColorToken key = true ↔ token_shape key.
Proof.
  unfold isColorToken, token_shape.
  rewrite andb_true_iff, negb_true_iff, includes_dot.
  apply and_iff_compat_r.
  destruct key as [| c rest].
  - split; [intros _ r; discriminate | reflexivity].
  - rewrite startsWith_char, bool_decide_eq_false. split.
    + intros Hne r E. apply Hne. congruence.
    + intros H E. apply (H rest). congruence.
Qed.

Lemma cm_set_fresh (key value : string) (colors : ColorMap) :
  key ∉ Object_keys colors → cm_set key value colors = (colors ++ [(key, value)])%list.
Proof.
  unfold Object_keys.
  induction colors as [| [k v] rest IH]; intros Hk; [reflexivity |].
  rewrite fmap_cons in Hk. simpl. rewrite decide_False.
  - rewrite IH; [reflexivity |]. intros Hin. apply Hk. by right.
  - intros E. apply Hk. simpl. rewrite E. left.
Qed.

(** The loop only ever logs. *)
Lemma extract_tokens_run (entries : list (string * JValue)) (colors : ColorMap)
    (skipped : nat) (w : World) :
  ∃ colors' w',
    extract_tokens entries colors skipped w
    = (Returned (colors',
                 skipped + length (filter (fun kv => counts_as_skipped kv = true) entries)),
       w') ∧
    settings w' = settings w ∧
    (NoDup (Object_keys colors ++ entries.*1)%list →
     colors' = (colors ++ omap usable entries)%list).
Proof.
  revert colors skipped w.
  induction entries as [| [key value] rest IH]; intros colors skipped w.
  - exists colors, w. cbn [extract_tokens omap list_omap filter list_filter length].
    rewrite Nat.add_0_r, !app_nil_r. split; [reflexivity |]. split; [reflexivity | done].
  - cbn [extract_tokens]. unfold counts_as_skipped at 1, usable at 1.
    rewrite fmap_cons. cbn [fst snd omap list_omap].
    unfold Object_keys in *.
    assert (Hnd : NoDup (colors.*1 ++ key :: rest.*1)%list → NoDup (colors.*1 ++ rest.*1)%list).
    { intros H. apply NoDup_app in H as (H1 & H2 & H3). apply NoDup_cons in H3 as [_ H3].
      apply NoDup_app. repeat split; [done | | done].
      intros x Hx Hr. apply (H2 x Hx). by right. }
    destruct (isColorToken key) eqn:Htok; cbn [negb andb].
    + destruct value as [| b | n | v | items | fields];
        try (destruct (IH colors (S skipped) w) as (c' & w' & Hrun & Hs & Hc);
             exists c', w'; rewrite Hrun;
             rewrite filter_cons_True by (unfold counts_as_skipped; simpl; by rewrite Htok);
             cbn [length];
             rewrite Nat.add_succ_r; repeat split; [exact Hs | intros H; apply Hc, Hnd, H]).
      destruct (isHex v) eqn:Hhex; cbn [negb].
      * destruct (IH (cm_set key v colors) skipped w) as (c' & w' & Hrun & Hs & Hc).
        exists c', w'. rewrite Hrun.
        rewrite filter_cons_False
          by (unfold counts_as_skipped; simpl; rewrite Htok, Hhex; discriminate).
        repeat split; [exact Hs |]. intros H.
        assert (Hfresh : key ∉ colors.*1).
        { apply NoDup_app in H as (_ & H2 & _). intros Hin. apply (H2 key Hin). left. }
        rewrite cm_set_fresh in Hc by exact Hfresh.
        rewrite Hc, <- app_assoc; [reflexivity |].
        rewrite fmap_app, <- app_assoc. exact H.
      * unfold mbind, Eff_bind, eff_bind. cbn [logger].
        match goal with |- context [extract_tokens rest colors (S skipped) ?w1] =>
          destruct (IH colors (S skipped) w1) as (c' & w' & Hrun & Hs & Hc) end.
        exists c', w'. rewrite Hrun.
        rewrite filter_cons_True
          by (unfold counts_as_skipped; simpl; by rewrite Htok, Hhex).
        cbn [length].
        rewrite Nat.add_succ_r. repeat split; [exact Hs | intros H; apply Hc, Hnd, H].
    + destruct (IH colors skipped w) as (c' & w' & Hrun & Hs & Hc).
      exists c', w'. rewrite Hrun.
      rewrite filter_cons_False
        by (unfold counts_as_skipped; simpl; rewrite Htok; discriminate).
      repeat split; [exact Hs |]. intros H. rewrite (Hc (Hnd H)).
      by destruct value.
Qed.

Lemma usable_spec (key : string) (value : JValue) (k v : string) :
  usable (key, value) = Some (k, v)
  ↔ key = k ∧ value = JStr v ∧ token_shape k ∧ hex_color v.
Proof.
  unfold usable. cbn [fst snd]. rewrite <- isColorToken_spec, <- isHex_spec. split.
  - destruct value as [| b | n | s | items | fields]; try discriminate.
    destruct (isColorToken key) eqn:Ht, (isHex s) eqn:Hh; try discriminate.
    intros [= <- <-]. split; [reflexivity |]. split; [reflexivity |]. split; assumption.
  - intros (-> & -> & Ht & Hh). by rewrite Ht, Hh.
Qed.

Lemma readPalette_run (fs : string -> FileProbe) (JSON_parse : string -> string + JValue)
    (path raw : string) (entries : list (string * JValue)) (w : World) :
  fs path = FileText raw →
  JSON_parse raw = inr (JObj entries) →
  ∃ colors skipped w1,
    extract_tokens entries [] 0 w = (Returned (colors, skipped), w1) ∧
    readPalette fs JSON_parse path w =
    if bool_decide (length (Object_keys colors) = 0%nat) then
      (Returned (ReadFailed "Palette file contained no valid VS Code color tokens."), w1)
    else
      (Returned (ReadOk colors),
       {| settings := settings w1;
          journal := (journal w1 ++
            [(Debug, "Palette loaded: " +:+ pretty (length (Object_keys colors))
                     +:+ " token(s) applied, " +:+ pretty skipped +:+ " skipped.")])%list;
          store_fault := store_fault w1 |}).
Proof.
  intros Hfs Hparse. unfold readPalette. rewrite Hfs, Hparse.
  destruct (extract_tokens_run entries [] 0 w) as (colors & w1 & Hrun & _ & _).
  eexists colors, _, w1. split; [exact Hrun |].
  unfold mbind, Eff_bind, eff_bind. rewrite Hrun.
  destruct (bool_decide _); reflexivity.
Qed.

(** C2. For a palette file that parses as a plain object (its keys are
    distinct, as the keys of an object are), [readPalette] never throws; it
    succeeds exactly when some entry has a token-shaped key and a hex-color
    string value, the returned ColorMap then holds exactly those entries,
    and otherwise it fails with the empty-palette error. *)
Theorem readPalette_keeps_usable_entries
    (fs : string -> FileProbe) (JSON_parse : string -> string + JValue)
    (path raw : string) (entries : list (string * JValue)) (w : World) :
  fs path = FileText raw →
  JSON_parse raw = inr (JObj entries) →
  NoDup entries.*1 →
  let good k v := (k, JStr v) ∈ entries ∧ token_shape k ∧ hex_color v in
  match fst (readPalette fs JSON_parse path w) with
  | Returned (ReadOk colors) =>
      (∃ k v, good k v) ∧ ∀ k v, (k, v) ∈ colors ↔ good k v
  | Returned (ReadFailed error) =>
      (¬ ∃ k v, good k v) ∧
      error = "Palette file contained no valid VS Code color tokens."
  | Threw _ => False
  end.
Proof.
  intros Hfs Hparse Hnd good.
  destruct (readPalette_run fs JSON_parse path raw entries w Hfs Hparse)
    as (colors & skipped & w1 & Hext & Hrun).
  destruct (extract_tokens_run entries [] 0 w) as (c' & w' & Hrun' & _ & Hc).
  rewrite Hext in Hrun'. injection Hrun' as <- _ _.
  rewrite (Hc Hnd), app_nil_l in Hrun. rewrite Hrun. clear Hrun Hext Hc.
  assert (Hmem : ∀ k v, (k, v) ∈ omap usable entries ↔ good k v).
  { intros k v. rewrite list_elem_of_omap. unfold good. split.
    - intros ([key value] & Hin & Hu). apply usable_spec in Hu as (-> & -> & Ht & Hh).
      split; [exact Hin | split; assumption].
    - intros (Hin & Ht & Hh). exists (k, JStr v). split; [exact Hin |].
      by apply usable_spec. }
  unfold Object_keys. rewrite length_fmap.
  destruct (omap usable entries) as [| [k0 v0] rest] eqn:Hom; cbn [length bool_decide fst].
  - rewrite bool_decide_eq_true_2 by reflexivity. cbn [fst]. split; [| reflexivity].
    intros (k & v & Hg). apply Hmem in Hg. inversion Hg.
  - rewrite bool_decide_eq_false_2 by discriminate. cbn [fst]. split; [| exact Hmem].
    exists k0, v0. apply Hmem. left.
Qed.

Lemma readPalette_keeps_usable_entries_witness :
  let fs := one_file "/p.json" in
  fs "/p.json" = FileText "palette" ∧
  parse_as scenario_palette "palette" = inr (JObj scenario_palette) ∧
  NoDup scenario_palette.*1 ∧
  fst (readPalette fs (parse_as scenario_palette) "/p.json" quiet_world)
  = Returned (ReadOk [("editor.background", "#112233")]) ∧
  ∀ k v, (k, v) ∈ [("editor.background", "#112233")]
         ↔ (k, JStr v) ∈ scenario_palette ∧ token_shape k ∧ hex_color v.
Proof.
  cbn zeta.
  assert (Hnd : NoDup scenario_palette.*1) by by_computation.
  assert (Hrun : fst (readPalette (one_file "/p.json") (parse_as scenario_palette) "/p.json"
                        quiet_world)
                 = Returned (ReadOk [("editor.background", "#112233")]))
    by (vm_compute; reflexivity).
  split; [reflexivity |]. split; [reflexivity |]. split; [exact Hnd |].
  split; [exact Hrun |].
  pose proof (readPalette_keeps_usable_entries (one_file "/p.json") (parse_as scenario_palette)
                "/p.json" "palette" scenario_palette quiet_world eq_refl eq_refl Hnd) as H.
  cbn zeta in H. rewrite Hrun in H. exact (proj2 H).
Defined.

Example readPalette_scenario_log :
  journal (exec (readPalette (one_file "/p.json") (parse_as scenario_palette) "/p.json")
                quiet_world)
  = [(Debug, "Skipping non-hex value for token " +:+ dquote +:+ "bad.token" +:+ dquote
             +:+ ": notacolor");
     (Debug, "Palette loaded: 1 token(s) applied, 1 skipped.")].
Proof. vm_compute. reflexivity. Qed.

Example readPalette_no_dot :
  fst (readPalette (one_file "/p.json") (parse_as [("nodothere", JStr "#fff")]) "/p.json"
         quiet_world)
  = Returned (ReadFailed "Palette file contained no valid VS Code color tokens.").
Proof. vm_compute. reflexivity. Qed.

(** C9 (amended). The loop ends with [skipped] raised by the number of
    entries whose key is token-shaped and whose value is not a hex-color
    string (not a string at all, or a string of another shape). A key that
    starts with an underscore and a key without a dot both fail the one
    [isColorToken] test: neither raises [skipped], whatever the value. *)
Theorem skipped_counts_bad_values (entries : list (string * JValue)) (colors : ColorMap)
    (skipped : nat) (w : World) :
  (∃ colors' w',
     extract_tokens entries colors skipped w
     = (Returned (colors',
                  skipped + length (filter (fun kv => counts_as_skipped kv = true) entries)),
        w')) ∧
  (∀ key value,
     counts_as_skipped (key, value) = true
     ↔ token_shape key ∧ ¬ (∃ v, value = JStr v ∧ hex_color v)).
Proof.
  split.
  - destruct (extract_tokens_run entries colors skipped w) as (c' & w' & Hrun & _).
    by exists c', w'.
  - intros key value. unfold counts_as_skipped. cbn [fst snd].
    rewrite andb_true_iff, isColorToken_spec. apply and_iff_compat_l.
    destruct value as [| b | n | s | items | fields];
      try (split; [intros _ (v & E & _); discriminate | reflexivity]).
    rewrite negb_true_iff, <- not_true_iff_false, isHex_spec. split.
    + intros Hn (v & [= <-] & Hh). by apply Hn.
    + intros Hn Hh. apply Hn. by exists s.
Qed.

Lemma skipped_counts_bad_values_witness :
  ∃ colors' w',
    extract_tokens scenario_palette [] 0 quiet_world = (Returned (colors', 1), w').
Proof.
  destruct (skipped_counts_bad_values scenario_palette [] 0 quiet_world)
    as [(c' & w' & Hrun) _].
  exists c', w'. rewrite Hrun. vm_compute. reflexivity.
Defined.

(** C9 as stated fails on its first part: a key without a dot is skipped by
    the same test as an underscore key and is not counted. *)
Lemma skipped_no_dot_counterexample :
  let entries := [("nodothere", JStr "#fff"); ("a.b", JStr "#fff")] in
  includes "." "nodothere" = false ∧
  startsWith "_" "nodothere" = false ∧
  fst (extract_tokens entries [] 0 quiet_world) = Returned ([("a.b", "#fff")], 0) ∧
  journal (exec (readPalette (one_file "/p.json") (parse_as entries) "/p.json") quiet_world)
  = [(Debug, "Palette loaded: 1 token(s) applied, 0 skipped.")].
Proof. vm_compute. repeat split. Qed.

(** ** debounce *)



Section DebounceFacts.

Context {A : Type}.
Local Open Scope nat_scope.

Lemma elapse_alone (L : Loop A) (t : Timeout A) (dt : nat) :
  timeouts L = [t] →
  (clock L + dt < dueAt t →
   elapse dt L = {| clock := clock L + dt; nextTimeout := nextTimeout L;
                    timeouts := [t]; closures := closures L; executed := executed L |}) ∧
  (dueAt t ≤ clock L + dt →
   elapse dt L = {| clock := clock L + dt; nextTimeout := nextTimeout L;
                    timeouts := [];
                    closures := alter (fun c => mkDebounced (delayMs c) None) (owner t)
                                      (closures L);
                    executed := executed L ++
                      [(Nat.max (clock L) (dueAt t), owner t, args t)] |}).
Proof.
  intros Ht. unfold elapse. rewrite Ht. cbn [length run_due]. unfold next_due. rewrite Ht.
  split; intros Hdue.
  - rewrite filter_cons_False by lia. cbn [filter list_filter]. by rewrite Ht.
  - rewrite filter_cons_True by lia. cbn [filter list_filter foldl].
    unfold fire, take_timeout, set_timer. cbn [clock nextTimeout timeouts closures executed].
    rewrite Ht. rewrite filter_cons_False by (intros H; by apply H). reflexivity.
Qed.







End DebounceFacts.



(** ** PaletteWatcher *)

Lemma dispose_loop (d : Disposable) (E : Env) :
  loop (dispose d E) = loop E ∧ debounceMs (dispose d E) = debounceMs E.
Proof. by destruct d. Qed.

Lemma stop_loop (W : PaletteWatcher) (E : Env) :
  loop (snd (stop W E)) = loop E ∧ debounceMs (snd (stop W E)) = debounceMs E.
Proof.
  unfold stop. cbn [snd]. revert E.
  induction (disposables W) as [| d ds IH]; intros E; [by split |].
  cbn [foldl]. destruct (IH (dispose d E)) as [-> ->]. apply dispose_loop.
Qed.

Lemma start_loop (path : string) (W : PaletteWatcher) (E : Env) :
  loop (snd (start path W E)) = snd (debounce (debounceMs E) (loop E)) ∧
  debouncedCallback (fst (start path W E)) = length (closures (loop E)).
Proof.
  unfold start. destruct (stop W E) as [W1 E1] eqn:Hstop.
  pose proof (stop_loop W E) as [Hl Hd]. rewrite Hstop in Hl, Hd. cbn [snd] in Hl, Hd.
  unfold buildDebounced, debounce. cbn. by rewrite Hl, Hd.
Qed.

(** C7 (amended). [start(path)] builds a new debounced closure and leaves
    the timer queue as it is: nothing that was scheduled is cancelled. A
    pending invocation scheduled before the restart still runs [onChange]
    when it comes due after the restart. *)
Theorem start_keeps_pending_timer (W : PaletteWatcher) (E : Env) (path : string) :
  let W' := fst (start path W E) in
  let E' := snd (start path W E) in
  timeouts (loop E') = timeouts (loop E) ∧
  executed (loop E') = executed (loop E) ∧
  debouncedCallback W' = length (closures (loop E)) ∧
  closures (loop E') = (closures (loop E) ++ [mkDebounced (debounceMs E) None])%list ∧
  ∀ t dt,
    timeouts (loop E) = [t] →
    (dueAt t ≤ clock (loop E) + dt)%nat →
    onChange_runs (wait dt E')
    = (onChange_runs E ++ [Nat.max (clock (loop E)) (dueAt t)])%list.
Proof.
  cbn zeta. destruct (start_loop path W E) as [Hl Hd]. rewrite Hl, Hd.
  unfold debounce. cbn [snd timeouts closures executed].
  repeat (split; [reflexivity |]).
  intros t dt Ht Hdue. unfold onChange_runs, wait, with_loop. cbn [loop]. rewrite Hl.
  match goal with |- context [elapse dt ?L] =>
    destruct (elapse_alone L t dt Ht) as [_ Hrun]; rewrite (Hrun Hdue) end.
  cbn [executed clock snd debounce]. by rewrite fmap_app.
Qed.

Lemma start_keeps_pending_timer_witness :
  let '(W, E) := watching_with_pending in
  let t := mkTimeout 0 300 2 tt in
  timeouts (loop E) = [t] ∧
  (dueAt t ≤ clock (loop E) + 200)%nat ∧
  onChange_runs (wait 200 (snd (start "/b.json" W E))) = [300%nat].
Proof.
  destruct watching_with_pending as [W E] eqn:Hw.
  assert (HE : E = snd watching_with_pending) by (by rewrite Hw).
  cbn zeta.
  assert (Ht : timeouts (loop E) = [mkTimeout 0 300 2 tt])
    by (rewrite HE; vm_compute; reflexivity).
  assert (Hdue : (dueAt (mkTimeout 0 300 2 tt) ≤ clock (loop E) + 200)%nat)
    by (rewrite HE; vm_compute; lia).
  split; [exact Ht |]. split; [exact Hdue |].
  destruct (start_keeps_pending_timer W E "/b.json") as (_ & _ & _ & _ & Hrun).
  rewrite (Hrun _ 200%nat Ht Hdue). rewrite HE. vm_compute. reflexivity.
Defined.

(** C7 as stated fails: the watcher saw a change at time 0 (delay 300 ms),
    is restarted at time 100 while that invocation is pending, and
    [onChange] still runs at time 300, after the restart; the closure that
    scheduled it is no longer the watcher's [debouncedCallback]. *)
Lemma restart_does_not_cancel_counterexample :
  let '(W, E) := watching_with_pending in
  let '(W', E') := restarted in
  fsWatcher W = Some 0%nat ∧
  timeouts (loop E) = [mkTimeout 0 300 (debouncedCallback W) tt] ∧
  clock (loop E') = 100%nat ∧
  debouncedCallback W' ≠ debouncedCallback W ∧
  onChange_runs E' = [] ∧
  onChange_runs (wait 300 E') = [300%nat].
Proof. vm_compute. repeat split. discriminate. Qed.

(** * Further properties of the merge engine *)

Lemma previouslyManaged_owned_keys current ks :
  previouslyManaged current = Returned ks → owned_keys current = js_to_string <$> ks.
Proof.
  intros Hp. apply previouslyManaged_iterated in Hp as (_ & keysv & Hk & Hf).
  revert Hk Hf. unfold owned_keys, read_meta.
  destruct (current !! MANAGED_KEY) as [meta |]; cbn [from_option];
    [| by intros [= <-] [= <-]].
  destruct meta as [| b | n | s | items | fields]; cbn;
    try (by intros [= <-] [= <-]).
  destruct (own_prop "keys" fields) as [[| b | n | s | items | fs] |]; cbn;
    intros [= <-]; cbn; try discriminate; by intros [= <-].
Qed.

Lemma applyColors_threw (w : World) (newColors : ColorMap) (now : string) (e : JsError) :
  fst (applyColors newColors now w) = Threw e → exec (applyColors newColors now) w = w.
Proof.
  unfold exec. rewrite applyColors_run.
  destruct (previouslyManaged (cfg w)); [| reflexivity].
  destruct (store_fault w); [reflexivity | discriminate].
Qed.

Lemma clearColors_threw (w : World) (e : JsError) :
  fst (clearColors w) = Threw e → exec clearColors w = w.
Proof.
  unfold clearColors, exec, mbind, Eff_bind, eff_bind, config_get, config_update,
    to_property_keys, lift, logger. cbn [fst snd].
  destruct (falsy _); [discriminate |].
  destruct (get_member _ Mkeys) as [keysv | e1]; [| reflexivity].
  destruct (get_member keysv Mlength) as [len | e1]; [| reflexivity].
  destruct (for_of "meta.keys" keysv) as [ks | e1];
    destruct len as [| n | [| | [| p | p] | s | items | fields]]; cbn;
    try discriminate; try reflexivity;
    destruct (forallb stringifiable ks); cbn; try reflexivity;
    destruct (store_fault w); cbn; first [discriminate | reflexivity].
Qed.

(** Neither call changes whether the host takes writes. *)
Lemma applyColors_store_fault (w : World) (newColors : ColorMap) (now : string) :
  store_fault (exec (applyColors newColors now) w) = store_fault w.
Proof.
  unfold exec. rewrite applyColors_run.
  destruct (previouslyManaged (cfg w)); [| reflexivity].
  by destruct (store_fault w) eqn:Hfault.
Qed.

Lemma clearColors_store_fault (w : World) :
  store_fault (exec clearColors w) = store_fault w.
Proof.
  unfold clearColors, exec, mbind, Eff_bind, eff_bind, config_get, config_update,
    to_property_keys, lift, logger. cbn [fst snd].
  destruct (falsy _); [reflexivity |].
  destruct (get_member _ Mkeys) as [keysv | e1]; [| reflexivity].
  destruct (get_member keysv Mlength) as [len | e1]; [| reflexivity].
  destruct (for_of "meta.keys" keysv) as [ks | e1];
    destruct len as [| n | [| | [| p | p] | s | items | fields]]; cbn;
    try reflexivity;
    destruct (forallb stringifiable ks); cbn; try reflexivity;
    by destruct (store_fault w) eqn:Hfault.
Qed.

(** X1. A call of [applyColors] or [clearColors] that throws has written
    nothing: the settings and the log are exactly as before the call. *)
Theorem throwing_call_writes_nothing (c : Call) (w : World) (e : JsError) :
  fst (run_call c w) = Threw e → exec (run_call c) w = w.
Proof.
  destruct c as [newColors now |]; cbn [run_call].
  - apply applyColors_threw.
  - apply clearColors_threw.
Qed.

Lemma throwing_call_writes_nothing_witness :
  let w := {| settings := Some (list_to_map
                [("a.b", JStr "#000"); (MANAGED_KEY, JObj [("keys", JNum 5)])]);
              journal := [(Info, "earlier line")]; store_fault := None |} in
  let w' := {| settings := Some (list_to_map [("a.b", JStr "#000")]);
               journal := [(Info, "earlier line")]; store_fault := Some "EROFS" |} in
  fst (run_call CallClear w) = Threw (TypeError "meta.keys is not iterable") ∧
  exec (run_call CallClear) w = w ∧
  fst (run_call (CallApply [("c.d", "#fff")] "T1") w') = Threw (HostError "EROFS") ∧
  exec (run_call (CallApply [("c.d", "#fff")] "T1")) w' = w'.
Proof.
  cbn zeta. split; [vm_compute; reflexivity |]. split; [| split; [vm_compute; reflexivity |]].
  - apply (throwing_call_writes_nothing CallClear _ (TypeError "meta.keys is not iterable")).
    vm_compute. reflexivity.
  - apply (throwing_call_writes_nothing (CallApply [("c.d", "#fff")] "T1") _
             (HostError "EROFS")).
    vm_compute. reflexivity.
Defined.

(** X2. Stale tokens do not pile up: an [applyColors(X)] that returns
    normally has removed every key that iterating the stored [keys] yields
    (for an array of strings, the strings it lists) and that [X] no longer
    defines. *)
Theorem apply_removes_stale_keys (w : World) (newColors : ColorMap) (now : string)
    (k : string) :
  fst (applyColors newColors now w) = Returned tt →
  k ∈ owned_keys (cfg w) →
  k ∉ Object_keys newColors →
  k ≠ MANAGED_KEY →
  cfg (exec (applyColors newColors now) w) !! k = None.
Proof.
  intros Hret Hown Hx Hm. destruct (applyColors_returns _ _ _ Hret) as (ks & Hp & Hs).
  assert (Hc : cfg (exec (applyColors newColors now) w) = applied ks newColors now (cfg w))
    by (unfold cfg at 1; by rewrite Hs).
  rewrite Hc. unfold applied.
  rewrite lookup_insert_ne by congruence.
  rewrite merge_colors_other by exact Hx.
  rewrite lookup_delete_ne by congruence.
  apply delete_all_gone. by rewrite <- (previouslyManaged_owned_keys _ _ Hp).
Qed.

Lemma apply_removes_stale_keys_witness :
  fst (applyColors [("c.d", "#fff")] "T1" scenario_world) = Returned tt ∧
  ("a.b" ∈ owned_keys (cfg scenario_world)) ∧
  ("a.b" ∉ Object_keys [("c.d", "#fff")]) ∧
  ("a.b" ≠ MANAGED_KEY) ∧
  cfg scenario_world !! "a.b" = Some (JStr "#000") ∧
  cfg (exec (applyColors [("c.d", "#fff")] "T1") scenario_world) !! "a.b" = None.
Proof.
  assert (Hret : fst (applyColors [("c.d", "#fff")] "T1" scenario_world) = Returned tt)
    by (vm_compute; reflexivity).
  assert (Hown : "a.b" ∈ owned_keys (cfg scenario_world)) by by_computation.
  assert (Hx : "a.b" ∉ Object_keys [("c.d", "#fff")]) by by_computation.
  assert (Hm : "a.b" ≠ MANAGED_KEY) by discriminate.
  repeat (split; [assumption |]). split; [vm_compute; reflexivity |].
  exact (apply_removes_stale_keys scenario_world _ "T1" "a.b" Hret Hown Hx Hm).
Defined.

(** A number among the stored keys names the property that its conversion
    to a string gives. *)
Example number_key_removed :
  let w := {| settings := Some (list_to_map
                [("1e+21", JStr "#000"); ("7", JStr "#111");
                 (MANAGED_KEY, JObj [("keys", JArr [JNum (10 ^ 21); JNum 7])])]);
              journal := []; store_fault := None |} in
  owned_keys (cfg w) = ["1e+21"; "7"] ∧
  settings (exec (applyColors [] "T1") w)
  = Some (list_to_map [(MANAGED_KEY, JObj [("keys", JArr []); ("appliedAt", JStr "T1")])]).
Proof. vm_compute. split; reflexivity. Qed.

(** An object with an own [toString] among the stored keys cannot be
    converted: the call throws and nothing is written. *)
Example unconvertible_key_throws :
  let w := {| settings := Some (list_to_map
                [("a.b", JStr "#000");
                 (MANAGED_KEY, JObj [("keys", JArr [JStr "a.b"; JObj [("toString", JNum 1)]])])]);
              journal := []; store_fault := None |} in
  applyColors [] "T1" w = (Threw (TypeError "Cannot convert object to primitive value"), w).
Proof. vm_compute. reflexivity. Qed.

(** X3. Replacement: when [applyColors(X)] and then [applyColors(Y)] both
    return normally, no key of [X] that [Y] does not define is left. *)
Theorem second_apply_replaces_first (w : World) (X Y : ColorMap) (t1 t2 : string)
    (k : string) :
  fst (applyColors X t1 w) = Returned tt →
  fst (applyColors Y t2 (exec (applyColors X t1) w)) = Returned tt →
  k ∈ Object_keys X →
  k ∉ Object_keys Y →
  k ≠ MANAGED_KEY →
  cfg (exec (applyColors Y t2) (exec (applyColors X t1) w)) !! k = None.
Proof.
  intros Hret Hret2 Hx Hy Hm. destruct (applyColors_returns _ _ _ Hret) as (ks & Hp & Hs).
  set (w1 := exec (applyColors X t1) w) in *.
  assert (Hc1 : cfg w1 = applied ks X t1 (cfg w)) by (unfold cfg at 1; by rewrite Hs).
  destruct (applyColors_returns _ _ _ Hret2) as (ks2 & Hp2 & Hs2).
  rewrite Hc1, previouslyManaged_applied in Hp2. injection Hp2 as <-.
  unfold cfg at 1. rewrite Hs2, Hc1. cbn [default from_option id]. unfold applied at 1.
  rewrite lookup_insert_ne by congruence.
  rewrite merge_colors_other by exact Hy.
  rewrite lookup_delete_ne by congruence.
  apply delete_all_gone. by rewrite js_to_string_JStr.
Qed.

Lemma second_apply_replaces_first_witness :
  let X := [("a.b", "#111"); ("c.d", "#222")] in
  let Y := [("c.d", "#333")] in
  fst (applyColors X "T1" untouched_world) = Returned tt ∧
  fst (applyColors Y "T2" (exec (applyColors X "T1") untouched_world)) = Returned tt ∧
  ("a.b" ∈ Object_keys X) ∧ ("a.b" ∉ Object_keys Y) ∧ ("a.b" ≠ MANAGED_KEY) ∧
  cfg (exec (applyColors Y "T2") (exec (applyColors X "T1") untouched_world)) !! "a.b" = None.
Proof.
  cbn zeta.
  assert (Hret : fst (applyColors [("a.b", "#111"); ("c.d", "#222")] "T1" untouched_world)
                 = Returned tt) by (vm_compute; reflexivity).
  assert (Hret2 : fst (applyColors [("c.d", "#333")] "T2"
                         (exec (applyColors [("a.b", "#111"); ("c.d", "#222")] "T1")
                               untouched_world))
                  = Returned tt) by (vm_compute; reflexivity).
  assert (Hx : "a.b" ∈ Object_keys [("a.b", "#111"); ("c.d", "#222")]) by by_computation.
  assert (Hy : "a.b" ∉ Object_keys [("c.d", "#333")]) by by_computation.
  assert (Hm : "a.b" ≠ MANAGED_KEY) by discriminate.
  repeat (split; [assumption |]).
  exact (second_apply_replaces_first untouched_world _ _ "T1" "T2" "a.b" Hret Hret2 Hx Hy Hm).
Defined.

Lemma distinct_keys_one_value (colors : ColorMap) (k v1 v2 : string) :
  NoDup (Object_keys colors) → (k, v1) ∈ colors → (k, v2) ∈ colors → v1 = v2.
Proof.
  unfold Object_keys. induction colors as [| [k0 v0] rest IH]; intros Hnd H1 H2.
  - inversion H1.
  - rewrite fmap_cons in Hnd. apply NoDup_cons in Hnd as [Hfresh Hnd].
    assert (Hkey : ∀ v, (k, v) ∈ rest → k ∈ rest.*1).
    { intros v Hv. apply list_elem_of_fmap. by exists (k, v). }
    apply elem_of_cons in H1 as [E1 | H1]; apply elem_of_cons in H2 as [E2 | H2].
    + congruence.
    + injection E1 as -> ->. destruct Hfresh. by apply (Hkey v2).
    + injection E2 as -> ->. destruct Hfresh. by apply (Hkey v1).
    + by apply IH.
Qed.

Lemma merge_colors_value (newColors : ColorMap) (m : gmap string JValue) (k hex : string) :
  k ≠ "__proto__" →
  NoDup (Object_keys newColors) → (k, hex) ∈ newColors →
  merge_colors newColors m !! k = Some (JStr hex).
Proof.
  intros Hproto Hnd Hin.
  destruct (merge_colors_is_color newColors m k Hproto) as (hex' & Hin' & Hl).
  { unfold Object_keys. apply list_elem_of_fmap. by exists (k, hex). }
  rewrite Hl. do 2 f_equal. by eapply distinct_keys_one_value.
Qed.

(** X4. After an [applyColors(X)] that returned normally (the keys of [X]
    distinct, as the keys of an object are) every token of [X] holds the
    color [X] gives it, unless it is named [__proto__]; the metadata entry
    is the record of the keys of [X], in their order, with the time of the
    call, and [getManagedStatus] reports their number and that time. *)
Theorem apply_installs_palette (w : World) (newColors : ColorMap) (now : string) :
  fst (applyColors newColors now w) = Returned tt →
  NoDup (Object_keys newColors) →
  let w1 := exec (applyColors newColors now) w in
  (∀ k hex, (k, hex) ∈ newColors → k ≠ MANAGED_KEY → k ≠ "__proto__" →
            cfg w1 !! k = Some (JStr hex)) ∧
  cfg w1 !! MANAGED_KEY
  = Some (JObj [("keys", JArr (JStr <$> Object_keys newColors)); ("appliedAt", JStr now)]) ∧
  fst (getManagedStatus w1)
  = Returned {| count := JNum (Z.of_nat (length newColors)); appliedAt := JStr now |}.
Proof.
  intros Hret Hnd. destruct (applyColors_returns _ _ _ Hret) as (ks & Hp & Hs).
  cbn zeta. set (w1 := exec (applyColors newColors now) w) in *.
  assert (Hc : cfg w1 = applied ks newColors now (cfg w)) by (unfold cfg at 1; by rewrite Hs).
  assert (Hmeta : cfg w1 !! MANAGED_KEY = Some (new_meta newColors now)).
  { rewrite Hc. apply lookup_insert_eq. }
  split; [| split; [exact Hmeta |]].
  - intros k hex Hin Hm Hproto. rewrite Hc. unfold applied.
    rewrite lookup_insert_ne by congruence. by apply merge_colors_value.
  - rewrite getManagedStatus_run. cbn [fst]. unfold read_meta. rewrite Hmeta.
    unfold new_meta.
    set (fields := [("keys", JArr (JStr <$> Object_keys newColors)); ("appliedAt", JStr now)]).
    assert (Hk : own_prop "keys" fields = Some (JArr (JStr <$> Object_keys newColors)))
      by reflexivity.
    assert (Ha : own_prop "appliedAt" fields = Some (JStr now)) by reflexivity.
    cbn [from_option nullish get_member member_name]. rewrite Hk, Ha.
    cbn [from_option get_member nullish_or nullish as_json].
    unfold Object_keys. by rewrite !length_fmap.
Qed.

Lemma apply_installs_palette_witness :
  let X := [("a.b", "#111"); ("c.d", "#222")] in
  let w1 := exec (applyColors X "T1") untouched_world in
  fst (applyColors X "T1" untouched_world) = Returned tt ∧
  NoDup (Object_keys X) ∧
  cfg w1 !! "c.d" = Some (JStr "#222") ∧
  fst (getManagedStatus w1) = Returned {| count := JNum 2; appliedAt := JStr "T1" |}.
Proof.
  cbn zeta.
  assert (Hret : fst (applyColors [("a.b", "#111"); ("c.d", "#222")] "T1" untouched_world)
                 = Returned tt) by (vm_compute; reflexivity).
  assert (Hnd : NoDup (Object_keys [("a.b", "#111"); ("c.d", "#222")])) by by_computation.
  destruct (apply_installs_palette untouched_world _ "T1" Hret Hnd) as (Hcol & _ & Hst).
  split; [exact Hret |]. split; [exact Hnd |]. split; [| exact Hst].
  apply Hcol; [by_computation | discriminate | discriminate].
Defined.

(** A color under the name [__proto__] is not stored on a configuration
    without an own property of that name, though the metadata lists it. *)
Example proto_token_not_stored :
  let w1 := exec (applyColors [("__proto__", "#fff")] "T1") quiet_world in
  cfg w1 !! "__proto__" = None ∧ owned_keys (cfg w1) = ["__proto__"].
Proof. vm_compute. split; reflexivity. Qed.

Lemma clearColors_nothing_to_clear (w : World) :
  cfg w !! MANAGED_KEY = None →
  clearColors w
  = (Returned tt,
     {| settings := settings w;
        journal := journal w ++ [(Info, "No managed colors found — nothing to clear.")];
        store_fault := store_fault w |}).
Proof.
  intros Hm.
  unfold clearColors, mbind, Eff_bind, eff_bind, config_get, lift, read_meta.
  fold (cfg w). by rewrite Hm.
Qed.

(** X5. Round trip on a configuration the extension never wrote to: when
    there is no metadata entry and no key of the non-empty palette [X] is
    in use, [applyColors(X)] followed by [clearColors()], both returning
    normally, gives back the configuration object it started from. *)
Theorem clear_undoes_apply (w : World) (newColors : ColorMap) (now : string) :
  newColors ≠ [] →
  cfg w !! MANAGED_KEY = None →
  (∀ k, k ∈ Object_keys newColors → cfg w !! k = None) →
  fst (applyColors newColors now w) = Returned tt →
  fst (clearColors (exec (applyColors newColors now) w)) = Returned tt →
  cfg (exec clearColors (exec (applyColors newColors now) w)) = cfg w.
Proof.
  intros Hne Hm Hfree Hret _.
  assert (Hp : previouslyManaged (cfg w) = Returned []).
  { unfold previouslyManaged, read_meta. by rewrite Hm. }
  destruct (applyColors_returns _ _ _ Hret) as (ks & Hp' & Hs).
  rewrite Hp in Hp'. injection Hp' as <-.
  destruct (applyColors_returns_store _ _ _ Hret) as [_ Hfault].
  set (w1 := exec (applyColors newColors now) w) in *.
  assert (Hc1 : cfg w1 = applied [] newColors now (cfg w))
    by (unfold cfg at 1; by rewrite Hs).
  destruct (clearColors_after_apply w1 [] newColors now (cfg w) Hne Hc1 Hfault) as [_ Hc2].
  rewrite Hc2, Hc1. apply map_eq. intros k.
  destruct (decide (k = MANAGED_KEY)) as [-> | Hk]; [by rewrite lookup_delete_eq, Hm |].
  rewrite lookup_delete_ne by congruence.
  destruct (decide (k ∈ Object_keys newColors)) as [Hin | Hout].
  - rewrite delete_all_gone by (by rewrite js_to_string_JStr). symmetry. by apply Hfree.
  - rewrite delete_all_other by (by rewrite js_to_string_JStr).
    apply applied_other; [exact Hk | set_solver | exact Hout].
Qed.

Lemma clear_undoes_apply_witness :
  let X := [("a.b", "#111"); ("c.d", "#222")] in
  X ≠ [] ∧
  cfg untouched_world !! MANAGED_KEY = None ∧
  (∀ k, k ∈ Object_keys X → cfg untouched_world !! k = None) ∧
  fst (applyColors X "T1" untouched_world) = Returned tt ∧
  fst (clearColors (exec (applyColors X "T1") untouched_world)) = Returned tt ∧
  cfg (exec clearColors (exec (applyColors X "T1") untouched_world)) = cfg untouched_world.
Proof.
  cbn zeta.
  assert (Hne : [("a.b", "#111"); ("c.d", "#222")] ≠ @nil (string * string)) by discriminate.
  assert (Hm : cfg untouched_world !! MANAGED_KEY = None) by (vm_compute; reflexivity).
  assert (Hfree : ∀ k, k ∈ Object_keys [("a.b", "#111"); ("c.d", "#222")] →
                       cfg untouched_world !! k = None).
  { intros k Hk. apply elem_of_cons in Hk as [-> | Hk]; [vm_compute; reflexivity |].
    apply elem_of_cons in Hk as [-> | Hk]; [vm_compute; reflexivity | inversion Hk]. }
  assert (Hret : fst (applyColors [("a.b", "#111"); ("c.d", "#222")] "T1" untouched_world)
                 = Returned tt) by (vm_compute; reflexivity).
  assert (Hclr : fst (clearColors (exec (applyColors [("a.b", "#111"); ("c.d", "#222")] "T1")
                                        untouched_world))
                 = Returned tt) by (vm_compute; reflexivity).
  split; [exact Hne |]. split; [exact Hm |]. split; [exact Hfree |].
  split; [exact Hret |]. split; [exact Hclr |].
  exact (clear_undoes_apply untouched_world _ "T1" Hne Hm Hfree Hret Hclr).
Defined.

Lemma clearColors_settings_ext (w w' : World) :
  settings w = settings w' → store_fault w = store_fault w' →
  settings (exec clearColors w) = settings (exec clearColors w').
Proof.
  intros Hs Hfault.
  unfold clearColors, exec, mbind, Eff_bind, eff_bind, config_get, config_update,
    to_property_keys, lift, logger.
  cbn [fst snd]. rewrite <- Hs.
  destruct (falsy _); [exact Hs |].
  destruct (get_member _ Mkeys) as [keysv | e]; [| exact Hs].
  destruct (get_member keysv Mlength) as [len | e]; [| exact Hs].
  destruct (for_of "meta.keys" keysv) as [ks | e];
    destruct len as [| n | [| | [| p | p] | s | items | fields]]; cbn;
    try exact Hs;
    destruct (forallb stringifiable ks); cbn; try exact Hs;
    rewrite <- Hfault; destruct (store_fault w); cbn; first [exact Hs | reflexivity].
Qed.

(** X6. [clearColors] is idempotent on the settings: a second call in a row
    changes nothing, since the first one either had nothing to clear, or
    threw, or removed the metadata entry. *)
Theorem clearColors_idempotent (w : World) :
  settings (exec clearColors (exec clearColors w)) = settings (exec clearColors w).
Proof.
  destruct (clearColors_run w) as [Hs | (keysv & ks & Hk & Hf & _ & _ & Hs)].
  - exact (clearColors_settings_ext _ w Hs (clearColors_store_fault w)).
  - unfold exec at 1. rewrite clearColors_nothing_to_clear; [reflexivity |].
    unfold cfg. rewrite Hs. apply lookup_delete_eq.
Qed.

(** X7. An empty palette leaves the marker behind: when [applyColors({})]
    returns, the metadata entry records an empty key list with the time of
    the call, and a following [clearColors()] returns normally, finds
    nothing to clear and leaves the settings, marker included, as they
    are. *)
Theorem apply_empty_palette (w : World) (now : string) :
  fst (applyColors [] now w) = Returned tt →
  let w1 := exec (applyColors [] now) w in
  cfg w1 !! MANAGED_KEY = Some (JObj [("keys", JArr []); ("appliedAt", JStr now)]) ∧
  fst (clearColors w1) = Returned tt ∧
  settings (exec clearColors w1) = settings w1.
Proof.
  intros Hret. destruct (applyColors_returns _ _ _ Hret) as (ks & Hp & Hs).
  cbn zeta. set (w1 := exec (applyColors [] now) w) in *.
  assert (Hc : cfg w1 = applied ks [] now (cfg w)) by (unfold cfg at 1; by rewrite Hs).
  assert (Hm : cfg w1 !! MANAGED_KEY = Some (new_meta [] now))
    by (rewrite Hc; apply lookup_insert_eq).
  split; [exact Hm |].
  unfold clearColors, exec, mbind, Eff_bind, eff_bind, config_get, lift, read_meta.
  fold (cfg w1). rewrite Hm. split; reflexivity.
Qed.

Lemma apply_empty_palette_witness :
  let w1 := exec (applyColors [] "T1") scenario_world in
  fst (applyColors [] "T1" scenario_world) = Returned tt ∧
  cfg w1 !! MANAGED_KEY = Some (JObj [("keys", JArr []); ("appliedAt", JStr "T1")]) ∧
  settings (exec clearColors w1) = settings w1.
Proof.
  cbn zeta.
  assert (Hret : fst (applyColors [] "T1" scenario_world) = Returned tt)
    by (vm_compute; reflexivity).
  destruct (apply_empty_palette scenario_world "T1" Hret) as (Hm & _ & Hclear).
  split; [exact Hret |]. split; [exact Hm | exact Hclear].
Defined.

(** * Further properties of the palette reader *)

Lemma cm_set_keys (key value : string) (colors : ColorMap) :
  Object_keys (cm_set key value colors)
  = if decide (key ∈ Object_keys colors) then Object_keys colors
    else (Object_keys colors ++ [key])%list.
Proof.
  unfold Object_keys. induction colors as [| [k v] rest IH]; [reflexivity |].
  cbn [cm_set]. destruct (decide (k = key)) as [-> | Hne].
  - rewrite !fmap_cons. cbn [fst]. rewrite decide_True by left. reflexivity.
  - rewrite !fmap_cons. cbn [fst]. rewrite IH.
    destruct (decide (key ∈ rest.*1)) as [Hin | Hout].
    + rewrite decide_True by (by right). reflexivity.
    + rewrite decide_False; [reflexivity |].
      intros Hin. apply elem_of_cons in Hin as [E | Hin]; [by destruct Hne | contradiction].
Qed.

Lemma cm_set_elem (key value : string) (colors : ColorMap) (kv : string * string) :
  kv ∈ cm_set key value colors → kv = (key, value) ∨ kv ∈ colors.
Proof.
  induction colors as [| [k v] rest IH]; cbn [cm_set].
  - intros H. apply elem_of_cons in H as [-> | H]; [by left | inversion H].
  - destruct (decide (k = key)) as [-> | Hne]; intros H;
      apply elem_of_cons in H as [-> | H].
    + by left.
    + right. by right.
    + right. left.
    + destruct (IH H) as [-> | Hin]; [by left | right; by right].
Qed.

(** What every ColorMap built by the loop satisfies. *)
Lemma extract_tokens_keeps (P : ColorMap → Prop) (entries : list (string * JValue)) :
  (∀ k v c, isColorToken k = true → isHex v = true → P c → P (cm_set k v c)) →
  ∀ colors skipped w, P colors →
    ∃ colors' skipped' w',
      extract_tokens entries colors skipped w = (Returned (colors', skipped'), w') ∧ P colors'.
Proof.
  intros Hstep. induction entries as [| [key value] rest IH]; intros colors skipped w HP.
  - by exists colors, skipped, w.
  - cbn [extract_tokens]. destruct (isColorToken key) eqn:Htok; cbn [negb]; [| by apply IH].
    destruct value as [| b | n | v | items | fields]; try (by apply IH).
    destruct (isHex v) eqn:Hhex; cbn [negb].
    + apply IH. by apply Hstep.
    + unfold mbind, Eff_bind, eff_bind. cbn [logger]. by apply IH.
Qed.

Lemma clean_cm_set (k v : string) (c : ColorMap) :
  isColorToken k = true → isHex v = true → clean c → clean (cm_set k v c).
Proof.
  intros Hk Hv [Hnd Hall]. split.
  - rewrite cm_set_keys. destruct (decide (k ∈ Object_keys c)) as [Hin | Hout]; [exact Hnd |].
    apply NoDup_app. split; [exact Hnd |]. split; [| apply NoDup_singleton].
    intros x Hx Hx'. apply list_elem_of_singleton in Hx'. by subst.
  - intros k' v' Hin. destruct (cm_set_elem _ _ _ _ Hin) as [[= -> ->] | Hold].
    + split; [by apply isColorToken_spec | by apply isHex_spec].
    + by apply Hall.
Qed.

Lemma token_shape_not_reserved : ¬ token_shape MANAGED_KEY.
Proof. intros [H _]. by apply (H "_matugenBridge"). Qed.

Lemma readPalette_returns
    (fs : string -> FileProbe) (JSON_parse : string -> string + JValue)
    (path : string) (w : World) :
  ∃ result w', readPalette fs JSON_parse path w = (Returned result, w') ∧
               settings w' = settings w.
Proof.
  unfold readPalette.
  destruct (fs path) as [| msg | raw] eqn:Hfs; try (by eexists _, w).
  destruct (JSON_parse raw) as [msg | parsed] eqn:Hparse; [by eexists _, w |].
  destruct parsed as [| b | n | s | items | entries]; try (by eexists _, w).
  destruct (extract_tokens_run entries [] 0 w) as (colors & w1 & Hrun & Hs & _).
  unfold mbind, Eff_bind, eff_bind. rewrite Hrun.
  destruct (bool_decide _); eexists _, _; (split; [reflexivity | exact Hs]).
Qed.

Lemma extract_tokens_appends (entries : list (string * JValue)) (colors : ColorMap)
    (skipped : nat) (w : World) :
  journal w `prefix_of` journal (snd (extract_tokens entries colors skipped w)).
Proof.
  revert colors skipped w.
  induction entries as [| [key value] rest IH]; intros colors skipped w; [reflexivity |].
  cbn [extract_tokens]. destruct (negb (isColorToken key)); [apply IH |].
  destruct value as [| b | n | v | items | fields]; try apply IH.
  destruct (negb (isHex v)); [| apply IH].
  unfold mbind, Eff_bind, eff_bind. cbn [logger].
  match goal with |- context [extract_tokens rest colors (S skipped) ?w1] =>
    pose proof (IH colors (S skipped) w1) as Hp;
    destruct (extract_tokens rest colors (S skipped) w1) as [[r | e] w2] end;
    cbn [snd journal] in Hp |- *; (etrans; [| exact Hp]); by apply prefix_app_r.
Qed.

(** X8. [readPalette] never throws, never writes the settings, and only
    ever adds lines to the log, whatever the file system and the parser
    answer. *)
Theorem readPalette_never_throws
    (fs : string -> FileProbe) (JSON_parse : string -> string + JValue)
    (path : string) (w : World) :
  ∃ result w', readPalette fs JSON_parse path w = (Returned result, w') ∧
               settings w' = settings w ∧
               journal w `prefix_of` journal w'.
Proof.
  destruct (readPalette_returns fs JSON_parse path w) as (r & w' & Hrun & Hs).
  exists r, w'. split; [exact Hrun |]. split; [exact Hs |].
  replace w' with (snd (readPalette fs JSON_parse path w)) by (by rewrite Hrun).
  unfold readPalette.
  destruct (fs path) as [| msg | raw]; try reflexivity.
  destruct (JSON_parse raw) as [msg | [| b | n | s | items | entries]]; try reflexivity.
  unfold mbind, Eff_bind, eff_bind.
  pose proof (extract_tokens_appends entries [] 0 w) as Hp.
  destruct (extract_tokens entries [] 0 w) as [[[c k] | e] w1]; cbn [snd] in Hp |- *;
    [| exact Hp].
  destruct (bool_decide _); cbn [snd logger journal]; [exact Hp |].
  etrans; [exact Hp |]. by apply prefix_app_r.
Qed.

(** X9. A ColorMap returned by [readPalette] is never empty, has distinct
    keys, and each of its entries has a token-shaped key and a hex color.
    In particular the reserved metadata key is never among its keys. *)
Theorem readPalette_result_clean
    (fs : string -> FileProbe) (JSON_parse : string -> string + JValue)
    (path : string) (w : World) (colors : ColorMap) :
  fst (readPalette fs JSON_parse path w) = Returned (ReadOk colors) →
  colors ≠ [] ∧ clean colors ∧ MANAGED_KEY ∉ Object_keys colors.
Proof.
  unfold readPalette.
  destruct (fs path) as [| msg | raw]; try discriminate.
  destruct (JSON_parse raw) as [msg | parsed]; [discriminate |].
  destruct parsed as [| b | n | s | items | entries]; try discriminate.
  destruct (extract_tokens_keeps clean entries clean_cm_set [] 0 w)
    as (c' & n' & w' & Hrun & Hclean).
  { split; [constructor | intros k v H; inversion H]. }
  unfold mbind, Eff_bind, eff_bind. rewrite Hrun.
  destruct (bool_decide (length (Object_keys c') = 0%nat)) eqn:Hlen; [discriminate |].
  cbn [fst]. intros [= <-]. split; [| split; [exact Hclean |]].
  - intros ->. by rewrite bool_decide_eq_true_2 in Hlen.
  - intros Hin. unfold Object_keys in Hin. apply list_elem_of_fmap in Hin as ([k v] & E & Hkv).
    cbn in E. subst k. destruct Hclean as [_ Hall].
    by apply token_shape_not_reserved, (Hall _ _ Hkv).
Qed.

Lemma readPalette_result_clean_witness :
  fst (readPalette (one_file "/p.json") (parse_as scenario_palette) "/p.json" quiet_world)
  = Returned (ReadOk [("editor.background", "#112233")]) ∧
  clean [("editor.background", "#112233")] ∧
  (MANAGED_KEY ∉ Object_keys [("editor.background", "#112233")]).
Proof.
  assert (Hrun : fst (readPalette (one_file "/p.json") (parse_as scenario_palette) "/p.json"
                        quiet_world)
                 = Returned (ReadOk [("editor.background", "#112233")]))
    by (vm_compute; reflexivity).
  split; [exact Hrun |].
  exact (proj2 (readPalette_result_clean _ _ _ _ _ Hrun)).
Defined.

(** X10. When the keys of the parsed object are distinct, the ColorMap lists
    the usable entries in the order of the file, and the closing debug line
    reports their number and the number of entries counted as skipped. *)
Theorem readPalette_keeps_file_order
    (fs : string -> FileProbe) (JSON_parse : string -> string + JValue)
    (path raw : string) (entries : list (string * JValue)) (w : World)
    (colors : ColorMap) :
  fs path = FileText raw →
  JSON_parse raw = inr (JObj entries) →
  NoDup entries.*1 →
  fst (readPalette fs JSON_parse path w) = Returned (ReadOk colors) →
  colors = omap usable entries ∧
  last (journal (exec (readPalette fs JSON_parse path) w))
  = Some (Debug,
          "Palette loaded: " +:+ pretty (length colors) +:+ " token(s) applied, "
          +:+ pretty (length (filter (fun kv => counts_as_skipped kv = true) entries))
          +:+ " skipped.").
Proof.
  intros Hfs Hparse Hnd.
  destruct (readPalette_run fs JSON_parse path raw entries w Hfs Hparse)
    as (c & skipped & w1 & Hext & Hrun).
  destruct (extract_tokens_run entries [] 0 w) as (c' & w' & Hrun' & _ & Hc).
  rewrite Hext in Hrun'. injection Hrun' as -> -> _.
  rewrite (Hc Hnd), app_nil_l in Hrun. unfold exec. rewrite Hrun.
  destruct (bool_decide _); [discriminate |].
  cbn [fst snd journal]. intros [= <-]. split; [reflexivity |].
  rewrite last_snoc. unfold Object_keys. by rewrite length_fmap.
Qed.

Lemma readPalette_keeps_file_order_witness :
  let fs := one_file "/p.json" in
  fs "/p.json" = FileText "palette" ∧
  parse_as scenario_palette "palette" = inr (JObj scenario_palette) ∧
  NoDup scenario_palette.*1 ∧
  fst (readPalette fs (parse_as scenario_palette) "/p.json" quiet_world)
  = Returned (ReadOk [("editor.background", "#112233")]) ∧
  last (journal (exec (readPalette fs (parse_as scenario_palette) "/p.json") quiet_world))
  = Some (Debug, "Palette loaded: 1 token(s) applied, 1 skipped.").
Proof.
  cbn zeta.
  assert (Hnd : NoDup scenario_palette.*1) by by_computation.
  assert (Hrun : fst (readPalette (one_file "/p.json") (parse_as scenario_palette) "/p.json"
                        quiet_world)
                 = Returned (ReadOk [("editor.background", "#112233")]))
    by (vm_compute; reflexivity).
  split; [reflexivity |]. split; [reflexivity |]. split; [exact Hnd |].
  split; [exact Hrun |].
  rewrite (proj2 (readPalette_keeps_file_order (one_file "/p.json") (parse_as scenario_palette)
                    "/p.json" "palette" scenario_palette quiet_world _
                    eq_refl eq_refl Hnd Hrun)).
  vm_compute. reflexivity.
Defined.

(** * Further properties of debounce *)

Section DebounceInContext.

Context {A : Type}.
Local Open Scope nat_scope.

Lemma invoke_schedules (delay d : nat) (waiting : option A) (a' : A) (L : Loop A) :
  closure_state delay d waiting L →
  closure_state delay d (Some a') (invoke d a' L) ∧
  clock (invoke d a' L) = clock L ∧
  executed (invoke d a' L) = executed L.
Proof.
  destruct waiting as [a |]; cbn [closure_state].
  - intros (id & Ht & Hc). unfold invoke. rewrite Hc. cbn [timer delayMs].
    unfold clearTimeout, setTimeout, set_timer.
    cbn [clock nextTimeout timeouts closures executed]. rewrite Ht.
    rewrite filter_cons_False by (intros H; by apply H). cbn [filter list_filter app].
    split; [| by split]. exists (nextTimeout L). split; [reflexivity |].
    by rewrite list_lookup_alter_eq, Hc.
  - intros (Ht & tm & Hc). unfold invoke. rewrite Hc. cbn [timer delayMs].
    assert (Hclear : match tm with Some id => clearTimeout id L | None => L end
                     = {| clock := clock L; nextTimeout := nextTimeout L; timeouts := [];
                          closures := closures L; executed := executed L |}).
    { destruct tm; unfold clearTimeout; rewrite ?Ht; [reflexivity |].
      destruct L; cbn in *; by subst. }
    rewrite Hclear. unfold setTimeout, set_timer.
    cbn [clock nextTimeout timeouts closures executed app].
    split; [| by split]. exists (nextTimeout L). split; [reflexivity |].
    by rewrite list_lookup_alter_eq, Hc.
Qed.

(** Time passing: a waiting call runs once its delay is over. *)
Lemma elapse_closure (delay d : nat) (waiting : option A) (gap : nat) (L : Loop A) :
  closure_state delay d waiting L →
  clock (elapse gap L) = clock L + gap ∧
  match waiting with
  | Some a =>
      if timer_delay delay <=? gap then
        closure_state delay d None (elapse gap L) ∧
        executed (elapse gap L) = (executed L ++ [(clock L + timer_delay delay, d, a)])%list
      else
        (∃ id, timeouts (elapse gap L) = [mkTimeout id (clock L + timer_delay delay) d a] ∧
               closures (elapse gap L) !! d = Some (mkDebounced delay (Some id))) ∧
        executed (elapse gap L) = executed L
  | None =>
      closure_state delay d None (elapse gap L) ∧ executed (elapse gap L) = executed L
  end.
Proof.
  destruct waiting as [a |]; cbn [closure_state].
  - intros (id & Ht & Hc).
    destruct (elapse_alone L _ gap Ht) as [Hearly Hdue]. cbn [dueAt owner args] in *.
    destruct (Nat.leb_spec (timer_delay delay) gap) as [Hle | Hlt].
    + rewrite Hdue by lia. cbn [clock timeouts closures executed]. split; [reflexivity |].
      rewrite Nat.max_r by lia. split; [| reflexivity]. split; [reflexivity |].
      exists None. by rewrite list_lookup_alter_eq, Hc.
    + rewrite Hearly by lia. cbn [clock timeouts closures executed].
      split; [reflexivity |]. split; [| reflexivity]. by exists id.
  - intros (Ht & tm & Hc). unfold elapse. rewrite Ht. cbn [length run_due].
    cbn [clock timeouts closures executed]. rewrite Ht. split; [reflexivity |].
    split; [| reflexivity]. split; [reflexivity | by exists tm].
Qed.

Lemma call_after_gap (delay d : nat) (waiting : option A) (gap : nat) (a' : A) (L : Loop A) :
  closure_state delay d waiting L →
  let L' := invoke d a' (elapse gap L) in
  closure_state delay d (Some a') L' ∧
  clock L' = clock L + gap ∧
  executed L' = (executed L ++
    match waiting with
    | Some a => if timer_delay delay <=? gap then [(clock L + timer_delay delay, d, a)] else []
    | None => []
    end)%list.
Proof.
  intros Hst. cbn zeta. destruct (elapse_closure delay d waiting gap L Hst) as [Hclock Hel].
  destruct waiting as [a |].
  - destruct (timer_delay delay <=? gap).
    + destruct Hel as [Hidle Hex].
      destruct (invoke_schedules delay d None a' _ Hidle) as (Hp & Hc & He).
      rewrite Hc, He, Hclock, Hex. by repeat split.
    + destruct Hel as [(id & Ht & Hcl) Hex].
      (* the timer set at the earlier call is still the closure's own *)
      unfold invoke. rewrite Hcl. cbn [timer delayMs].
      unfold clearTimeout, setTimeout, set_timer.
      cbn [clock nextTimeout timeouts closures executed]. rewrite Ht.
      rewrite filter_cons_False by (intros H; by apply H). cbn [filter list_filter app].
      rewrite Hclock, Hex, app_nil_r. split; [| by split].
      eexists. split; [reflexivity |]. cbn [closures].
      by rewrite list_lookup_alter_eq, Hcl.
  - destruct Hel as [Hidle Hex].
    destruct (invoke_schedules delay d None a' _ Hidle) as (Hp & Hc & He).
    rewrite Hc, He, Hclock, Hex, app_nil_r. by repeat split.
Qed.

(** X11. Debouncing in full, on a loop with no other timer: of any
    sequence of calls to one debounced closure, a call runs the wrapped
    function, with its own arguments and as long after it was made as its
    timer takes ([delay] milliseconds when that is between 1 and
    2147483647, one millisecond otherwise), exactly when no other call
    follows within that time; the calls cancelled by a later one never run,
    and nothing already run is lost or repeated. *)
Theorem debounce_runs_exactly (delay d : nat) (waiting : option A)
    (calls : list (nat * A)) (quiet : nat) (L : Loop A) :
  closure_state delay d waiting L →
  executed (elapse quiet (burst d calls L))
  = (executed L ++ expected_runs (timer_delay delay) d (clock L) waiting calls quiet)%list.
Proof.
  revert waiting L. induction calls as [| [gap a'] rest IH]; intros waiting L Hst.
  - cbn [burst expected_runs].
    destruct (elapse_closure delay d waiting quiet L Hst) as [_ Hel].
    destruct waiting as [a |].
    + destruct (timer_delay delay <=? quiet); [by destruct Hel as [_ ->] | destruct Hel as [_ ->]].
      by rewrite app_nil_r.
    + destruct Hel as [_ ->]. by rewrite app_nil_r.
  - cbn [burst expected_runs].
    destruct (call_after_gap delay d waiting gap a' L Hst) as (Hst' & Hclock & Hex).
    rewrite (IH _ _ Hst'), Hclock, Hex, <- app_assoc. reflexivity.
Qed.

End DebounceInContext.

Lemma debounce_runs_exactly_witness :
  let L := snd (debounce 300 (idle_loop 0)) in
  let calls := [(0, "a"); (100, "b"); (300, "c"); (50, "d")]%nat in
  closure_state 300 0 None L ∧
  executed (elapse 1000 (burst 0 calls L)) = [(400, 0, "b"); (750, 0, "d")]%nat.
Proof.
  cbn zeta.
  assert (Hst : closure_state 300 0 None (snd (debounce 300 (@idle_loop string 0)))).
  { split; [reflexivity | by exists None]. }
  split; [exact Hst |].
  rewrite (debounce_runs_exactly 300 0 None _ 1000 _ Hst). vm_compute. reflexivity.
Defined.

(** With a delay of 0 the timer takes one millisecond: a second call in
    the same millisecond still cancels the first. *)
Example debounce_zero_delay :
  let L := snd (debounce 0 (idle_loop 0)) in
  executed (elapse 0 (burst 0 [(0, "a"); (0, "b")]%nat L)) = [] ∧
  executed (elapse 1 (burst 0 [(0, "a"); (0, "b")]%nat L)) = [(1, 0, "b")]%nat.
Proof. vm_compute. split; reflexivity. Qed.

(** * Further properties of the watcher *)

Lemma stop_tidy (W : PaletteWatcher) (E : Env) :
  tidy W E →
  fsWatchers (snd (stop W E)) = [] ∧ listeners (snd (stop W E)) = [] ∧
  nextHandle (snd (stop W E)) = nextHandle E ∧ channel (snd (stop W E)) = channel E.
Proof.
  unfold tidy, stop. cbn [snd]. destruct (fsWatcher W) as [h |].
  - intros (Hw & Hl & ->). cbn [foldl dispose fsWatchers listeners nextHandle channel].
    rewrite Hw, Hl. split; [| split; [| by split]].
    + apply elem_of_nil_inv. intros x Hx. apply list_elem_of_filter in Hx as [Hne Hx].
      apply list_elem_of_singleton in Hx as ->. by apply Hne.
    + apply elem_of_nil_inv. intros x Hx.
      apply list_elem_of_filter in Hx as [Hne Hx].
      repeat (apply list_elem_of_filter in Hx as [_ Hx]).
      repeat (apply elem_of_cons in Hx as [-> | Hx]; [by apply Hne |]). inversion Hx.
  - intros (Hw & Hl & ->). by cbn.
Qed.

Lemma start_tidy (path : string) (W : PaletteWatcher) (E : Env) :
  tidy W E →
  tidy (fst (start path W E)) (snd (start path W E)) ∧
  fsWatcher (fst (start path W E)) = Some (nextHandle E) ∧
  currentPath (fst (start path W E)) = path.
Proof.
  intros Ht. destruct (stop_tidy W E Ht) as (Hw & Hl & Hn & _).
  unfold start. destruct (stop W E) as [W1 E1] eqn:Hstop. cbn [snd] in Hw, Hl, Hn.
  assert (Hd : disposables W1 = []) by (unfold stop in Hstop; by injection Hstop as <- _).
  unfold buildDebounced, debounce, createFileSystemWatcher, subscribe, with_loop, log_line.
  cbn [fst snd loop debounceMs fsWatchers listeners nextHandle channel].
  unfold tidy. cbn [fsWatcher currentPath disposables fsWatchers listeners].
  rewrite Hw, Hl, Hn, Hd. by repeat split.
Qed.

Lemma notify_fold_frame (path : string) (ev : FsEvent) (W : PaletteWatcher)
    (ls : list (nat * FsEvent)) (ws : list (nat * string)) (E : Env) :
  let R := foldl (fun E' w =>
                    if bool_decide (w.2 = path ∧ (w.1, ev) ∈ ls) then
                      match ev with
                      | Deleted => handleDelete W E'
                      | _ => handleEvent W E'
                      end
                    else E') E ws in
  fsWatchers R = fsWatchers E ∧ listeners R = listeners E ∧
  (ev = Deleted → loop R = loop E).
Proof.
  cbn zeta. revert E. induction ws as [| w ws IH]; intros E; [by repeat split |].
  cbn [foldl]. destruct (bool_decide _); [| apply IH].
  destruct ev.
  - destruct (IH (handleEvent W E)) as (-> & -> & Hl). by repeat split.
  - destruct (IH (handleEvent W E)) as (-> & -> & Hl). by repeat split.
  - destruct (IH (handleDelete W E)) as (-> & -> & Hl). repeat split. intros _. by rewrite Hl.
Qed.

(** A notification touches neither the subscriptions nor, for a delete,
    the timers. *)
Lemma notify_frame (path : string) (ev : FsEvent) (W : PaletteWatcher) (E : Env) :
  fsWatchers (notify path ev W E) = fsWatchers E ∧
  listeners (notify path ev W E) = listeners E ∧
  (ev = Deleted → loop (notify path ev W E) = loop E).
Proof. apply notify_fold_frame. Qed.

Lemma tidy_frame (W : PaletteWatcher) (E E' : Env) :
  fsWatchers E' = fsWatchers E → listeners E' = listeners E → tidy W E → tidy W E'.
Proof. unfold tidy. intros -> ->. done. Qed.

Lemma run_op_tidy (op : WatcherOp) (W : PaletteWatcher) (E : Env) :
  tidy W E → tidy (fst (run_op op (W, E))) (snd (run_op op (W, E))).
Proof.
  intros Ht. destruct op as [path | | path ev | dt | ms]; cbn [run_op fst snd].
  - apply start_tidy, Ht.
  - destruct (stop_tidy W E Ht) as (Hw & Hl & _). unfold tidy, stop in *. by cbn.
  - destruct (notify_frame path ev W E) as (Hw & Hl & _). by apply (tidy_frame W E).
  - by apply (tidy_frame W E).
  - by apply (tidy_frame W E).
Qed.

(** X12. However a watcher is driven (started and restarted on any paths,
    stopped, notified, left waiting, reconfigured), no subscription is
    leaked: while it watches, the host holds exactly one file watcher, on
    [watchedPath], with its three listeners; once stopped, none. *)
Theorem watcher_never_leaks (delay : nat) (ops : list WatcherOp) :
  tidy (fst (run_ops ops (new_PaletteWatcher (fresh_env delay))))
       (snd (run_ops ops (new_PaletteWatcher (fresh_env delay)))).
Proof.
  assert (Hinit : tidy (fst (new_PaletteWatcher (fresh_env delay)))
                       (snd (new_PaletteWatcher (fresh_env delay)))) by (by cbn).
  revert Hinit. generalize (new_PaletteWatcher (fresh_env delay)) as WE.
  unfold run_ops. induction ops as [| op ops IH]; intros WE Hinit; [exact Hinit |].
  cbn [foldl]. apply IH. destruct WE as [W E]. by apply run_op_tidy.
Qed.

Example watcher_two_restarts :
  let '(W, E) := run_ops [OpStart "/a.json"; OpNotify "/a.json" Changed; OpStart "/b.json";
                          OpWait 500; OpStart "/c.json"]
                         (new_PaletteWatcher (fresh_env 300)) in
  fsWatchers E = [(2, "/c.json")]%nat ∧ currentPath W = "/c.json" ∧
  length (listeners E) = 3%nat.
Proof. vm_compute. by repeat split. Qed.

Lemma notify_watched_change (W : PaletteWatcher) (E : Env) (ev : FsEvent) :
  tidy W E → is_Some (fsWatcher W) → ev ≠ Deleted →
  notify (currentPath W) ev W E = handleEvent W E.
Proof.
  unfold tidy, notify. intros Ht [h Hh] Hev. rewrite Hh in Ht. destruct Ht as (Hw & Hl & _).
  rewrite Hw, Hl. cbn [foldl fst snd].
  rewrite bool_decide_eq_true_2; [by destruct ev |].
  split; [reflexivity |]. destruct ev; set_solver.
Qed.

(** X13. Which notifications reach the watcher: on a watcher without
    leaked subscriptions, a create or change of the watched path calls the
    debounced callback, a delete of it only writes one log line, and a
    notification for any other path, or for any path once the watcher is
    stopped, changes nothing at all. A delete never touches the timers. *)
Theorem notify_dispatch (W : PaletteWatcher) (E : Env) (path : string) (ev : FsEvent) :
  tidy W E →
  notify path ev W E
  = (if bool_decide (is_Some (fsWatcher W) ∧ path = currentPath W) then
       match ev with
       | Deleted => handleDelete W E
       | _ => handleEvent W E
       end
     else E) ∧
  loop (handleDelete W E) = loop E.
Proof.
  intros Ht. split; [| reflexivity]. unfold tidy in Ht. unfold notify.
  destruct (fsWatcher W) as [h |].
  - destruct Ht as (Hw & Hl & _). rewrite Hw, Hl. cbn [foldl fst snd].
    destruct (decide (path = currentPath W)) as [-> | Hne].
    + rewrite (bool_decide_eq_true_2 (is_Some (Some h) ∧ _)) by (split; [by eexists | done]).
      rewrite bool_decide_eq_true_2; [reflexivity |].
      split; [reflexivity |]. destruct ev; set_solver.
    + rewrite (bool_decide_eq_false_2 (is_Some (Some h) ∧ _)) by (intros [_ ?]; done).
      rewrite bool_decide_eq_false_2; [reflexivity |]. intros [? _]. by apply Hne.
  - destruct Ht as (Hw & _). rewrite Hw. cbn [foldl].
    rewrite bool_decide_eq_false_2; [reflexivity |]. intros [[? ?] _]. discriminate.
Qed.

Lemma notify_dispatch_witness :
  let '(W, E) := run_ops [OpStart "/a.json"] (new_PaletteWatcher (fresh_env 300)) in
  tidy W E ∧
  notify "/other.json" Changed W E = E ∧
  timeouts (loop (notify "/a.json" Deleted W E)) = [] ∧
  timeouts (loop (notify "/a.json" Created W E)) = [mkTimeout 0 300 2 tt].
Proof.
  destruct (run_ops [OpStart "/a.json"] (new_PaletteWatcher (fresh_env 300)))
    as [W E] eqn:Hrun.
  assert (Ht : tidy W E).
  { injection Hrun as <- <-. by vm_compute. }
  assert (HW : W = fst (run_ops [OpStart "/a.json"] (new_PaletteWatcher (fresh_env 300))))
    by (by rewrite Hrun).
  assert (HE : E = snd (run_ops [OpStart "/a.json"] (new_PaletteWatcher (fresh_env 300))))
    by (by rewrite Hrun).
  split; [exact Ht |]. split; [| split].
  - rewrite (proj1 (notify_dispatch W E "/other.json" Changed Ht)).
    rewrite bool_decide_eq_false_2; [reflexivity |].
    rewrite HW. vm_compute. intros [_ ?]. discriminate.
  - rewrite (proj1 (notify_dispatch W E "/a.json" Deleted Ht)).
    rewrite HW, HE. vm_compute. reflexivity.
  - rewrite (proj1 (notify_dispatch W E "/a.json" Created Ht)).
    rewrite HW, HE. vm_compute. reflexivity.
Defined.

Lemma started_state (path : string) (W0 : PaletteWatcher) (E0 : Env) :
  timeouts (loop E0) = [] →
  closure_state (debounceMs E0) (debouncedCallback (fst (start path W0 E0))) None
                (loop (snd (start path W0 E0))) ∧
  clock (loop (snd (start path W0 E0))) = clock (loop E0) ∧
  executed (loop (snd (start path W0 E0))) = executed (loop E0).
Proof.
  intros Hidle. destruct (start_loop path W0 E0) as [-> ->].
  unfold debounce. cbn [snd closure_state timeouts closures clock executed].
  repeat split; [exact Hidle |]. exists None.
  rewrite lookup_app_r by lia. by rewrite Nat.sub_diag.
Qed.

(** One create or change notification on a watcher whose closure has
    nothing scheduled. *)
Lemma change_schedules_onChange (W : PaletteWatcher) (E : Env) (delay dt : nat)
    (ev : FsEvent) :
  tidy W E → is_Some (fsWatcher W) → ev ≠ Deleted →
  closure_state delay (debouncedCallback W) None (loop E) →
  onChange_runs (wait dt (notify (currentPath W) ev W E))
  = (onChange_runs E ++ (if (timer_delay delay <=? dt)%nat
                         then [(clock (loop E) + timer_delay delay)%nat]
                         else []))%list.
Proof.
  intros Ht Hw Hev Hst.
  rewrite (notify_watched_change W E ev Ht Hw Hev). unfold onChange_runs, wait, handleEvent, with_loop, log_line. cbn [loop].
  destruct (invoke_schedules delay (debouncedCallback W) None tt _ Hst) as (Hp & Hc & He).
  destruct (elapse_closure delay _ (Some tt) dt _ Hp) as [_ Hel].
  rewrite Hc in Hel. destruct (timer_delay delay <=? dt)%nat.
  - destruct Hel as [_ ->]. by rewrite He, fmap_app.
  - destruct Hel as [_ ->]. by rewrite He, app_nil_r.
Qed.

(** X14. After [start(path)] on a watcher with no timer pending, one create
    or change notification for that path runs [onChange] exactly once,
    after the delay that was configured when [start] ran (one millisecond
    when that setting is 0 or above 2147483647), and not before; a later
    edit of [debounceMs] does not change the delay until the next
    restart. *)
Theorem change_runs_onChange_once (W0 : PaletteWatcher) (E0 : Env) (path : string)
    (ev : FsEvent) (ms' dt : nat) :
  tidy W0 E0 →
  timeouts (loop E0) = [] →
  ev ≠ Deleted →
  let W := fst (start path W0 E0) in
  let E := configure ms' (snd (start path W0 E0)) in
  onChange_runs (wait dt (notify path ev W E))
  = (onChange_runs E0 ++ (if (timer_delay (debounceMs E0) <=? dt)%nat
                          then [(clock (loop E0) + timer_delay (debounceMs E0))%nat]
                          else []))%list.
Proof.
  intros Ht Hidle Hev. cbn zeta.
  destruct (start_tidy path W0 E0 Ht) as (Ht' & Hw & Hp).
  destruct (started_state path W0 E0 Hidle) as (Hst & Hc & He).
  set (W := fst (start path W0 E0)) in *. set (E' := snd (start path W0 E0)) in *.
  assert (Htc : tidy W (configure ms' E')) by (by apply (tidy_frame W E')).
  pose proof (change_schedules_onChange W (configure ms' E') (debounceMs E0) dt ev Htc
                ltac:(rewrite Hw; by eexists) Hev Hst) as Hrun.
  rewrite Hp in Hrun. rewrite Hrun. unfold onChange_runs. cbn [configure loop].
  by rewrite Hc, He.
Qed.

Lemma change_runs_onChange_once_witness :
  let '(W0, E0) := new_PaletteWatcher (fresh_env 300) in
  let W := fst (start "/a.json" W0 E0) in
  let E := configure 50 (snd (start "/a.json" W0 E0)) in
  tidy W0 E0 ∧ timeouts (loop E0) = [] ∧ Changed ≠ Deleted ∧
  onChange_runs (wait 299 (notify "/a.json" Changed W E)) = [] ∧
  onChange_runs (wait 300 (notify "/a.json" Changed W E)) = [300%nat].
Proof.
  destruct (new_PaletteWatcher (fresh_env 300)) as [W0 E0] eqn:Hnew.
  assert (HW : W0 = fst (new_PaletteWatcher (fresh_env 300))) by (by rewrite Hnew).
  assert (HE : E0 = snd (new_PaletteWatcher (fresh_env 300))) by (by rewrite Hnew).
  cbn zeta.
  assert (Ht : tidy W0 E0) by (rewrite HW, HE; by cbn).
  assert (Hidle : timeouts (loop E0) = []) by (by rewrite HE).
  assert (Hev : Changed ≠ Deleted) by discriminate.
  split; [exact Ht |]. split; [exact Hidle |]. split; [exact Hev |].
  rewrite !(change_runs_onChange_once W0 E0 "/a.json" Changed 50 _ Ht Hidle Hev).
  rewrite HE. vm_compute. by split.
Defined.

(** With [debounceMs] set to 0 the callback runs one millisecond after the
    notification, not in the course of it. *)
Example change_with_zero_debounce :
  let '(W0, E0) := new_PaletteWatcher (fresh_env 0) in
  let '(W, E) := start "/a.json" W0 E0 in
  onChange_runs (wait 0 (notify "/a.json" Changed W E)) = [] ∧
  onChange_runs (wait 1 (notify "/a.json" Changed W E)) = [1%nat].
Proof. vm_compute. split; reflexivity. Qed.

(** X15. Delete, then reappear: on a started watcher with no timer pending,
    a delete notification followed by a create notification for the watched
    path runs [onChange] exactly once, [debounceMs] after the create (one
    millisecond after it when that setting is 0 or above 2147483647); the
    delete itself schedules nothing. *)
Theorem delete_then_create_runs_once (W0 : PaletteWatcher) (E0 : Env) (path : string)
    (gap dt : nat) :
  tidy W0 E0 →
  timeouts (loop E0) = [] →
  let W := fst (start path W0 E0) in
  let E := snd (start path W0 E0) in
  let deleted := wait gap (notify path Deleted W E) in
  onChange_runs deleted = onChange_runs E0 ∧
  onChange_runs (wait dt (notify path Created W deleted))
  = (onChange_runs E0 ++ (if (timer_delay (debounceMs E0) <=? dt)%nat
                          then [(clock (loop E0) + gap + timer_delay (debounceMs E0))%nat]
                          else []))%list.
Proof.
  intros Ht Hidle. cbn zeta.
  destruct (start_tidy path W0 E0 Ht) as (Ht' & Hw & Hp).
  destruct (started_state path W0 E0 Hidle) as (Hst & Hc & He).
  set (W := fst (start path W0 E0)) in *. set (E := snd (start path W0 E0)) in *.
  destruct (notify_frame path Deleted W E) as (Hfw & Hfl & Hloop).
  specialize (Hloop eq_refl).
  set (E1 := notify path Deleted W E) in *.
  assert (Hst1 : closure_state (debounceMs E0) (debouncedCallback W) None (loop E1))
    by (by rewrite Hloop).
  destruct (elapse_closure _ _ None gap _ Hst1) as (Hclock & Hst2 & Hex).
  assert (Ht2 : tidy W (wait gap E1)) by (apply (tidy_frame W E); by cbn).
  split.
  - unfold onChange_runs, wait. cbn [with_loop loop]. by rewrite Hex, Hloop, He.
  - pose proof (change_schedules_onChange W (wait gap E1) (debounceMs E0) dt Created Ht2
                  ltac:(rewrite Hw; by eexists) ltac:(discriminate) Hst2) as Hrun.
    rewrite Hp in Hrun. rewrite Hrun. unfold onChange_runs, wait. cbn [with_loop loop].
    by rewrite Hex, Hclock, Hloop, He, Hc.
Qed.

Lemma delete_then_create_runs_once_witness :
  let '(W0, E0) := new_PaletteWatcher (fresh_env 300) in
  let W := fst (start "/a.json" W0 E0) in
  let E := snd (start "/a.json" W0 E0) in
  tidy W0 E0 ∧ timeouts (loop E0) = [] ∧
  onChange_runs (wait 400 (notify "/a.json" Created W
                             (wait 1000 (notify "/a.json" Deleted W E)))) = [1300%nat].
Proof.
  destruct (new_PaletteWatcher (fresh_env 300)) as [W0 E0] eqn:Hnew.
  assert (HW : W0 = fst (new_PaletteWatcher (fresh_env 300))) by (by rewrite Hnew).
  assert (HE : E0 = snd (new_PaletteWatcher (fresh_env 300))) by (by rewrite Hnew).
  cbn zeta.
  assert (Ht : tidy W0 E0) by (rewrite HW, HE; by cbn).
  assert (Hidle : timeouts (loop E0) = []) by (by rewrite HE).
  split; [exact Ht |]. split; [exact Hidle |].
  rewrite (proj2 (delete_then_create_runs_once W0 E0 "/a.json" 1000 400 Ht Hidle)).
  rewrite HE. vm_compute. reflexivity.
Defined.

(** X16. [stop()] (and so [dispose()]) keeps the watched path and releases
    every subscription, so no later notification reaches the watcher; but it
    leaves the timer queue alone: an invocation that was pending when the
    watcher was stopped still runs [onChange] when it comes due. *)
Theorem stop_keeps_pending_timer (W : PaletteWatcher) (E : Env) (t : Timeout unit)
    (dt : nat) :
  tidy W E →
  timeouts (loop E) = [t] →
  (dueAt t ≤ clock (loop E) + dt)%nat →
  let W' := fst (stop W E) in
  let E' := snd (stop W E) in
  currentPath W' = currentPath W ∧
  (∀ path ev, notify path ev W' E' = E') ∧
  onChange_runs (wait dt E') = (onChange_runs E ++ [Nat.max (clock (loop E)) (dueAt t)])%list.
Proof.
  intros Ht Hpending Hdue. cbn zeta.
  destruct (stop_tidy W E Ht) as (Hw & Hl & _). destruct (stop_loop W E) as [Hloop _].
  split; [reflexivity |]. split.
  - intros path ev. unfold notify. by rewrite Hw.
  - unfold onChange_runs, wait. cbn [with_loop loop]. rewrite Hloop.
    destruct (elapse_alone (loop E) t dt Hpending) as [_ Hrun]. rewrite (Hrun Hdue).
    cbn [executed]. by rewrite fmap_app.
Qed.

Lemma stop_keeps_pending_timer_witness :
  let '(W, E) := watching_with_pending in
  let t := mkTimeout 0 300 2 tt in
  tidy W E ∧ timeouts (loop E) = [t] ∧ (dueAt t ≤ clock (loop E) + 200)%nat ∧
  notify "/a.json" Changed (fst (stop W E)) (snd (stop W E)) = snd (stop W E) ∧
  onChange_runs (wait 200 (snd (stop W E))) = [300%nat].
Proof.
  destruct watching_with_pending as [W E] eqn:Hw.
  assert (HW : W = fst watching_with_pending) by (by rewrite Hw).
  assert (HE : E = snd watching_with_pending) by (by rewrite Hw).
  cbn zeta.
  assert (Ht : tidy W E) by (rewrite HW, HE; by vm_compute).
  assert (Hp : timeouts (loop E) = [mkTimeout 0 300 2 tt])
    by (rewrite HE; vm_compute; reflexivity).
  assert (Hdue : (dueAt (mkTimeout 0 300 2 tt) ≤ clock (loop E) + 200)%nat)
    by (rewrite HE; vm_compute; lia).
  destruct (stop_keeps_pending_timer W E _ 200 Ht Hp Hdue) as (_ & Hn & Hrun).
  split; [exact Ht |]. split; [exact Hp |]. split; [exact Hdue |].
  split; [apply Hn |]. rewrite Hrun, HE. vm_compute. reflexivity.
Defined.

(** * The logger *)

Lemma replay_monotone (low high : string) (calls : list (string * (LogLevel * string)))
    (lines lines' : list string) :
  (∀ target, Logger.shouldLog low target = true → Logger.shouldLog high target = true) →
  sublist lines lines' →
  sublist (Logger.replay low calls lines) (Logger.replay high calls lines').
Proof.
  intros Hmono. unfold Logger.replay. revert lines lines'.
  induction calls as [| [now [[] msg]] rest IH]; intros lines lines' Hsub; [exact Hsub | | |];
    cbn [foldl Logger.call]; apply IH.
  - unfold Logger.info. destruct (Logger.shouldLog low "info") eqn:Hl.
    + rewrite (Hmono _ Hl). by apply sublist_app.
    + destruct (Logger.shouldLog high "info"); [by apply sublist_inserts_r | exact Hsub].
  - unfold Logger.debug. destruct (Logger.shouldLog low "debug") eqn:Hl.
    + rewrite (Hmono _ Hl). by apply sublist_app.
    + destruct (Logger.shouldLog high "debug"); [by apply sublist_inserts_r | exact Hsub].
  - unfold Logger.error. by apply sublist_app.
Qed.

Lemma replay_prefix (level : string) (calls : list (string * (LogLevel * string)))
    (lines : list string) (x : string) :
  x ∈ lines → x ∈ Logger.replay level calls lines.
Proof.
  unfold Logger.replay. revert lines.
  induction calls as [| [now [[] msg]] rest IH]; intros lines Hx; [exact Hx | | |];
    cbn [foldl Logger.call]; apply IH;
    unfold Logger.info, Logger.debug, Logger.error;
    repeat case_match; set_solver.
Qed.

(** X17. Verbosity of the logger, for any sequence of calls made at one
    level: what is written at [silent] is written at [info], and what is
    written at [info] is written at [debug], in the same order; at [debug]
    every call writes a line; an error is written at every level, also when
    the configured level is not one of the three names, in which case the
    channel receives what it receives at [silent]. *)
Theorem logger_verbosity (calls : list (string * (LogLevel * string)))
    (lines : list string) :
  sublist (Logger.replay "silent" calls lines) (Logger.replay "info" calls lines) ∧
  sublist (Logger.replay "info" calls lines) (Logger.replay "debug" calls lines) ∧
  length (Logger.replay "debug" calls lines) = (length lines + length calls)%nat ∧
  (∀ level now msg,
     (now, (Error, msg)) ∈ calls →
     ("[ERROR] " +:+ now +:+ " " +:+ msg) ∈ Logger.replay level calls lines) ∧
  (∀ level,
     Logger.LEVEL_RANK level = None →
     Logger.replay level calls lines = Logger.replay "silent" calls lines).
Proof.
  split; [| split; [| split; [| split]]].
  - apply replay_monotone; [| reflexivity].
    intros target. unfold Logger.shouldLog. cbn.
    destruct (Logger.LEVEL_RANK target) as [[| n] |]; done.
  - apply replay_monotone; [| reflexivity].
    intros target. unfold Logger.shouldLog. cbn.
    destruct (Logger.LEVEL_RANK target) as [[| [| n]] |]; done.
  - unfold Logger.replay. revert lines.
    induction calls as [| [now [[] msg]] rest IH]; intros lines; cbn [foldl Logger.call length];
      [lia | | |]; rewrite IH; unfold Logger.info, Logger.debug, Logger.error;
      try change (Logger.shouldLog "debug" "info") with true;
      try change (Logger.shouldLog "debug" "debug") with true;
      cbn iota; rewrite length_app; cbn [length]; lia.
  - intros level now msg Hin. unfold Logger.replay. revert lines.
    induction calls as [| c rest IH]; intros lines; [inversion Hin |].
    apply elem_of_cons in Hin as [<- | Hin].
    + cbn [foldl Logger.call]. apply replay_prefix. unfold Logger.error. set_solver.
    + apply IH, Hin.
  - intros level Hnone. unfold Logger.replay. revert lines.
    induction calls as [| [now [[] msg]] rest IH]; intros lines; [reflexivity | | |];
      cbn [foldl Logger.call]; rewrite <- IH; f_equal;
      unfold Logger.info, Logger.debug, Logger.shouldLog; by rewrite Hnone.
Qed.

Lemma logger_verbosity_witness :
  let calls := [("T1", (Info, "a")); ("T2", (Debug, "b")); ("T3", (Error, "c"))] in
  (("T3", (Error, "c")) ∈ calls) ∧
  ("[ERROR] T3 c" ∈ Logger.replay "silent" calls []) ∧
  Logger.LEVEL_RANK "verbose" = None ∧
  Logger.replay "verbose" calls [] = Logger.replay "silent" calls [].
Proof.
  cbn zeta.
  destruct (logger_verbosity
              [("T1", (Info, "a")); ("T2", (Debug, "b")); ("T3", (Error, "c"))] [])
    as (_ & _ & _ & Herr & Hunknown).
  assert (Hin : ("T3", (Error, "c"))
                ∈ [("T1", (Info, "a")); ("T2", (Debug, "b")); ("T3", (Error, "c"))])
    by set_solver.
  split; [exact Hin |]. split; [exact (Herr "silent" "T3" "c" Hin) |].
  split; [reflexivity |]. apply Hunknown. reflexivity.
Defined.

Example logger_levels :
  let calls := [("T1", (Info, "a")); ("T2", (Debug, "b")); ("T3", (Error, "c"))] in
  Logger.replay "silent" calls [] = ["[ERROR] T3 c"] ∧
  Logger.replay "info" calls [] = ["[INFO]  T1 a"; "[ERROR] T3 c"] ∧
  Logger.replay "verbose" calls [] = ["[ERROR] T3 c"].
Proof. vm_compute. by repeat split. Qed.

(** * The entry point *)

(** The result of reading a palette does not depend on the world. *)
Lemma extract_tokens_result_ext (entries : list (string * JValue)) (colors : ColorMap)
    (skipped : nat) (w w' : World) :
  fst (extract_tokens entries colors skipped w) = fst (extract_tokens entries colors skipped w').
Proof.
  revert colors skipped w w'.
  induction entries as [| [key value] rest IH]; intros colors skipped w w'; [reflexivity |].
  cbn [extract_tokens]. destruct (negb (isColorToken key)); [apply IH |].
  destruct value as [| b | n | v | items | fields]; try apply IH.
  destruct (negb (isHex v)); [| apply IH].
  unfold mbind, Eff_bind, eff_bind. cbn [logger]. apply IH.
Qed.

Lemma readPalette_result_ext (fs : string -> FileProbe)
    (JSON_parse : string -> string + JValue) (path : string) (w w' : World) :
  fst (readPalette fs JSON_parse path w) = fst (readPalette fs JSON_parse path w').
Proof.
  unfold readPalette. destruct (fs path) as [| msg | raw]; try reflexivity.
  destruct (JSON_parse raw) as [msg | [| b | n | s | items | entries]]; try reflexivity.
  unfold mbind, Eff_bind, eff_bind.
  pose proof (extract_tokens_result_ext entries [] 0 w w') as Hext.
  destruct (extract_tokens entries [] 0 w) as [[[c n] | e] w1];
    destruct (extract_tokens entries [] 0 w') as [[[c' n'] | e'] w1']; cbn [fst] in Hext;
    try discriminate; [| by injection Hext as ->].
  injection Hext as -> ->. by destruct (bool_decide _).
Qed.

Lemma readPalette_settings (fs : string -> FileProbe)
    (JSON_parse : string -> string + JValue) (path : string) (w : World) :
  settings (snd (readPalette fs JSON_parse path w)) = settings w.
Proof.
  destruct (readPalette_returns fs JSON_parse path w) as (r & w' & Hrun & Hs).
  by rewrite Hrun.
Qed.

Lemma extract_tokens_store_fault (entries : list (string * JValue)) (colors : ColorMap)
    (skipped : nat) (w : World) :
  store_fault (snd (extract_tokens entries colors skipped w)) = store_fault w.
Proof.
  revert colors skipped w.
  induction entries as [| [key value] rest IH]; intros colors skipped w; [reflexivity |].
  cbn [extract_tokens]. destruct (negb (isColorToken key)); [apply IH |].
  destruct value as [| b | n | v | items | fields]; try apply IH.
  destruct (negb (isHex v)); [| apply IH].
  unfold mbind, Eff_bind, eff_bind. cbn [logger]. by rewrite IH.
Qed.

Lemma readPalette_store_fault (fs : string -> FileProbe)
    (JSON_parse : string -> string + JValue) (path : string) (w : World) :
  store_fault (snd (readPalette fs JSON_parse path w)) = store_fault w.
Proof.
  unfold readPalette.
  destruct (fs path) as [| msg | raw]; try reflexivity.
  destruct (JSON_parse raw) as [msg | [| b | n | s | items | entries]]; try reflexivity.
  unfold mbind, Eff_bind, eff_bind.
  pose proof (extract_tokens_store_fault entries [] 0 w) as Hf.
  destruct (extract_tokens entries [] 0 w) as [[[c k] | e] w1]; cbn [snd] in Hf |- *;
    [| exact Hf].
  by destruct (bool_decide _).
Qed.

(** The outcome of [applyColors] depends on the stored object and on
    whether the host takes writes, not on the log. *)
Lemma applyColors_result_ext (w w' : World) (newColors : ColorMap) (now : string) :
  settings w = settings w' → store_fault w = store_fault w' →
  fst (applyColors newColors now w) = fst (applyColors newColors now w').
Proof.
  intros Hs Hf. rewrite !applyColors_run. unfold cfg. rewrite <- Hs, <- Hf.
  destruct (previouslyManaged _); [| reflexivity]. by destruct (store_fault w).
Qed.

(** What one run of [applyPalette] returns and leaves in the settings. *)
Lemma applyPalette_settings
    (fs : string -> FileProbe) (JSON_parse : string -> string + JValue)
    (path : string) (silent : bool) (now : string) (s : Session) :
  fst (applyPalette fs JSON_parse path silent now s) = Returned tt ∧
  settings (world (snd (applyPalette fs JSON_parse path silent now s)))
  = match isEnabled s, fst (readPalette fs JSON_parse path (world s)),
          previouslyManaged (cfg (world s)), store_fault (world s) with
    | true, Returned (ReadOk colors), Returned ks, None =>
        Some (applied ks colors now (cfg (world s)))
    | _, _, _, _ => settings (world s)
    end.
Proof.
  unfold applyPalette, isEnabled, in_world. destruct (enabled s); cbn [negb]; [| by split].
  set (s1 := say Debug ("Reading palette from: " +:+ path) s).
  assert (Hs1 : settings (world s1) = settings (world s)) by reflexivity.
  assert (Hf1 : store_fault (world s1) = store_fault (world s)) by reflexivity.
  rewrite (readPalette_result_ext fs JSON_parse path (world s) (world s1)).
  pose proof (readPalette_settings fs JSON_parse path (world s1)) as Hrs.
  pose proof (readPalette_store_fault fs JSON_parse path (world s1)) as Hrf.
  destruct (readPalette_returns fs JSON_parse path (world s1)) as (r & w2 & Hrun & _).
  rewrite Hrun in Hrs, Hrf |- *. cbn [fst snd world with_world] in Hrs, Hrf |- *.
  assert (Hcfg : cfg w2 = cfg (world s)) by (unfold cfg; by rewrite Hrs, Hs1).
  assert (Hfault : store_fault w2 = store_fault (world s)) by (by rewrite Hrf, Hf1).
  destruct r as [colors | error].
  - rewrite applyColors_run, Hcfg, Hfault.
    destruct (previouslyManaged (cfg (world s))) as [ks | e]; cbn [fst snd].
    + destruct (store_fault (world s)); cbn [fst snd].
      * split; [reflexivity |]. cbn. by rewrite Hrs, Hs1.
      * split; [reflexivity |]. by destruct silent.
    + split; [reflexivity |]. cbn. by rewrite Hrs, Hs1.
  - split; [reflexivity |].
    assert (settings (world (say Error error (with_world w2 s1))) = settings (world s))
      by (cbn; by rewrite Hrs, Hs1).
    by destruct silent.
Qed.

(** X18. [applyPalette] never throws, and it writes the settings only on
    full success: if the settings differ after a run, then the extension
    was enabled, the palette file was read successfully, the merge did not
    throw, and the settings now hold the merge of the colors read into the
    object that was there. In every other case (disabled, file missing,
    unreadable, malformed or without usable tokens, merge throwing) the
    previous settings stay. *)
Theorem applyPalette_writes_only_on_success
    (fs : string -> FileProbe) (JSON_parse : string -> string + JValue)
    (path : string) (silent : bool) (now : string) (s : Session) :
  fst (applyPalette fs JSON_parse path silent now s) = Returned tt ∧
  (settings (world (snd (applyPalette fs JSON_parse path silent now s)))
   ≠ settings (world s) →
   isEnabled s = true ∧
   ∃ colors ks,
     fst (readPalette fs JSON_parse path (world s)) = Returned (ReadOk colors) ∧
     previouslyManaged (cfg (world s)) = Returned ks ∧
     settings (world (snd (applyPalette fs JSON_parse path silent now s)))
     = Some (applied ks colors now (cfg (world s)))).
Proof.
  destruct (applyPalette_settings fs JSON_parse path silent now s) as [Hret Hset].
  split; [exact Hret |]. rewrite Hset. intros Hchanged.
  destruct (isEnabled s); [| done]. split; [reflexivity |].
  destruct (fst (readPalette fs JSON_parse path (world s))) as [[colors | error] | e];
    try done.
  destruct (previouslyManaged (cfg (world s))) as [ks | e]; [| done].
  destruct (store_fault (world s)); [done |].
  by exists colors, ks.
Qed.

Lemma applyPalette_writes_only_on_success_witness :
  let fs := one_file "/p.json" in
  let s' := snd (applyPalette fs (parse_as scenario_palette) "/p.json" true "T1"
                   fresh_session) in
  settings (world s') ≠ settings (world fresh_session) ∧
  cfg (world s') !! "editor.background" = Some (JStr "#112233") ∧
  cfg (world s') !! "user.key" = Some (JStr "#123").
Proof.
  cbn zeta.
  assert (Hne : settings (world (snd (applyPalette (one_file "/p.json")
                  (parse_as scenario_palette) "/p.json" true "T1" fresh_session)))
                ≠ settings (world fresh_session)) by (by vm_compute).
  split; [exact Hne |].
  destruct (proj2 (applyPalette_writes_only_on_success (one_file "/p.json")
                     (parse_as scenario_palette) "/p.json" true "T1" fresh_session) Hne)
    as (_ & colors & ks & Hread & Hp & Hs).
  unfold cfg. rewrite Hs. vm_compute in Hread, Hp.
  injection Hread as <-. injection Hp as <-. by vm_compute.
Defined.

(** X19. What a run of [applyPalette] shows to the user. Disabled: nothing.
    A failed read: a warning with the reader's error, unless the run is
    silent. A merge that returns normally: a status bar message with the
    number of colors, unless silent. A merge that throws, be it on the
    stored metadata or because the host rejects the write: an error message
    with the message of what was thrown, also in a silent run. *)
Theorem applyPalette_notifications
    (fs : string -> FileProbe) (JSON_parse : string -> string + JValue)
    (path : string) (silent : bool) (now : string) (s : Session) :
  shown (snd (applyPalette fs JSON_parse path silent now s))
  = (shown s ++
     if isEnabled s then
       match fst (readPalette fs JSON_parse path (world s)) with
       | Returned (ReadFailed error) =>
           if silent then [] else [WarningMessage ("Matugen Bridge: " +:+ error)]
       | Returned (ReadOk colors) =>
           match fst (applyColors colors now (world s)) with
           | Returned _ =>
               if silent then []
               else [StatusBarMessage ("$(paintcan) Matugen: "
                                       +:+ pretty (length (Object_keys colors))
                                       +:+ " colors applied") 4000]
           | Threw e =>
               [ErrorMessage ("Matugen Bridge: Failed to write color customizations: "
                              +:+ error_message e)]
           end
       | Threw _ => []
       end
     else [])%list.
Proof.
  unfold applyPalette, isEnabled, in_world.
  destruct (enabled s); cbn [negb]; [| by rewrite app_nil_r].
  set (s1 := say Debug ("Reading palette from: " +:+ path) s).
  assert (Hs1 : settings (world s1) = settings (world s)) by reflexivity.
  assert (Hf1 : store_fault (world s1) = store_fault (world s)) by reflexivity.
  rewrite (readPalette_result_ext fs JSON_parse path (world s) (world s1)).
  pose proof (readPalette_settings fs JSON_parse path (world s1)) as Hrs.
  pose proof (readPalette_store_fault fs JSON_parse path (world s1)) as Hrf.
  destruct (readPalette_returns fs JSON_parse path (world s1)) as (r & w2 & Hrun & _).
  rewrite Hrun in Hrs, Hrf |- *. cbn [fst snd world with_world] in Hrs, Hrf |- *.
  destruct r as [colors | error].
  - rewrite (applyColors_result_ext (world s) w2 colors now)
      by (by rewrite ?Hrs, ?Hrf, ?Hs1, ?Hf1).
    destruct (fst (applyColors colors now w2)) as [[] | e]; cbn [fst snd].
    + destruct silent; cbn; [by rewrite app_nil_r | reflexivity].
    + reflexivity.
  - destruct silent; cbn; [by rewrite app_nil_r | reflexivity].
Qed.

Example applyPalette_rejected_write :
  let s := {| world := {| settings := None; journal := []; store_fault := Some "EROFS" |};
              enabled := true; customPath := None; shown := [] |} in
  let s' := snd (applyPalette (one_file "/p.json") (parse_as scenario_palette) "/p.json"
                   true "T1" s) in
  settings (world s') = None ∧
  shown s'
  = [ErrorMessage "Matugen Bridge: Failed to write color customizations: EROFS"].
Proof. vm_compute. by split. Qed.

Example applyPalette_missing_file :
  let s' := snd (applyPalette (one_file "/p.json") (parse_as scenario_palette) "/q.json"
                   false "T1" fresh_session) in
  settings (world s') = settings (world fresh_session) ∧
  shown s' = [WarningMessage "Matugen Bridge: Palette file not found: /q.json"] ∧
  journal (world s')
  = [(Debug, "Reading palette from: /q.json"); (Error, "Palette file not found: /q.json")].
Proof. vm_compute. by repeat split. Qed.

Lemma readPalette_token_keys
    (fs : string -> FileProbe) (JSON_parse : string -> string + JValue)
    (path : string) (w : World) (colors : ColorMap) (k : string) :
  fst (readPalette fs JSON_parse path w) = Returned (ReadOk colors) →
  k ∈ Object_keys colors → token_shape k.
Proof.
  unfold readPalette.
  destruct (fs path) as [| msg | raw]; try discriminate.
  destruct (JSON_parse raw) as [msg | [| b | n | s | items | entries]]; try discriminate.
  destruct (extract_tokens_keeps
              (fun c => ∀ k, k ∈ Object_keys c → token_shape k) entries) with
    (colors := @nil (string * string)) (skipped := 0%nat) (w := w)
    as (c' & n' & w' & Hrun & Hkeys).
  - intros k0 v c Hk _ Hc k1. rewrite cm_set_keys.
    destruct (decide (k0 ∈ Object_keys c)); [apply Hc |].
    intros Hin. apply elem_of_app in Hin as [Hin | Hin]; [by apply Hc |].
    apply list_elem_of_singleton in Hin as ->. by apply isColorToken_spec.
  - intros k0 Hin. inversion Hin.
  - unfold mbind, Eff_bind, eff_bind. rewrite Hrun.
    destruct (bool_decide _); [discriminate |]. cbn [fst]. intros [= <-]. apply Hkeys.
Qed.

Lemma run_palette_keeps (r : PaletteRun) (s : Session) (k : string) :
  k ≠ MANAGED_KEY → ¬ token_shape k → k ∉ owned_keys (cfg (world s)) →
  cfg (world (run_palette r s)) !! k = cfg (world s) !! k ∧
  k ∉ owned_keys (cfg (world (run_palette r s))).
Proof.
  intros Hm Hshape Hown. unfold run_palette.
  destruct (applyPalette_settings (run_fs r) (run_parse r) (run_path r) (run_silent r)
              (run_now r) s) as [_ Hset].
  assert (Hsame : settings (world (snd (applyPalette (run_fs r) (run_parse r) (run_path r)
                    (run_silent r) (run_now r) s))) = settings (world s) →
                  cfg (world (snd (applyPalette (run_fs r) (run_parse r) (run_path r)
                    (run_silent r) (run_now r) s))) !! k = cfg (world s) !! k ∧
                  k ∉ owned_keys (cfg (world (snd (applyPalette (run_fs r) (run_parse r)
                    (run_path r) (run_silent r) (run_now r) s))))).
  { intros E. unfold cfg. rewrite E. by split. }
  destruct (isEnabled s); [| by apply Hsame].
  destruct (fst (readPalette (run_fs r) (run_parse r) (run_path r) (world s)))
    as [[colors | error] | e] eqn:Hread; try (by apply Hsame).
  destruct (previouslyManaged (cfg (world s))) as [ks | e] eqn:Hp; [| by apply Hsame].
  destruct (store_fault (world s)); [by apply Hsame |].
  assert (Hk : k ∉ Object_keys colors).
  { intros Hin. by apply Hshape, (readPalette_token_keys _ _ _ _ _ _ Hread). }
  unfold cfg at 1 3. rewrite Hset. cbn [default from_option id].
  rewrite owned_keys_applied. split; [| exact Hk].
  apply applied_other; [exact Hm | | exact Hk].
  by rewrite <- (previouslyManaged_owned_keys _ _ Hp).
Qed.

(** X20. Keys that are not token-shaped are out of reach of the palette:
    whatever the palette files contain, no sequence of [applyPalette] runs
    changes a key without a dot, or one that starts with an underscore,
    other than the reserved metadata key, provided that iterating the
    [keys] of the metadata stored to begin with does not yield that key
    (an element of the array that converts to it, or a character of
    [keys] when that is a string). *)
Theorem palette_never_touches_other_keys (runs : list PaletteRun) (s : Session)
    (k : string) :
  k ≠ MANAGED_KEY →
  ¬ token_shape k →
  k ∉ owned_keys (cfg (world s)) →
  cfg (world (run_palettes runs s)) !! k = cfg (world s) !! k.
Proof.
  intros Hm Hshape. unfold run_palettes. revert s.
  induction runs as [| r rest IH]; intros s Hown; [reflexivity |].
  cbn [foldl]. destruct (run_palette_keeps r s k Hm Hshape Hown) as [Hsame Hown'].
  rewrite (IH _ Hown'). exact Hsame.
Qed.

Lemma palette_never_touches_other_keys_witness :
  let hostile := [("plain", JStr "#fff"); ("_x.y", JStr "#fff"); ("user.key", JStr "#fff")] in
  let runs := [mkRun (one_file "/p.json") (parse_as hostile) "/p.json" true "T1";
               mkRun (one_file "/p.json") (parse_as scenario_palette) "/p.json" false "T2"] in
  ("plain" ≠ MANAGED_KEY) ∧ ¬ token_shape "plain" ∧
  ("plain" ∉ owned_keys (cfg (world fresh_session))) ∧
  cfg (world (run_palettes runs fresh_session)) !! "plain" = Some (JNum 7).
Proof.
  cbn zeta.
  assert (Hm : "plain" ≠ MANAGED_KEY) by discriminate.
  assert (Hshape : ¬ token_shape "plain").
  { rewrite <- isColorToken_spec. by vm_compute. }
  assert (Hown : "plain" ∉ owned_keys (cfg (world fresh_session))) by by_computation.
  split; [exact Hm |]. split; [exact Hshape |]. split; [exact Hown |].
  rewrite (palette_never_touches_other_keys _ fresh_session "plain" Hm Hshape Hown).
  vm_compute. reflexivity.
Defined.

Lemma status_of_applied (w : World) (ks : list JValue) (colors : ColorMap) (now : string)
    (current : gmap string JValue) :
  settings w = Some (applied ks colors now current) →
  fst (getManagedStatus w)
  = Returned {| count := JNum (Z.of_nat (length colors)); appliedAt := JStr now |}.
Proof.
  intros Hs. rewrite getManagedStatus_run. cbn [fst]. unfold read_meta, cfg. rewrite Hs.
  cbn [default from_option id]. unfold applied. rewrite lookup_insert_eq. unfold new_meta.
  set (fields := [("keys", JArr (JStr <$> Object_keys colors)); ("appliedAt", JStr now)]).
  assert (Hk : own_prop "keys" fields = Some (JArr (JStr <$> Object_keys colors)))
    by reflexivity.
  assert (Ha : own_prop "appliedAt" fields = Some (JStr now)) by reflexivity.
  cbn [from_option nullish get_member member_name]. rewrite Hk, Ha.
  cbn [from_option get_member nullish_or nullish as_json].
  unfold Object_keys. by rewrite !length_fmap.
Qed.

(** X21. From the file to the status: when the extension is enabled, the
    palette file parses as an object with distinct keys of which at least
    one entry is usable, and the merge of those entries returns normally
    (the stored metadata can be iterated, its keys convert to property
    names, and the host takes the write), a run of [applyPalette] makes the
    owned keys exactly the usable tokens of the file, in file order, and
    [getManagedStatus] then reports their number and the time of the
    run. *)
Theorem applyPalette_then_status
    (fs : string -> FileProbe) (JSON_parse : string -> string + JValue)
    (path raw : string) (entries : list (string * JValue)) (silent : bool) (now : string)
    (s : Session) :
  isEnabled s = true →
  fs path = FileText raw →
  JSON_parse raw = inr (JObj entries) →
  NoDup entries.*1 →
  omap usable entries ≠ [] →
  fst (applyColors (omap usable entries) now (world s)) = Returned tt →
  let w' := world (snd (applyPalette fs JSON_parse path silent now s)) in
  owned_keys (cfg w') = (omap usable entries).*1 ∧
  fst (getManagedStatus w')
  = Returned {| count := JNum (Z.of_nat (length (omap usable entries)));
                appliedAt := JStr now |}.
Proof.
  intros Hen Hfs Hparse Hnd Hsome Hret. cbn zeta.
  destruct (applyColors_returns _ _ _ Hret) as (ks & Hp & _).
  destruct (applyColors_returns_store _ _ _ Hret) as [Hfault _].
  destruct (applyPalette_settings fs JSON_parse path silent now s) as [_ Hset].
  assert (Hread : fst (readPalette fs JSON_parse path (world s))
                  = Returned (ReadOk (omap usable entries))).
  { destruct (readPalette_run fs JSON_parse path raw entries (world s) Hfs Hparse)
      as (c & skipped & w1 & Hext & Hrun).
    destruct (extract_tokens_run entries [] 0 (world s)) as (c' & w'' & Hrun' & _ & Hc).
    rewrite Hext in Hrun'. injection Hrun' as -> _ _.
    rewrite (Hc Hnd), app_nil_l in Hrun. rewrite Hrun.
    rewrite bool_decide_eq_false_2; [reflexivity |].
    unfold Object_keys. rewrite length_fmap. by destruct (omap usable entries). }
  rewrite Hen, Hread, Hp, Hfault in Hset. split.
  - unfold cfg. rewrite Hset. cbn [default from_option id]. apply owned_keys_applied.
  - by apply (status_of_applied _ ks _ _ (cfg (world s))).
Qed.

Lemma applyPalette_then_status_witness :
  let fs := one_file "/p.json" in
  let w' := world (snd (applyPalette fs (parse_as scenario_palette) "/p.json" true "T1"
                          fresh_session)) in
  isEnabled fresh_session = true ∧
  fs "/p.json" = FileText "palette" ∧
  NoDup scenario_palette.*1 ∧
  omap usable scenario_palette ≠ [] ∧
  fst (applyColors (omap usable scenario_palette) "T1" (world fresh_session)) = Returned tt ∧
  fst (getManagedStatus w') = Returned {| count := JNum 1; appliedAt := JStr "T1" |}.
Proof.
  cbn zeta.
  assert (Hnd : NoDup scenario_palette.*1) by by_computation.
  assert (Hsome : omap usable scenario_palette ≠ []) by (by vm_compute).
  assert (Hp : fst (applyColors (omap usable scenario_palette) "T1" (world fresh_session))
               = Returned tt)
    by (vm_compute; reflexivity).
  split; [reflexivity |]. split; [reflexivity |]. split; [exact Hnd |].
  split; [exact Hsome |]. split; [exact Hp |].
  rewrite (proj2 (applyPalette_then_status (one_file "/p.json") (parse_as scenario_palette)
                    "/p.json" "palette" scenario_palette true "T1" fresh_session
                    eq_refl eq_refl eq_refl Hnd Hsome Hp)).
  vm_compute. reflexivity.
Defined.

Lemma with_world_same (s : Session) : with_world (world s) s = s.
Proof. by destruct s. Qed.

(** X22. The clear command: whenever [clearColors] returns, also when it
    found nothing to clear and left the settings as they were, the user is
    told that the overrides were cleared; when [clearColors] throws, the
    command fails with that error and has changed and shown nothing. *)
Theorem clearOverrides_reports (s : Session) :
  (fst (clearColors (world s)) = Returned tt →
   fst (clearOverrides s) = Returned tt ∧
   shown (snd (clearOverrides s))
   = (shown s ++ [InformationMessage "Matugen Bridge: Color overrides cleared."])%list) ∧
  (cfg (world s) !! MANAGED_KEY = None →
   fst (clearColors (world s)) = Returned tt ∧
   settings (world (snd (clearOverrides s))) = settings (world s)) ∧
  (∀ e, fst (clearColors (world s)) = Threw e → clearOverrides s = (Threw e, s)).
Proof.
  unfold clearOverrides, in_world. split; [| split].
  - intros ->. by split.
  - intros Hm. rewrite (clearColors_nothing_to_clear _ Hm). by split.
  - intros e He. rewrite He. f_equal.
    pose proof (clearColors_threw _ _ He) as Hw. unfold exec in Hw. rewrite Hw.
    apply with_world_same.
Qed.

Lemma clearOverrides_reports_witness :
  cfg (world fresh_session) !! MANAGED_KEY = None ∧
  fst (clearColors (world fresh_session)) = Returned tt ∧
  settings (world (snd (clearOverrides fresh_session))) = settings (world fresh_session) ∧
  shown (snd (clearOverrides fresh_session))
  = [InformationMessage "Matugen Bridge: Color overrides cleared."].
Proof.
  assert (Hm : cfg (world fresh_session) !! MANAGED_KEY = None) by (vm_compute; reflexivity).
  destruct (clearOverrides_reports fresh_session) as (Hshown & Hnone & _).
  destruct (Hnone Hm) as [Hret Hset]. destruct (Hshown Hret) as [_ Hs].
  split; [exact Hm |]. split; [exact Hret |]. split; [exact Hset | exact Hs].
Defined.

(** X23. The status command after an apply: once [applyColors(X)] has
    returned, [showStatus] reports the number of keys of [X] and the time of
    that apply, together with the resolved palette path; after an apply of
    the empty palette it reports that there are no active overrides, though
    the metadata entry is there. It reveals the output channel and leaves
    the settings alone. *)
Theorem showStatus_after_apply
    (homedir : string) (XDG_CONFIG_HOME : option string) (path_join : list string -> string)
    (newColors : ColorMap) (now : string) (s : Session) :
  fst (applyColors newColors now (world s)) = Returned tt →
  let s1 := with_world (exec (applyColors newColors now) (world s)) s in
  let p := resolvePalettePath homedir XDG_CONFIG_HOME path_join (getCustomPath s) in
  let msg :=
    match newColors with
    | [] => "Matugen Bridge: No active overrides." +:+ newline +:+ "Watching: " +:+ p
    | _ => "Matugen Bridge: " +:+ js_to_string (JNum (Z.of_nat (length newColors)))
           +:+ " color(s) active" +:+ newline +:+ "Last applied: " +:+ now
           +:+ newline +:+ "Watching: " +:+ p
    end in
  showStatus homedir XDG_CONFIG_HOME path_join s1
  = (Returned tt, show OutputChannelShown (show (InformationMessage msg) s1)).
Proof.
  intros Hret. destruct (applyColors_returns _ _ _ Hret) as (ks & Hp & Hs). cbn zeta.
  set (w1 := exec (applyColors newColors now) (world s)) in *.
  unfold showStatus, in_world. cbn [world with_world].
  rewrite (status_of_applied w1 ks newColors now _ Hs).
  assert (Hsnd : snd (getManagedStatus w1) = w1) by (by rewrite getManagedStatus_run).
  rewrite Hsnd. cbn [count appliedAt getCustomPath customPath with_world].
  destruct newColors as [| c rest]; reflexivity.
Qed.

Lemma showStatus_after_apply_witness :
  let s1 := with_world (exec (applyColors [("c.d", "#fff")] "T1") (world fresh_session))
                       fresh_session in
  fst (applyColors [("c.d", "#fff")] "T1" (world fresh_session)) = Returned tt ∧
  shown (snd (showStatus "/home/u" None posix_join s1))
  = [InformationMessage
       ("Matugen Bridge: 1 color(s) active" +:+ newline +:+ "Last applied: T1" +:+ newline
        +:+ "Watching: /home/u/.config/VSCodium/User/Theme/vscode-palette.json");
     OutputChannelShown].
Proof.
  cbn zeta.
  assert (Hret : fst (applyColors [("c.d", "#fff")] "T1" (world fresh_session)) = Returned tt)
    by (vm_compute; reflexivity).
  split; [exact Hret |].
  rewrite (showStatus_after_apply "/home/u" None posix_join _ "T1" fresh_session Hret).
  vm_compute. reflexivity.
Defined.

(** X24. The apply-now command never throws and always answers an enabled
    user with exactly one notification (a warning, a status bar message or
    an error message); when the extension is disabled it shows nothing and
    leaves the settings untouched, the only trace being a debug line. *)
Theorem applyNow_feedback
    (fs : string -> FileProbe) (JSON_parse : string -> string + JValue)
    (homedir : string) (XDG_CONFIG_HOME : option string) (path_join : list string -> string)
    (now : string) (s : Session) :
  let s' := snd (applyNow fs JSON_parse homedir XDG_CONFIG_HOME path_join now s) in
  fst (applyNow fs JSON_parse homedir XDG_CONFIG_HOME path_join now s) = Returned tt ∧
  (isEnabled s = true → ∃ n, shown s' = (shown s ++ [n])%list) ∧
  (isEnabled s = false →
   shown s' = shown s ∧ settings (world s') = settings (world s) ∧
   journal (world s')
   = (journal (world s) ++ [(Debug, "Extension is disabled — skipping apply.")])%list).
Proof.
  cbn zeta. unfold applyNow.
  set (p := resolvePalettePath homedir XDG_CONFIG_HOME path_join (getCustomPath s)).
  split; [apply applyPalette_settings |]. split.
  - intros Hen. unfold applyPalette, in_world. rewrite Hen. cbn [negb].
    set (s1 := say Debug ("Reading palette from: " +:+ p) s).
    destruct (readPalette_returns fs JSON_parse p (world s1)) as (r & w2 & Hrun & _).
    rewrite Hrun. cbn [fst snd world with_world].
    destruct r as [colors | error]; [| by eexists].
    destruct (applyColors colors now w2) as [[[] | e] w3]; cbn [fst snd]; by eexists.
  - intros Hdis. unfold applyPalette. rewrite Hdis. by cbn.
Qed.

Lemma applyNow_feedback_witness :
  let s' := snd (applyNow (one_file "/p.json") (parse_as scenario_palette) "/home/u" None
                   posix_join "T1" fresh_session) in
  isEnabled fresh_session = true ∧
  shown s'
  = [WarningMessage
       ("Matugen Bridge: Palette file not found: "
        +:+ "/home/u/.config/VSCodium/User/Theme/vscode-palette.json")].
Proof.
  cbn zeta. split; [reflexivity |].
  destruct (proj1 (proj2 (applyNow_feedback (one_file "/p.json") (parse_as scenario_palette)
                            "/home/u" None posix_join "T1" fresh_session)) eq_refl)
    as [n Hn].
  rewrite Hn. vm_compute in Hn. injection Hn as <-. reflexivity.
Defined.
